(** * earthfile2llb: the target converter (converter.go)

    A shallow embedding of [earthfile2llb/converter.go].  The converter is a
    Go object mutated in place by one method per Earthfile command; here
    every method is a computation in a state-and-error monad over the
    [Converter] record.  The build graph ([llb.State]) is an opaque builder
    in the source: it is embedded as the free term algebra of the builder
    calls the converter makes, so that two states are equal exactly when
    they were built by the same calls.  Logging and the deprecation
    warnings printed on standard output are left out; cancellation through
    the [context.Context] is part of what a collaborator may yield. *)

From Stdlib Require Import ZArith Lia String Ascii List.
From stdpp Require Import base option list gmap strings sorting pretty.

Local Open Scope Z_scope.
Set Warnings "-clear-no-such-hyp".

(** ** Go's [strings] package, on byte strings *)

Module GoStrings.

(** [strings.HasPrefix(s, prefix)] *)
Definition HasPrefix (s p : string) : bool := String.prefix p s.

(** [strings.Contains(s, substr)] *)
Fixpoint Contains (s sub : string) : bool :=
  String.prefix sub s ||
  match s with
  | EmptyString => false
  | String _ s' => Contains s' sub
  end.

(** [strings.HasSuffix(s, suffix)] *)
Fixpoint HasSuffix (s suf : string) : bool :=
  String.eqb s suf ||
  match s with
  | EmptyString => false
  | String _ s' => HasSuffix s' suf
  end.

(** [strings.TrimPrefix(s, prefix)] *)
Definition TrimPrefix (s p : string) : string :=
  if String.prefix p s
  then String.substring (String.length p) (String.length s - String.length p) s
  else s.

(** [strings.Join(a, sep)] *)
Definition Join (a : list string) (sep : string) : string := String.concat sep a.

(** The text before and after the first occurrence of the byte [sep], if
    there is one. *)
Fixpoint cut (sep : ascii) (s : string) : option (string * string) :=
  match s with
  | EmptyString => None
  | String a s' =>
      if Ascii.eqb a sep then Some (EmptyString, s')
      else match cut sep s' with
           | Some (l, r) => Some (String a l, r)
           | None => None
           end
  end.

(** [strings.SplitN(s, sep, 2)] for a one-byte separator: at most two
    parts, split at the first separator. *)
Definition SplitN2 (s : string) (sep : ascii) : list string :=
  match cut sep s with
  | Some (l, r) => [l; r]
  | None => [s]
  end.

(** [strings.Split(s, sep)] for a one-byte separator. *)
Fixpoint Split_go (sep : ascii) (cur : string) (s : string) : list string :=
  match s with
  | EmptyString => [String.rev cur]
  | String a s' =>
      if Ascii.eqb a sep then String.rev cur :: Split_go sep EmptyString s'
      else Split_go sep (String a cur) s'
  end.

Definition Split (s : string) (sep : ascii) : list string :=
  Split_go sep EmptyString s.

End GoStrings.

(** ** Go's [path] package (slash-separated paths, lexical processing) *)

Module GoPath.

Definition slash : ascii := "/"%char.

(** The element loop of [path.Clean]: [stack] holds the elements kept so
    far, last one first. *)
Fixpoint clean_elems (rooted : bool) (stack elems : list string) : list string :=
  match elems with
  | [] => rev stack
  | e :: rest =>
      if String.eqb e "" || String.eqb e "." then clean_elems rooted stack rest
      else if String.eqb e ".." then
        match stack with
        | top :: below =>
            if String.eqb top ".."
            then clean_elems rooted (e :: stack) rest
            else clean_elems rooted below rest
        | [] =>
            if rooted then clean_elems rooted [] rest
            else clean_elems rooted [e] rest
        end
      else clean_elems rooted (e :: stack) rest
  end.

(** [path.Clean] *)
Definition Clean (p : string) : string :=
  if String.eqb p "" then "."%string
  else
    let rooted := String.prefix "/" p in
    let body := String.concat "/" (clean_elems rooted [] (GoStrings.Split p slash)) in
    if rooted then ("/" +:+ body)%string
    else if String.eqb body "" then "."%string else body.

(** [path.Join]: empty leading elements are skipped, the rest is joined
    with slashes and cleaned; the empty string when there is nothing. *)
Definition Join (elem : list string) : string :=
  let buf :=
    fold_left (fun buf e =>
                 if negb (String.eqb buf "") then (buf +:+ "/" +:+ e)%string
                 else if negb (String.eqb e "") then e
                 else buf) elem ""%string in
  if String.eqb buf "" then ""%string else Clean buf.

(** [path.IsAbs] *)
Definition IsAbs (p : string) : bool := String.prefix "/" p.

Fixpoint drop_empty (l : list string) : list string :=
  match l with
  | e :: rest => if String.eqb e "" then drop_empty rest else l
  | [] => []
  end.

(** [path.Base] *)
Definition Base (p : string) : string :=
  if String.eqb p "" then "."%string
  else match drop_empty (rev (GoStrings.Split p slash)) with
       | e :: _ => e
       | [] => "/"%string
       end.

End GoPath.

(** ** [encoding/hex] *)

Module GoHex.

Definition digit (n : N) : ascii :=
  Ascii.ascii_of_N (if (n <? 10)%N then 48 + n else 87 + n)%N.

(** [hex.EncodeToString]: two lower-case digits for each byte. *)
Fixpoint EncodeToString (src : string) : string :=
  match src with
  | EmptyString => EmptyString
  | String a rest =>
      let n := Ascii.N_of_ascii a in
      String (digit (n / 16)%N) (String (digit (n mod 16)%N) (EncodeToString rest))
  end.

End GoHex.

(** The double quote, for the strings that [fmt.Sprintf] builds. *)
Definition dquote : string := String (Ascii.ascii_of_nat 34) EmptyString.

(** Go's [int] is 64 bits wide and wraps around. *)
Definition int_min : Z := - 2 ^ 63.
Definition int_max : Z := 2 ^ 63 - 1.
Definition wrap_int (z : Z) : Z := (z + 2 ^ 63) mod 2 ^ 64 - 2 ^ 63.

(** ** The build graph ([llb.State] and the options of its builder calls)

    BuildKit's [llb] package is an external primitive of the converter.
    A state is embedded as the term of the calls that produced it. *)

Module llb.

Inductive Platform := TargetPlatform.            (* llbutil.TargetPlatform *)

Inductive ResolveMode := ResolveModeDefault | ResolveModeForcePull | ResolveModePreferLocal.

Inductive MountOption :=
| SourcePath (p : string)
| HostBind
| Readonly.

Inductive SecretOption :=
| SecretID (id : string)
| SecretFileOpt (uid gid mode : Z).

Inductive MkdirOption :=
| WithParents (b : bool)
| WithUser (user : string).

Inductive RmOption :=
| WithAllowNotFound (b : bool).

Inductive FileAction :=
| Mkdir (p : string) (mode : Z) (opts : list MkdirOption)
| Rm (p : string) (opts : list RmOption).

Inductive ImageOption :=
| ImageCustomName (name : string)
| ImagePlatform (p : Platform)
| ImageResolveMode (m : ResolveMode).

Inductive LocalOption :=
| SharedKeyHint (key : string)
| SessionID (id : string)
| LocalPlatform (p : Platform)
| LocalCustomName (name : string).

Inductive GitOption :=
| GitCustomName (name : string)
| KeepGitDir.

Inductive State :=
| Scratch                                                    (* llb.Scratch() *)
| WithPlatform (s : State) (p : Platform)                    (* s.Platform(p) *)
| Image (ref : string) (opts : list ImageOption)             (* llb.Image *)
| Local (name : string) (opts : list LocalOption)            (* llb.Local *)
| Git (url branch : string) (opts : list GitOption)          (* llbgit.Git *)
| AddEnv (s : State) (k v : string)                          (* s.AddEnv(k, v) *)
| Dir (s : State) (p : string)                               (* s.Dir(p) *)
| User (s : State) (u : string)                              (* s.User(u) *)
| File (s : State) (a : FileAction) (name : string)          (* s.File(a, WithCustomName) *)
| RunRoot (s : State) (opts : list RunOption)                (* s.Run(opts...).Root() *)
| RunAddMount (s : State) (opts : list RunOption)
              (target : string) (source : State) (mopts : list MountOption)
                                           (* s.Run(opts...).AddMount(target, source, mopts...) *)
| CopyOp (src : State) (srcs : list string) (dest : State) (destPath : string)
         (allowWildcard isDir : bool) (chown : string) (name : string)
                                                             (* llbutil.CopyOp *)
| WithDependency (s dep : State) (name : string)             (* llbutil.WithDependency *)
| Foreign (id : string)            (* a state handed over by a collaborator *)
with RunOption :=
| AddMount (target : string) (source : State) (mopts : list MountOption)
| AddSecret (p : string) (opts : list SecretOption)
| Security (insecure : bool)                 (* llb.Security(llb.SecurityModeInsecure) *)
| RunCustomName (name : string)
| AddSSHSocket
| Args (a : list string)
| IgnoreCache
| RunDir (p : string)
| MountSpec (spec : string).      (* an option produced by parseMounts *)

(** [llb.Scratch().Platform(llbutil.TargetPlatform)] *)
Definition scratch : State := WithPlatform Scratch TargetPlatform.

End llb.

(** ** Target and artifact references ([domain]) *)

(** Modelled from the spec: the declaration of [domain.Target] is not in
    this file.  A reference is [(projectPath, name, tag)]; the converter
    also reads and writes the [LocalPath] and [Target] fields. *)
Record Target := mkTarget {
  ProjectPath : string;
  LocalPath : string;
  TargetName : string;       (* the Go field [Target] *)
  Tag : string;
}.

Definition setTag (t : Target) (tag : string) : Target :=
  {| ProjectPath := ProjectPath t; LocalPath := LocalPath t;
     TargetName := TargetName t; Tag := tag |}.

Definition setLocalPath (t : Target) (p : string) : Target :=
  {| ProjectPath := ProjectPath t; LocalPath := p;
     TargetName := TargetName t; Tag := Tag t |}.

(** [domain.Artifact{Target, Artifact}] *)
Record Artifact := mkArtifact {
  Artifact_Target : Target;      (* the Go field [Target] *)
  Artifact_Artifact : string;    (* the Go field [Artifact] *)
}.

(** ** Dedup input ([dedup.TargetInput]) *)

(** Modelled from the spec: the [dedup] package is not in this file.  The
    input is the canonical target string followed by the argument inputs
    added so far; an argument input is [(name, value-or-source)], the
    source of a non-constant argument being the input of the target that
    computed it and its argument index. *)
Inductive TargetInput :=
| mkTargetInput (TargetCanonical : string) (BuildArgs : list BuildArgInput)
with BuildArgInput :=
| ConstantInput (name default value : string)
| VariableInput (name default : string) (source : TargetInput) (argIndex : Z).

Definition TargetCanonical (ti : TargetInput) : string :=
  match ti with mkTargetInput c _ => c end.
Definition BuildArgs (ti : TargetInput) : list BuildArgInput :=
  match ti with mkTargetInput _ l => l end.
Definition BuildArgInput_Name (b : BuildArgInput) : string :=
  match b with ConstantInput n _ _ => n | VariableInput n _ _ _ => n end.

(** [TargetInput.WithBuildArgInput] *)
Definition WithBuildArgInput (ti : TargetInput) (bai : BuildArgInput) : TargetInput :=
  mkTargetInput (TargetCanonical ti) (BuildArgs ti ++ [bai]).

(** ** Image metadata ([image.Image]) *)

(** Modelled from the spec: the [image] package is not in this file.  The
    record has the fields the converter reads and writes; a Go map that is
    nil reads as the empty map, so both are the empty [gmap] here. *)
Module image.

Record HealthConfig := mkHealthConfig {
  Test : list string;
  Interval : Z;
  Timeout : Z;
  StartPeriod : Z;
  Retries : Z;
}.

Record ImageConfig := mkImageConfig {
  Entrypoint : list string;
  Cmd : list string;
  Env : list string;
  WorkingDir : string;
  User : string;
  Labels : gmap string string;
  ExposedPorts : gset string;
  Volumes : gset string;
  Healthcheck : option HealthConfig;
}.

Record Image := mkImage { Config : ImageConfig }.

(** [image.NewImage()] *)
Definition NewImage : Image :=
  {| Config := {| Entrypoint := []; Cmd := []; Env := []; WorkingDir := ""; User := "";
                  Labels := ∅; ExposedPorts := ∅; Volumes := ∅; Healthcheck := None |} |}.

(** [Image.Clone()]: a deep copy, the same value. *)
Definition Clone (img : Image) : Image := img.

Definition setConfig (img : Image) (f : ImageConfig -> ImageConfig) : Image :=
  {| Config := f (Config img) |}.

Definition withWorkingDir (d : string) (c : ImageConfig) : ImageConfig :=
  {| Entrypoint := Entrypoint c; Cmd := Cmd c; Env := Env c; WorkingDir := d;
     User := User c; Labels := Labels c; ExposedPorts := ExposedPorts c;
     Volumes := Volumes c; Healthcheck := Healthcheck c |}.
Definition withUser (u : string) (c : ImageConfig) : ImageConfig :=
  {| Entrypoint := Entrypoint c; Cmd := Cmd c; Env := Env c; WorkingDir := WorkingDir c;
     User := u; Labels := Labels c; ExposedPorts := ExposedPorts c;
     Volumes := Volumes c; Healthcheck := Healthcheck c |}.
Definition withCmd (a : list string) (c : ImageConfig) : ImageConfig :=
  {| Entrypoint := Entrypoint c; Cmd := a; Env := Env c; WorkingDir := WorkingDir c;
     User := User c; Labels := Labels c; ExposedPorts := ExposedPorts c;
     Volumes := Volumes c; Healthcheck := Healthcheck c |}.
Definition withEntrypoint (a : list string) (c : ImageConfig) : ImageConfig :=
  {| Entrypoint := a; Cmd := Cmd c; Env := Env c; WorkingDir := WorkingDir c;
     User := User c; Labels := Labels c; ExposedPorts := ExposedPorts c;
     Volumes := Volumes c; Healthcheck := Healthcheck c |}.
Definition withEnv (e : list string) (c : ImageConfig) : ImageConfig :=
  {| Entrypoint := Entrypoint c; Cmd := Cmd c; Env := e; WorkingDir := WorkingDir c;
     User := User c; Labels := Labels c; ExposedPorts := ExposedPorts c;
     Volumes := Volumes c; Healthcheck := Healthcheck c |}.
Definition withLabels (l : gmap string string) (c : ImageConfig) : ImageConfig :=
  {| Entrypoint := Entrypoint c; Cmd := Cmd c; Env := Env c; WorkingDir := WorkingDir c;
     User := User c; Labels := l; ExposedPorts := ExposedPorts c;
     Volumes := Volumes c; Healthcheck := Healthcheck c |}.
Definition withExposedPorts (p : gset string) (c : ImageConfig) : ImageConfig :=
  {| Entrypoint := Entrypoint c; Cmd := Cmd c; Env := Env c; WorkingDir := WorkingDir c;
     User := User c; Labels := Labels c; ExposedPorts := p;
     Volumes := Volumes c; Healthcheck := Healthcheck c |}.
Definition withVolumes (v : gset string) (c : ImageConfig) : ImageConfig :=
  {| Entrypoint := Entrypoint c; Cmd := Cmd c; Env := Env c; WorkingDir := WorkingDir c;
     User := User c; Labels := Labels c; ExposedPorts := ExposedPorts c;
     Volumes := v; Healthcheck := Healthcheck c |}.
Definition withHealthcheck (h : option HealthConfig) (c : ImageConfig) : ImageConfig :=
  {| Entrypoint := Entrypoint c; Cmd := Cmd c; Env := Env c; WorkingDir := WorkingDir c;
     User := User c; Labels := Labels c; ExposedPorts := ExposedPorts c;
     Volumes := Volumes c; Healthcheck := h |}.

End image.

(** ** The variable collection ([variables]) *)

(** Modelled from the spec: the [variables] package is not in this file.
    A collection is a mapping of names to bindings with two visibility
    tiers, active and overriding; a binding is a constant, a constant that
    is also exported to the image env, or a non-constant one: the build
    state that holds the value, the dedup input of the target that computed
    it and its argument index. *)
Module variables.

(** [variables.Variable] ([Variable] is a reserved word) *)
Inductive Var :=
| Constant (value : string)                                   (* NewConstant *)
| ConstantEnvVar (value : string)                             (* NewConstantEnvVar *)
| NonConstant (state : llb.State) (ti : TargetInput) (argIndex : Z).

Definition IsEnvVar (v : Var) : bool :=
  match v with ConstantEnvVar _ => true | _ => false end.
Definition IsConstant (v : Var) : bool :=
  match v with NonConstant _ _ _ => false | _ => true end.
Definition ConstantValue (v : Var) : string :=
  match v with Constant s | ConstantEnvVar s => s | NonConstant _ _ _ => ""%string end.
Definition VariableState (v : Var) : llb.State :=
  match v with NonConstant st _ _ => st | _ => llb.Scratch end.

(** [Variable.BuildArgInput(name, defaultValue)] *)
Definition BuildArgInput (v : Var) (name default : string) : BuildArgInput :=
  match v with
  | Constant s | ConstantEnvVar s => ConstantInput name default s
  | NonConstant _ ti idx => VariableInput name default ti idx
  end.

Record Collection := mkCollection {
  bindings : gmap string Var;
  activeVariables : gset string;
  overridingVariables : gset string;
}.

(** [variables.NewCollection()] *)
Definition NewCollection : Collection :=
  {| bindings := ∅; activeVariables := ∅; overridingVariables := ∅ |}.

(** The zero value of [Variable]. *)
Definition zero : Var := Constant "".

(** [Collection.Get(name)]: the binding of [name], whether it is active
    and whether it was found; the zero value when it was not. *)
Definition Get (c : Collection) (name : string) : Var * bool * bool :=
  match bindings c !! name with
  | Some v => (v, bool_decide (name ∈ activeVariables c), true)
  | None => (zero, false, false)
  end.

(** [Collection.SortedActiveVariables()]: lexicographic. *)
Definition SortedActiveVariables (c : Collection) : list string :=
  merge_sort String.le (elements (activeVariables c)).

(** [Collection.SortedOverridingVariables()]: lexicographic. *)
Definition SortedOverridingVariables (c : Collection) : list string :=
  merge_sort String.le (elements (overridingVariables c)).

(** [Collection.AddActive(name, variable, override)]: the binding becomes
    active; unless [override], a name that is already overriding keeps its
    overriding binding.  Returns the collection and the effective binding. *)
Definition AddActive (c : Collection) (name : string) (v : Var) (override : bool)
  : Collection * Var :=
  let effective :=
    if override then v
    else if decide (name ∈ overridingVariables c)
         then default v (bindings c !! name) else v in
  ({| bindings := <[name := effective]> (bindings c);
      activeVariables := {[name]} ∪ activeVariables c;
      overridingVariables := overridingVariables c |}, effective).

(** [Collection.WithResetEnvVars()]: a new collection without the env
    bindings; the other bindings stay. *)
Definition WithResetEnvVars (c : Collection) : Collection :=
  let keep := filter (fun kv => IsEnvVar kv.2 = false) (bindings c) in
  {| bindings := keep;
     activeVariables := filter (fun n => n ∈ dom keep) (activeVariables c);
     overridingVariables := filter (fun n => n ∈ dom keep) (overridingVariables c) |}.

(** [Collection.WithBuiltinBuildArgs(target, gitMeta)]: a new collection
    with the builtin arguments added as active constants, not overriding;
    which arguments these are is left to [builtins]. *)
Definition WithBuiltinBuildArgs (c : Collection) (builtins : list (string * string)) : Collection :=
  fold_left (fun acc kv =>
               {| bindings := <[kv.1 := Constant kv.2]> (bindings acc);
                  activeVariables := {[kv.1]} ∪ activeVariables acc;
                  overridingVariables := overridingVariables acc |}) builtins c.

(** [variables.ParseKeyValue(kv)]: split at the first [=]. *)
Definition ParseKeyValue (kv : string) : string * string :=
  match GoStrings.cut "="%char kv with
  | Some (k, v) => (k, v)
  | None => (kv, ""%string)
  end.

(** [variables.AddEnv(envVars, key, value)]: the entry of [key] is replaced
    where it stands, or appended. *)
Definition AddEnv (envVars : list string) (key value : string) : list string :=
  let entry := (key +:+ "=" +:+ value)%string in
  if existsb (fun e => String.eqb (ParseKeyValue e).1 key) envVars
  then map (fun e => if String.eqb (ParseKeyValue e).1 key then entry else e) envVars
  else envVars ++ [entry].

(** [Collection.AsMap()]: the constant bindings, name to value. *)
Definition AsMap (c : Collection) : gmap string string :=
  omap (fun v => if IsConstant v then Some (ConstantValue v) else None) (bindings c).

(** One more overriding binding, as [WithParseBuildArgs] adds them. *)
Definition addOverriding (c : Collection) (name : string) (v : Var) : Collection :=
  {| bindings := <[name := v]> (bindings c);
     activeVariables := activeVariables c;
     overridingVariables := {[name]} ∪ overridingVariables c |}.

End variables.

(** [hash/fnv]: the 32-bit FNV-1a hash of [imageVertexPrefix]. *)
Fixpoint fnv32a_go (h : Z) (s : string) : Z :=
  match s with
  | EmptyString => h
  | String a rest =>
      fnv32a_go ((Z.lxor h (Z.of_N (Ascii.N_of_ascii a)) * 16777619) mod 2 ^ 32) rest
  end.
Definition fnv32a (s : string) : Z := fnv32a_go 2166136261 s.

(** ** Per-target and multi-target states (the records of states.go, with
    the fields the converter uses) *)

Module SaveLocal.
Record t := mk { DestPath : string; ArtifactPath : string; Index : Z }.
End SaveLocal.

Module SaveImage.
Record t := mk {
  State : llb.State;
  Image : image.Image;
  DockerTag : string;
  Push : bool;
}.
End SaveImage.

Module RunPush.
Record t := mk {
  Initialized : bool;
  State : llb.State;
  CommandStrs : list string;
}.
(** The zero value of the struct. *)
Definition zero : t := {| Initialized := false; State := llb.Scratch; CommandStrs := [] |}.
End RunPush.

Module STS.
Record t := mk {
  Target : Target;
  TargetInput : TargetInput;
  SideEffectsState : llb.State;
  SideEffectsImage : image.Image;
  ArtifactsState : llb.State;
  SeparateArtifactsState : list llb.State;
  SaveLocals : list SaveLocal.t;
  SaveImages : list SaveImage.t;
  RunPush : RunPush.t;
  LocalDirs : gmap string string;
  Ongoing : bool;
  Salt : string;
}.

Definition setTargetInput x (s : t) : t :=
  mk (Target s) x (SideEffectsState s) (SideEffectsImage s) (ArtifactsState s)
     (SeparateArtifactsState s) (SaveLocals s) (SaveImages s) (RunPush s)
     (LocalDirs s) (Ongoing s) (Salt s).
Definition setSideEffectsState (x : llb.State) (s : t) : t :=
  mk (Target s) (TargetInput s) x (SideEffectsImage s) (ArtifactsState s)
     (SeparateArtifactsState s) (SaveLocals s) (SaveImages s) (RunPush s)
     (LocalDirs s) (Ongoing s) (Salt s).
Definition setSideEffectsImage (x : image.Image) (s : t) : t :=
  mk (Target s) (TargetInput s) (SideEffectsState s) x (ArtifactsState s)
     (SeparateArtifactsState s) (SaveLocals s) (SaveImages s) (RunPush s)
     (LocalDirs s) (Ongoing s) (Salt s).
Definition setArtifactsState (x : llb.State) (s : t) : t :=
  mk (Target s) (TargetInput s) (SideEffectsState s) (SideEffectsImage s) x
     (SeparateArtifactsState s) (SaveLocals s) (SaveImages s) (RunPush s)
     (LocalDirs s) (Ongoing s) (Salt s).
Definition setSeparateArtifactsState (x : list llb.State) (s : t) : t :=
  mk (Target s) (TargetInput s) (SideEffectsState s) (SideEffectsImage s) (ArtifactsState s)
     x (SaveLocals s) (SaveImages s) (RunPush s)
     (LocalDirs s) (Ongoing s) (Salt s).
Definition setSaveLocals (x : list SaveLocal.t) (s : t) : t :=
  mk (Target s) (TargetInput s) (SideEffectsState s) (SideEffectsImage s) (ArtifactsState s)
     (SeparateArtifactsState s) x (SaveImages s) (RunPush s)
     (LocalDirs s) (Ongoing s) (Salt s).
Definition setSaveImages (x : list SaveImage.t) (s : t) : t :=
  mk (Target s) (TargetInput s) (SideEffectsState s) (SideEffectsImage s) (ArtifactsState s)
     (SeparateArtifactsState s) (SaveLocals s) x (RunPush s)
     (LocalDirs s) (Ongoing s) (Salt s).
Definition setRunPush x (s : t) : t :=
  mk (Target s) (TargetInput s) (SideEffectsState s) (SideEffectsImage s) (ArtifactsState s)
     (SeparateArtifactsState s) (SaveLocals s) (SaveImages s) x
     (LocalDirs s) (Ongoing s) (Salt s).
Definition setLocalDirs (x : gmap string string) (s : t) : t :=
  mk (Target s) (TargetInput s) (SideEffectsState s) (SideEffectsImage s) (ArtifactsState s)
     (SeparateArtifactsState s) (SaveLocals s) (SaveImages s) (RunPush s)
     x (Ongoing s) (Salt s).
Definition setOngoing (x : bool) (s : t) : t :=
  mk (Target s) (TargetInput s) (SideEffectsState s) (SideEffectsImage s) (ArtifactsState s)
     (SeparateArtifactsState s) (SaveLocals s) (SaveImages s) (RunPush s)
     (LocalDirs s) x (Salt s).

(** [SingleTargetStates.LastSaveImage()]: the last entry of [SaveImages],
    if there is one. *)
Definition LastSaveImage (s : t) : option SaveImage.t := last (SaveImages s).

End STS.

Abbreviation SingleTargetStates := STS.t.

(** [VisitedStates] is a Go map shared by all the converters of one
    top-level invocation; it is threaded through the calls explicitly.  An
    STS is mutated only by its own converter, so the map records each STS
    as it was registered. *)
Abbreviation VisitedStates := (gmap string (list STS.t)).

Module MTS.
Record t := mk {
  FinalStates : STS.t;
  VisitedStates : gmap string (list STS.t);
}.
(** [MultiTargetStates.FinalTarget()] *)
Definition FinalTarget (m : t) : Target := STS.Target (FinalStates m).
End MTS.

Abbreviation MultiTargetStates := MTS.t.

(** ** Errors and outcomes *)

(** A Go [error]: a message ([errors.New], [fmt.Errorf]) or a wrapped
    cause ([errors.Wrap], [errors.Wrapf]). *)
Inductive error :=
| NewError (msg : string)
| Wrap (cause : error) (msg : string).

(** What a call yields: a value, an error, or a run-time panic. *)
Inductive outcome (A : Type) :=
| Ok (a : A)
| Err (e : error)
| Panic (msg : string).
Arguments Ok {A} a.
Arguments Err {A} e.
Arguments Panic {A} msg.

(** ** The collaborators of the converter

    Everything the converter calls that is neither in converter.go nor
    modelled above: the [domain] functions, the resolvers and builders, the
    helpers of the other files of the package, the operating system.  Calls
    with an effect act on a [World]. *)
Class Collaborators := {
  World : Type;
  GitMetadata : Type;                 (* buildcontext.GitMetadata *)
  Resolver : Type;                    (* buildcontext.Resolver *)
  CleanCollection : Type;             (* cleanup.Collection *)
  SolveCache : Type;                  (* map[string]llb.State *)
  Reference : Type;                   (* reference.Named *)
  DockerfileImage : Type;             (* dockerfile2llb.Image *)
  (* domain *)
  ParseTarget : string -> outcome Target;
  ParseArtifact : string -> outcome Artifact;
  JoinTargets : Target -> Target -> outcome Target;
  Target_String : Target -> string;
  Target_StringCanonical : Target -> string;
  Target_ProjectCanonical : Target -> string;
  Target_IsExternal : Target -> bool;
  Target_IsLocalInternal : Target -> bool;
  Artifact_String : Artifact -> string;
  (* crypto/sha256, math/rand *)
  sha256_Sum256 : string -> string;
  rand_Int : World -> World * Z;
  (* the builtin arguments of variables.WithBuiltinBuildArgs *)
  builtinBuildArgs : Target -> option GitMetadata -> list (string * string);
  (* other files of package earthfile2llb *)
  parseMounts : list string -> Target -> TargetInput -> llb.State -> outcome (list llb.RunOption);
  withShellAndEnvVars : list string -> list string -> bool -> bool -> list string;
  withDockerdWrapOld : list string -> list string -> bool -> bool -> list string;
  withShell : list string -> bool -> list string;
  splitWildcards : string -> string * string;
  debuggerPath : string;
  DebuggerSettingsSecretsKey : string;            (* debugger/common *)
  DockerfileMetaTarget : string;                  (* buildcontext *)
  (* llbutil.Abs *)
  llbutil_Abs : llb.State -> string -> World -> World * outcome string;
  (* image references and image metadata *)
  reference_ParseNormalizedNamed : string -> outcome Reference;
  reference_TagNameOnly : Reference -> Reference;
  reference_WithDigest : Reference -> string -> outcome Reference;
  Reference_String : Reference -> string;
  ResolveImageConfig : string -> llb.ResolveMode -> string -> World -> World * outcome (string * string);
  json_Unmarshal_Image : string -> outcome image.Image;
  json_Marshal_DockerfileImage : DockerfileImage -> outcome string;
  (* the operating system *)
  ioutil_TempDir : string -> string -> World -> World * outcome string;
  ioutil_ReadFile : string -> World -> World * outcome string;
  cleanup_Add_RemoveAll : CleanCollection -> string -> World -> World;
  dockertar_GetID : string -> World -> World * outcome string;
}.

Section Converter.
Context `{Collaborators}.

(** [buildcontext.Data] *)
Record Data := mkData {
  BuildContext : llb.State;
  BuildFilePath : string;
  Data_LocalDirs : gmap string string;
  Data_GitMetadata : option GitMetadata;
}.

(** [DockerBuilderFun] and [ArtifactBuilderFun] are Go function values. *)
Definition DockerBuilderFun : Type :=
  MTS.t -> string -> string -> World -> World * outcome unit.
Definition ArtifactBuilderFun : Type :=
  MTS.t -> Artifact -> string -> World -> World * outcome unit.

(** [ConvertOpt]; a function field left out of a literal is nil. *)
Record ConvertOpt := mkConvertOpt {
  opt_Resolver : Resolver;
  opt_ImageResolveMode : llb.ResolveMode;
  opt_DockerBuilderFun : option DockerBuilderFun;
  opt_ArtifactBuilderFun : option ArtifactBuilderFun;
  opt_CleanCollection : CleanCollection;
  opt_VisitedStates : gmap string (list STS.t);
  opt_VarCollection : variables.Collection;
  opt_SolveCache : SolveCache;
}.

(** The options of [dockerfile2llb.Dockerfile2LLB] that the converter sets. *)
Record DockerfileConvertOpt := mkDockerfileConvertOpt {
  df_BuildContext : llb.State;
  df_ContextLocalName : string;
  df_ImageResolveMode : llb.ResolveMode;
  df_Target : string;
  df_BuildArgs : gmap string string;
}.

(** The calls that need the records above: the resolver, the Dockerfile
    translator, and the top-level entry [Earthfile2LLB] (another file of
    this package), through which [Build] recurses.  [Earthfile2LLB] yields
    the world, the shared [VisitedStates] map as it left it, and the final
    STS of the target. *)
Class Entries := {
  Resolve : Resolver -> Target -> World -> World * outcome Data;
  Dockerfile2LLB : string -> DockerfileConvertOpt -> World -> World * outcome (llb.State * DockerfileImage);
  Earthfile2LLB : Target -> ConvertOpt -> World ->
                  World * gmap string (list STS.t) * outcome STS.t;
}.
Context `{Entries}.

(** [Converter] *)
Record Converter := mkConverter {
  gitMeta : option GitMetadata;
  resolver : Resolver;
  mts : MTS.t;
  directDeps : list STS.t;
  directDepIndices : list Z;
  buildContext : llb.State;
  cacheContext : llb.State;
  varCollection : variables.Collection;
  dockerBuilderFun : option DockerBuilderFun;
  artifactBuilderFun : option ArtifactBuilderFun;
  cleanCollection : CleanCollection;
  nextArgIndex : Z;
  solveCache : SolveCache;
  imageResolveMode : llb.ResolveMode;
}.

Definition setMts (x : MTS.t) (c : Converter) : Converter :=
  mkConverter (gitMeta c) (resolver c) x (directDeps c) (directDepIndices c)
              (buildContext c) (cacheContext c) (varCollection c) (dockerBuilderFun c)
              (artifactBuilderFun c) (cleanCollection c) (nextArgIndex c) (solveCache c)
              (imageResolveMode c).
Definition setDirectDeps (x : list STS.t) (c : Converter) : Converter :=
  mkConverter (gitMeta c) (resolver c) (mts c) x (directDepIndices c)
              (buildContext c) (cacheContext c) (varCollection c) (dockerBuilderFun c)
              (artifactBuilderFun c) (cleanCollection c) (nextArgIndex c) (solveCache c)
              (imageResolveMode c).
Definition setVarCollection (x : variables.Collection) (c : Converter) : Converter :=
  mkConverter (gitMeta c) (resolver c) (mts c) (directDeps c) (directDepIndices c)
              (buildContext c) (cacheContext c) x (dockerBuilderFun c)
              (artifactBuilderFun c) (cleanCollection c) (nextArgIndex c) (solveCache c)
              (imageResolveMode c).
Definition setNextArgIndex (x : Z) (c : Converter) : Converter :=
  mkConverter (gitMeta c) (resolver c) (mts c) (directDeps c) (directDepIndices c)
              (buildContext c) (cacheContext c) (varCollection c) (dockerBuilderFun c)
              (artifactBuilderFun c) (cleanCollection c) x (solveCache c)
              (imageResolveMode c).

(** [c.mts.FinalStates] and its update in place. *)
Definition final (c : Converter) : STS.t := MTS.FinalStates (mts c).
Definition setFinal (f : STS.t -> STS.t) (c : Converter) : Converter :=
  setMts (MTS.mk (f (final c)) (MTS.VisitedStates (mts c))) c.
Definition setVisited (v : gmap string (list STS.t)) (c : Converter) : Converter :=
  setMts (MTS.mk (final c) v) c.

(** ** The converter monad

    A method of [*Converter] acts on the world and on the converter, and
    yields a value, an error or a panic; the converter keeps the changes
    made before an error. *)
Definition M (A : Type) : Type := World -> Converter -> World * Converter * outcome A.

Definition ret {A} (a : A) : M A := fun w c => (w, c, Ok a).

Definition bind {A B} (m : M A) (k : A -> M B) : M B :=
  fun w c =>
    match m w c with
    | (w', c', Ok a) => k a w' c'
    | (w', c', Err e) => (w', c', Err e)
    | (w', c', Panic msg) => (w', c', Panic msg)
    end.

Definition fail {A} (e : error) : M A := fun w c => (w, c, Err e).
Definition panic {A} (msg : string) : M A := fun w c => (w, c, Panic msg).
Definition get : M Converter := fun w c => (w, c, Ok c).
Definition modify (f : Converter -> Converter) : M unit := fun w c => (w, f c, Ok tt).
Definition liftO {A} (o : outcome A) : M A := fun w c => (w, c, o).
Definition liftW {A} (f : World -> World * outcome A) : M A :=
  fun w c => let (w', o) := f w in (w', c, o).

(** [errors.Wrap(err, msg)] on the error path of [m]. *)
Definition wrap {A} (m : M A) (msg : string) : M A :=
  fun w c =>
    match m w c with
    | (w', c', Err e) => (w', c', Err (Wrap e msg))
    | r => r
    end.

End Converter.

Declare Scope conv_scope.
Delimit Scope conv_scope with conv.
Notation "x <- m ;; k" := (bind m (fun x => k))
  (at level 20, m at level 99, k at level 200, only parsing) : conv_scope.
Notation "' pat <- m ;; k" := (bind m (fun x => match x with pat => k end))
  (at level 20, pat pattern, m at level 99, k at level 200, only parsing) : conv_scope.
Notation "m ;; k" := (bind m (fun _ => k))
  (at level 100, k at level 200, only parsing, right associativity) : conv_scope.

(** ** The methods of the converter *)

Section Operations.
Context {C : Collaborators} {E : @Entries C}.
Local Open Scope conv_scope.

Definition strIf (condition : bool) (str : string) : string :=
  if condition then str else ""%string.

Definition joinWrap (a : list string) (before sep after : string) : string :=
  if (0 <? length a)%nat then before +:+ GoStrings.Join a sep +:+ after else ""%string.

(** [cacheKey]: the canonical target without the tag, hashed. *)
Definition cacheKey (target : Target) : string :=
  let targetCopy := setTag target "" in
  let digest := sha256_Sum256 (Target_StringCanonical targetCopy) in
  GoHex.EncodeToString digest.

Definition makeCacheContext (target : Target) : llb.State :=
  let sessionID := cacheKey target in
  llb.Local "earthly-cache"
    [llb.SharedKeyHint (Target_ProjectCanonical target);
     llb.SessionID sessionID;
     llb.LocalPlatform llb.TargetPlatform;
     llb.LocalCustomName ("[internal] cache context " +:+ Target_ProjectCanonical target)].

(** [withDependency] *)
Definition withDependency (state : llb.State) (target : Target)
           (depState : llb.State) (depTarget : Target) : llb.State :=
  llb.WithDependency state depState
    ("[internal] create artificial dependency: " +:+ Target_String target
       +:+ " depends on " +:+ Target_String depTarget).

(** [NewConverter] *)
Definition NewConverter (target : Target) (bc : Data) (opt : ConvertOpt)
  : World -> World * outcome Converter :=
  fun w =>
    let (w1, salt) := rand_Int w in
    let sts0 :=
      STS.mk target (mkTargetInput (Target_StringCanonical target) [])
             llb.scratch image.NewImage llb.scratch [] [] [] RunPush.zero
             (Data_LocalDirs bc) true (pretty salt) in
    let ti :=
      fold_left (fun ti key =>
                   let '(ovVar, _, _) := variables.Get (opt_VarCollection opt) key in
                   WithBuildArgInput ti (variables.BuildArgInput ovVar key ""))
                (variables.SortedOverridingVariables (opt_VarCollection opt))
                (STS.TargetInput sts0) in
    let sts := STS.setTargetInput ti sts0 in
    let targetStr := Target_String target in
    let visited :=
      <[targetStr := default [] (opt_VisitedStates opt !! targetStr) ++ [sts]]>
        (opt_VisitedStates opt) in
    (w1, Ok {| gitMeta := Data_GitMetadata bc;
               resolver := opt_Resolver opt;
               imageResolveMode := opt_ImageResolveMode opt;
               mts := MTS.mk sts visited;
               directDeps := [];
               directDepIndices := [];
               buildContext := BuildContext bc;
               cacheContext := makeCacheContext target;
               varCollection :=
                 variables.WithBuiltinBuildArgs (opt_VarCollection opt)
                   (builtinBuildArgs target (Data_GitMetadata bc));
               dockerBuilderFun := opt_DockerBuilderFun opt;
               artifactBuilderFun := opt_ArtifactBuilderFun opt;
               cleanCollection := opt_CleanCollection opt;
               nextArgIndex := 0;
               solveCache := opt_SolveCache opt |}).

Definition vertexPrefix (c : Converter) : string :=
  "[" +:+ Target_String (STS.Target (final c)) +:+ " " +:+ STS.Salt (final c) +:+ "] ".

Definition imageVertexPrefix (id : string) : string :=
  "[" +:+ id +:+ " " +:+ pretty (fnv32a id) +:+ "] ".

Definition vertexPrefixWithURL (c : Converter) (url : string) : string :=
  "[" +:+ Target_String (STS.Target (final c)) +:+ "(" +:+ url +:+ ") " +:+ url +:+ "] ".

(** The secrets loop of [internalRun]: the options and the env-var prelude
    after the secrets, or the error of the first malformed secret. *)
Fixpoint secretsLoop (secretKeyValues : list string)
         (finalOpts : list llb.RunOption) (extraEnvVars : list string)
  : outcome (list llb.RunOption * list string) :=
  match secretKeyValues with
  | [] => Ok (finalOpts, extraEnvVars)
  | secretKeyValue :: rest =>
      match GoStrings.SplitN2 secretKeyValue "="%char with
      | [envVar; value] =>
          if negb (GoStrings.HasPrefix value "+secrets/")
          then Err (NewError ("Secret definition " +:+ secretKeyValue
                                +:+ " not supported. Must start with +secrets/"))
          else
            let secretID := GoStrings.TrimPrefix value "+secrets/" in
            let secretPath := GoPath.Join ["/run/secrets"; secretID]%string in
            secretsLoop rest
              (finalOpts ++ [llb.AddSecret secretPath
                               [llb.SecretID secretID; llb.SecretFileOpt 0 0 292]])
              (extraEnvVars ++ [envVar +:+ "=" +:+ dquote +:+ "$(cat " +:+ secretPath +:+ ")" +:+ dquote])
      | _ => Err (NewError ("Invalid secret definition " +:+ secretKeyValue))
      end
  end.

(** The build-args loop of [internalRun], over the sorted active names. *)
Definition buildArgsLoop (vars : variables.Collection) (names : list string)
           (finalOpts : list llb.RunOption) (extraEnvVars : list string)
  : list llb.RunOption * list string :=
  fold_left
    (fun acc buildArgName =>
       let '(finalOpts, extraEnvVars) := acc in
       let '(ba, _, _) := variables.Get vars buildArgName in
       if variables.IsEnvVar ba then acc
       else if variables.IsConstant ba
       then (finalOpts,
             extraEnvVars ++ [buildArgName +:+ "=" +:+ dquote
                                +:+ variables.ConstantValue ba +:+ dquote])
       else
         let buildArgPath := GoPath.Join ["/run/buildargs"; buildArgName]%string in
         (finalOpts ++ [llb.AddMount buildArgPath (variables.VariableState ba)
                                     [llb.SourcePath buildArgPath]],
          extraEnvVars ++ [buildArgName +:+ "=" +:+ dquote +:+ "$(cat "
                             +:+ buildArgPath +:+ ")" +:+ dquote]))
    names (finalOpts, extraEnvVars).

(** The run options [internalRun] hands to [State.Run], up to [llb.Args]. *)
Definition runOpts (c : Converter) (args : list string)
           (shellWrap : list string -> list string -> bool -> bool -> list string)
           (isWithShell withSSH : bool)
           (afterSecrets : list llb.RunOption * list string) : list llb.RunOption :=
  let '(finalOpts, extraEnvVars) :=
    buildArgsLoop (varCollection c)
                  (variables.SortedActiveVariables (varCollection c))
                  afterSecrets.1 afterSecrets.2 in
  let secretOpts := [llb.SecretID DebuggerSettingsSecretsKey; llb.SecretFileOpt 0 0 292] in
  let debuggerSecretMount :=
    llb.AddSecret ("/run/secrets/" +:+ DebuggerSettingsSecretsKey) secretOpts in
  let debuggerMount :=
    llb.AddMount debuggerPath llb.Scratch
                 [llb.HostBind; llb.SourcePath "/usr/bin/earth_debugger"] in
  let runEarthlyMount :=
    llb.AddMount "/run/earthly" llb.Scratch [llb.HostBind; llb.SourcePath "/run/earthly"] in
  let finalOpts := finalOpts ++ [debuggerSecretMount; debuggerMount; runEarthlyMount] in
  let finalOpts := if withSSH then finalOpts ++ [llb.AddSSHSocket] else finalOpts in
  let finalArgs := shellWrap args extraEnvVars isWithShell true in
  finalOpts ++ [llb.Args finalArgs].

(** The last step of [internalRun]: a push-flagged command goes to
    [RunPush], any other to [SideEffectsState]. *)
Definition applyRun (pushFlag : bool) (commandStr : string)
           (finalOpts : list llb.RunOption) (s : STS.t) : STS.t :=
  if pushFlag then
    let finalOpts := finalOpts ++ [llb.IgnoreCache] in
    let rp := STS.RunPush s in
    let rp :=
      if negb (RunPush.Initialized rp)
      then RunPush.mk true (STS.SideEffectsState s) (RunPush.CommandStrs rp)
      else rp in
    STS.setRunPush
      (RunPush.mk (RunPush.Initialized rp)
                  (llb.RunRoot (RunPush.State rp) finalOpts)
                  (RunPush.CommandStrs rp ++ [commandStr])) s
  else
    STS.setSideEffectsState (llb.RunRoot (STS.SideEffectsState s) finalOpts) s.

(** [internalRun] *)
Definition internalRun (args secretKeyValues : list string) (isWithShell : bool)
           (shellWrap : list string -> list string -> bool -> bool -> list string)
           (pushFlag withSSH : bool) (commandStr : string)
           (opts : list llb.RunOption) : M unit :=
  afterSecrets <- liftO (secretsLoop secretKeyValues opts []) ;;
  c <- get ;;
  let finalOpts := runOpts c args shellWrap isWithShell withSSH afterSecrets in
  modify (setFinal (applyRun pushFlag commandStr finalOpts)).

(** [Run] *)
Definition Run (args mounts secretKeyValues : list string)
           (privileged withEntrypoint withDocker isWithShell pushFlag withSSH : bool)
  : M unit :=
  c <- get ;;
  mountRunOpts <-
    wrap (liftO (parseMounts mounts (STS.Target (final c)) (STS.TargetInput (final c))
                             (cacheContext c))) "parse mounts" ;;
  let opts := mountRunOpts in
  let cfg := image.Config (STS.SideEffectsImage (final c)) in
  (* when [args] is empty the source copies the image's cmd into a new
     variable [args] of the inner block; the outer [args] is what is
     appended below *)
  let finalArgs := if withEntrypoint then image.Entrypoint cfg ++ args else args in
  let isWithShell := if withEntrypoint then false else isWithShell in
  let opts := if privileged then opts ++ [llb.Security true] else opts in
  let runStr :=
    "RUN " +:+ strIf privileged "--privileged " +:+ strIf withDocker "--with-docker "
      +:+ strIf withEntrypoint "--entrypoint " +:+ strIf pushFlag "--push "
      +:+ GoStrings.Join finalArgs " " in
  let shellWrap := if withDocker then withDockerdWrapOld else withShellAndEnvVars in
  let opts := opts ++ [llb.RunCustomName (vertexPrefix c +:+ runStr)] in
  internalRun finalArgs secretKeyValues isWithShell shellWrap pushFlag withSSH runStr opts.

(** [processNonConstantBuildArgFunc]: the function it returns. *)
Definition processNonConstantBuildArgFunc (name expression : string)
  : M (llb.State * TargetInput * Z) :=
  let srcBuildArgDir := "/run/buildargs-src"%string in
  let srcBuildArgPath := GoPath.Join [srcBuildArgDir; name] in
  modify (setFinal (fun s =>
    STS.setSideEffectsState
      (llb.File (STS.SideEffectsState s)
                (llb.Mkdir srcBuildArgDir 493 [llb.WithParents true])
                ("[internal] mkdir " +:+ srcBuildArgDir)) s)) ;;
  let buildArgPath := GoPath.Join ["/run/buildargs"; name]%string in
  let args :=
    GoStrings.Split ("echo " +:+ dquote +:+ expression +:+ dquote +:+ " >" +:+ srcBuildArgPath)
                    " "%char in
  c <- get ;;
  wrap (internalRun args [] true withShellAndEnvVars false false expression
                    [llb.RunCustomName (vertexPrefix c +:+ "RUN " +:+ expression)])
       ("run " +:+ expression) ;;
  c <- get ;;
  let buildArgState :=
    llb.CopyOp (STS.SideEffectsState (final c)) [srcBuildArgPath]
               llb.scratch buildArgPath false false ""
               ("[internal] copy buildarg " +:+ name) in
  let argIndex := nextArgIndex c in
  modify (setNextArgIndex (wrap_int (argIndex + 1))) ;;
  modify (setFinal (fun s =>
    STS.setSideEffectsState
      (llb.File (STS.SideEffectsState s)
                (llb.Rm srcBuildArgPath [llb.WithAllowNotFound true])
                ("[internal] rm " +:+ srcBuildArgPath)) s)) ;;
  c <- get ;;
  ret (buildArgState, STS.TargetInput (final c), argIndex).

(** Modelled from the spec: [Collection.WithParseBuildArgs] is in the
    [variables] package, which is not in this file.  By the spec, [K=V] is
    a constant binding; a bare [K] that is active is carried through; a
    bare [K] that the collection does not know is the unresolved-argument
    error; any other bare [K] falls back to the non-constant processor,
    invoked on [(K, K)]; a failure of the processor is the
    unresolved-argument error.  The processor is the one of this file: it
    takes an expression, runs [echo "<expression>"] through the shell and
    keeps what the shell printed as the value of the argument, so a [V]
    that is a command substitution [$(...)] is the expression of a
    non-constant argument and not a constant: the processor is invoked on
    [(K, V)].  The bindings are added, in the order of the arguments, as
    overriding bindings of a new collection. *)
Fixpoint WithParseBuildArgs (col : variables.Collection) (args : list string)
         (pncvf : string -> string -> M (llb.State * TargetInput * Z))
         (acc : variables.Collection) : M variables.Collection :=
  match args with
  | [] => ret acc
  | arg :: rest =>
      match GoStrings.cut "="%char arg with
      | Some (k, v) =>
          if GoStrings.HasPrefix v "$(" then
            '(st, ti, idx) <- wrap (pncvf k v) ("unresolved arg " +:+ k) ;;
            WithParseBuildArgs col rest pncvf
                               (variables.addOverriding acc k
                                                        (variables.NonConstant st ti idx))
          else
            WithParseBuildArgs col rest pncvf
                               (variables.addOverriding acc k (variables.Constant v))
      | None =>
          match variables.Get col arg with
          | (v, true, _) =>
              WithParseBuildArgs col rest pncvf (variables.addOverriding acc arg v)
          | (_, false, true) =>
              '(st, ti, idx) <- wrap (pncvf arg arg) ("unresolved arg " +:+ arg) ;;
              WithParseBuildArgs col rest pncvf
                                 (variables.addOverriding acc arg
                                                          (variables.NonConstant st ti idx))
          | (_, false, false) => fail (NewError ("unresolved arg " +:+ arg))
          end
      end
  end.

(** The recursive call of [Build]: [Earthfile2LLB] acts on the world and on
    the shared [VisitedStates] map. *)
Definition callEarthfile2LLB (target : Target) (opt : ConvertOpt) : M MTS.t :=
  fun w c =>
    let '(w', visited, r) := Earthfile2LLB target opt w in
    (w', setVisited visited c,
     match r with
     | Ok sts => Ok (MTS.mk sts visited)
     | Err e => Err e
     | Panic msg => Panic msg
     end).

(** [Build] *)
Definition Build (fullTargetName : string) (buildArgs : list string) : M MTS.t :=
  relTarget <- wrap (liftO (ParseTarget fullTargetName))
                    ("earth target parse " +:+ fullTargetName) ;;
  c <- get ;;
  target <- wrap (liftO (JoinTargets (STS.Target (final c)) relTarget)) "join targets" ;;
  let newVarCollection :=
    if Target_IsExternal relTarget
    then variables.NewCollection   (* no overriding variables across projects *)
    else varCollection c in
  newVarCollection <-
    wrap (WithParseBuildArgs newVarCollection buildArgs processNonConstantBuildArgFunc
                             newVarCollection)
         "parse build args" ;;
  c <- get ;;
  dep <- wrap (callEarthfile2LLB target
                 {| opt_Resolver := resolver c;
                    opt_ImageResolveMode := imageResolveMode c;
                    opt_DockerBuilderFun := dockerBuilderFun c;
                    opt_ArtifactBuilderFun := None;
                    opt_CleanCollection := cleanCollection c;
                    opt_VisitedStates := MTS.VisitedStates (mts c);
                    opt_VarCollection := newVarCollection;
                    opt_SolveCache := solveCache c |})
              ("earthfile2llb for " +:+ fullTargetName) ;;
  modify (fun c => setDirectDeps (directDeps c ++ [MTS.FinalStates dep]) c) ;;
  ret dep.

(** [applyFromImage] *)
Definition applyFromImage (c : Converter) (state : llb.State) (img : image.Image)
  : llb.State * image.Image * variables.Collection :=
  let '(state, newVarCollection) :=
    fold_left (fun acc envVar =>
                 let '(state, vars) := acc in
                 let '(k, v) := variables.ParseKeyValue envVar in
                 (llb.AddEnv state k v,
                  (variables.AddActive vars k (variables.ConstantEnvVar v) true).1))
              (image.Env (image.Config img))
              (state, variables.WithResetEnvVars (varCollection c)) in
  (* the nil maps of the config are made empty maps: the same value here *)
  let state :=
    if negb (String.eqb (image.WorkingDir (image.Config img)) "")
    then llb.Dir state (image.WorkingDir (image.Config img)) else state in
  let state :=
    if negb (String.eqb (image.User (image.Config img)) "")
    then llb.User state (image.User (image.Config img)) else state in
  (state, img, newVarCollection).

(** [internalFromClassical] *)
Definition internalFromClassical (imageName : string) (opts : list llb.ImageOption)
  : M (llb.State * image.Image * variables.Collection) :=
  if String.eqb imageName "scratch" then
    c <- get ;;
    ret (llb.scratch, image.NewImage, variables.WithResetEnvVars (varCollection c))
  else
    ref <- wrap (liftO (reference_ParseNormalizedNamed imageName))
                ("parse normalized named " +:+ imageName) ;;
    let baseImageName := Reference_String (reference_TagNameOnly ref) in
    c <- get ;;
    '(dgst, dt) <-
      wrap (liftW (ResolveImageConfig baseImageName (imageResolveMode c)
                                      (imageVertexPrefix imageName +:+ "Load metadata")))
           ("resolve image config for " +:+ imageName) ;;
    img <- wrap (liftO (json_Unmarshal_Image dt))
                ("unmarshal image config for " +:+ imageName) ;;
    ref <- (if negb (String.eqb dgst "")
            then wrap (liftO (reference_WithDigest ref dgst))
                      ("reference add digest " +:+ dgst +:+ " for " +:+ imageName)
            else ret ref) ;;
    let allOpts :=
      opts ++ [llb.ImagePlatform llb.TargetPlatform; llb.ImageResolveMode (imageResolveMode c)] in
    let state := llb.Image (Reference_String ref) allOpts in
    ret (applyFromImage c state img).

(** [fromClassical] *)
Definition fromClassical (imageName : string) : M unit :=
  c <- get ;;
  '(state, img, newVariables) <-
    internalFromClassical imageName
      [llb.ImageCustomName (vertexPrefix c +:+ "FROM " +:+ imageName)] ;;
  modify (setFinal (STS.setSideEffectsState state)) ;;
  modify (setFinal (STS.setSideEffectsImage img)) ;;
  modify (setVarCollection newVariables).

(** [fromTarget] *)
Definition fromTarget (targetName : string) (buildArgs : list string) : M unit :=
  depTarget <- wrap (liftO (ParseTarget targetName)) ("parse target name " +:+ targetName) ;;
  dep <- wrap (Build (Target_String depTarget) buildArgs)
              ("apply build " +:+ Target_String depTarget) ;;
  c <- get ;;
  let depTarget :=
    if Target_IsLocalInternal depTarget
    then setLocalPath depTarget (LocalPath (STS.Target (final c)))
    else depTarget in
  (* Look for the built state in the dep states, after we've built it. *)
  let relevantDepState := MTS.FinalStates dep in
  match STS.LastSaveImage relevantDepState with
  | None =>
      fail (NewError ("FROM statement: referenced target " +:+ Target_String depTarget
                        +:+ " does not contain a SAVE IMAGE statement"))
  | Some saveImage =>
      (* Pass on dep state over to this state. *)
      modify (setFinal (STS.setSideEffectsState (SaveImage.State saveImage))) ;;
      modify (setFinal (fun s =>
                STS.setLocalDirs (STS.LocalDirs relevantDepState ∪ STS.LocalDirs s) s)) ;;
      modify (fun c =>
                setVarCollection
                  (fold_left (fun vars kv =>
                                let '(k, v) := variables.ParseKeyValue kv in
                                (variables.AddActive vars k (variables.ConstantEnvVar v) true).1)
                             (image.Env (image.Config (SaveImage.Image saveImage)))
                             (varCollection c)) c) ;;
      modify (setFinal (STS.setSideEffectsImage (image.Clone (SaveImage.Image saveImage))))
  end.

(** [From] *)
Definition From (imageName : string) (buildArgs : list string) : M unit :=
  if GoStrings.Contains imageName "+" then
    (* Target-based FROM. *)
    fromTarget imageName buildArgs
  else if negb (length buildArgs =? 0)%nat then
    (* Docker image based FROM. *)
    fail (NewError "--build-arg not supported in non-target FROM")
  else fromClassical imageName.

(** [solveArtifact] *)
Definition solveArtifact (dep : MTS.t) (artifact : Artifact) : M string :=
  outDir <- wrap (liftW (ioutil_TempDir "/tmp" "earthly-solve-artifact"))
                 "mk temp dir for solve artifact" ;;
  c <- get ;;
  liftW (fun w => (cleanup_Add_RemoveAll (cleanCollection c) outDir w, Ok tt)) ;;
  match artifactBuilderFun c with
  | None => panic "call of a nil function"
  | Some f =>
      wrap (liftW (f dep artifact (outDir +:+ "/")))
           ("build artifact " +:+ Artifact_String artifact)
  end ;;
  ret outDir.

(** [FromDockerfile] *)
Definition FromDockerfile (contextPath dfPath dfTarget : string) (buildArgs : list string)
  : M unit :=
  if negb (String.eqb dfPath "") then
    fail (NewError "FROM DOCKERFILE -f not yet supported")
  else
    '(dfPath, buildContext) <-
      (if GoStrings.Contains contextPath "+" then
         (* The Dockerfile and build context are from a target's artifact. *)
         contextArtifact <- wrap (liftO (ParseArtifact contextPath))
                                 ("parse artifact " +:+ contextPath) ;;
         dep <- Build (Target_String (Artifact_Target contextArtifact)) buildArgs ;;
         pathArtifact <- solveArtifact dep contextArtifact ;;
         let dfPath := GoPath.Join [pathArtifact; "Dockerfile"]%string in
         let buildContext :=
           llb.CopyOp (STS.ArtifactsState (MTS.FinalStates dep))
                      [Artifact_Artifact contextArtifact]
                      llb.scratch "/" true true ""
                      ("[internal] FROM DOCKERFILE (copy build context from) "
                         +:+ joinWrap buildArgs "(" " " ") "
                         +:+ Artifact_String contextArtifact) in
         ret (dfPath, buildContext)
       else
         (* The Dockerfile and build context are from the host. *)
         let contextPath :=
           if negb (String.eqb contextPath ".")
              && negb (GoStrings.HasPrefix contextPath "./")
              && negb (GoStrings.HasPrefix contextPath "../")
              && negb (GoStrings.HasPrefix contextPath "/")
           then ("./" +:+ contextPath)%string else contextPath in
         let dockerfileMetaTarget :=
           {| ProjectPath := ""; LocalPath := contextPath;
              TargetName := DockerfileMetaTarget; Tag := "" |} in
         c <- get ;;
         dockerfileMetaTarget <-
           wrap (liftO (JoinTargets (MTS.FinalTarget (mts c)) dockerfileMetaTarget))
                "join targets" ;;
         data <- wrap (liftW (Resolve (resolver c) dockerfileMetaTarget))
                      "resolve build context for dockerfile" ;;
         modify (setFinal (fun s =>
                   STS.setLocalDirs (Data_LocalDirs data ∪ STS.LocalDirs s) s)) ;;
         ret (BuildFilePath data, BuildContext data)) ;;
    dfData <- wrap (liftW (ioutil_ReadFile dfPath)) ("read file " +:+ dfPath) ;;
    c <- get ;;
    newVarCollection <-
      WithParseBuildArgs (varCollection c) buildArgs processNonConstantBuildArgFunc
                         (varCollection c) ;;
    c <- get ;;
    '(state, dfImg) <-
      wrap (liftW (Dockerfile2LLB dfData
                     {| df_BuildContext := buildContext;
                        df_ContextLocalName := Target_String (MTS.FinalTarget (mts c));
                        df_ImageResolveMode := imageResolveMode c;
                        df_Target := dfTarget;
                        df_BuildArgs := variables.AsMap newVarCollection |}))
           ("dockerfile2llb " +:+ dfPath) ;;
    (* Convert dockerfile2llb image into earthfile2llb image via JSON. *)
    imgDt <- wrap (liftO (json_Marshal_DockerfileImage dfImg)) "marshal dockerfile image" ;;
    img <- wrap (liftO (json_Unmarshal_Image imgDt)) "unmarshal dockerfile image" ;;
    c <- get ;;
    let '(state2, img2, newVarCollection) := applyFromImage c state img in
    modify (setFinal (STS.setSideEffectsState state2)) ;;
    modify (setFinal (STS.setSideEffectsImage img2)) ;;
    modify (setVarCollection newVarCollection).

(** [CopyArtifact] *)
Definition CopyArtifact (artifactName dest : string) (buildArgs : list string)
           (isDir : bool) (chown : string) : M unit :=
  artifact <- wrap (liftO (ParseArtifact artifactName))
                   ("parse artifact name " +:+ artifactName) ;;
  dep <- wrap (Build (Target_String (Artifact_Target artifact)) buildArgs)
              ("apply build " +:+ Target_String (Artifact_Target artifact)) ;;
  c <- get ;;
  let artifact :=
    if Target_IsLocalInternal (Artifact_Target artifact)
    then mkArtifact (setLocalPath (Artifact_Target artifact)
                                  (LocalPath (STS.Target (final c))))
                    (Artifact_Artifact artifact)
    else artifact in
  (* Grab the artifacts state in the dep states, after we've built it. *)
  let relevantDepState := MTS.FinalStates dep in
  (* Copy. *)
  modify (setFinal (fun s =>
    STS.setSideEffectsState
      (llb.CopyOp (STS.ArtifactsState relevantDepState) [Artifact_Artifact artifact]
                  (STS.SideEffectsState s) dest true isDir chown
                  (vertexPrefix c +:+ "COPY " +:+ strIf isDir "--dir "
                     +:+ joinWrap buildArgs "(" " " ") "
                     +:+ Artifact_String artifact +:+ " " +:+ dest)) s)).

(** [CopyClassical] *)
Definition CopyClassical (srcs : list string) (dest : string) (isDir : bool)
           (chown : string) : M unit :=
  modify (fun c => setFinal (fun s =>
    STS.setSideEffectsState
      (llb.CopyOp (buildContext c) srcs (STS.SideEffectsState s) dest true isDir chown
                  (vertexPrefix c +:+ "COPY " +:+ strIf isDir "--dir "
                     +:+ GoStrings.Join srcs " " +:+ " " +:+ dest)) s) c).

(** [SaveArtifact] *)
Definition SaveArtifact (saveFrom saveTo saveAsLocalTo : string) : M unit :=
  c <- get ;;
  saveToAdjusted <-
    (if String.eqb saveTo "" || String.eqb saveTo "." || GoStrings.HasSuffix saveTo "/"
     then
       absSaveFrom <- liftW (llbutil_Abs (STS.SideEffectsState (final c)) saveFrom) ;;
       let saveFromRelative := GoPath.Join ["."; absSaveFrom]%string in
       ret (GoPath.Join [saveTo; GoPath.Base saveFromRelative])
     else ret saveTo) ;;
  let '(saveToD, saveToF) := splitWildcards saveToAdjusted in
  let '(saveToAdjusted, artifactPath) :=
    if String.eqb saveToF "" then (saveToAdjusted, saveToAdjusted)
    else let adjusted := (saveToD +:+ "/")%string in
         (adjusted, GoPath.Join [adjusted; saveToF]) in
  let artifact := mkArtifact (STS.Target (final c)) artifactPath in
  modify (setFinal (fun s =>
    STS.setArtifactsState
      (llb.CopyOp (STS.SideEffectsState s) [saveFrom] (STS.ArtifactsState s)
                  saveToAdjusted true true ""
                  (vertexPrefix c +:+ "SAVE ARTIFACT " +:+ saveFrom +:+ " "
                     +:+ Artifact_String artifact)) s)) ;;
  if negb (String.eqb saveAsLocalTo "") then
    modify (setFinal (fun s =>
      let separateArtifactsState :=
        llb.CopyOp (STS.SideEffectsState s) [saveFrom] llb.scratch
                   saveToAdjusted true false ""
                   (vertexPrefix c +:+ "SAVE ARTIFACT " +:+ saveFrom +:+ " "
                      +:+ Artifact_String artifact +:+ " AS LOCAL " +:+ saveAsLocalTo) in
      let s := STS.setSeparateArtifactsState
                 (STS.SeparateArtifactsState s ++ [separateArtifactsState]) s in
      STS.setSaveLocals
        (STS.SaveLocals s ++
           [SaveLocal.mk saveAsLocalTo artifactPath
                         (Z.of_nat (length (STS.SeparateArtifactsState s)) - 1)]) s))
  else ret tt.

(** [SaveImage] *)
Definition SaveImage (imageNames : list string) (pushImages : bool) : M unit :=
  let imageNames := if (length imageNames =? 0)%nat then [""%string] else imageNames in
  modify (setFinal (fun s =>
    fold_left (fun s imageName =>
                 STS.setSaveImages
                   (STS.SaveImages s ++
                      [SaveImage.mk (STS.SideEffectsState s)
                                    (image.Clone (STS.SideEffectsImage s))
                                    imageName pushImages]) s)
              imageNames s)).

(** Update of [c.mts.FinalStates.SideEffectsImage.Config] in place. *)
Definition setConfig (f : image.ImageConfig -> image.ImageConfig) (c : Converter) : Converter :=
  setFinal (fun s => STS.setSideEffectsImage (image.setConfig (STS.SideEffectsImage s) f) s) c.

(** [Workdir] *)
Definition Workdir (workdirPath : string) : M unit :=
  modify (setFinal (fun s =>
            STS.setSideEffectsState (llb.Dir (STS.SideEffectsState s) workdirPath) s)) ;;
  c <- get ;;
  let cfg := image.Config (STS.SideEffectsImage (final c)) in
  let workdirAbs :=
    if negb (GoPath.IsAbs workdirPath)
    then GoPath.Join ["/"%string; image.WorkingDir cfg; workdirPath]
    else workdirPath in
  modify (setConfig (image.withWorkingDir workdirAbs)) ;;
  if negb (String.eqb workdirAbs "/") then
    (* Mkdir. *)
    let mkdirOpts := [llb.WithParents true] in
    let mkdirOpts :=
      if negb (String.eqb (image.User cfg) "")
      then mkdirOpts ++ [llb.WithUser (image.User cfg)] else mkdirOpts in
    modify (setFinal (fun s =>
      STS.setSideEffectsState
        (llb.File (STS.SideEffectsState s) (llb.Mkdir workdirAbs 493 mkdirOpts)
                  (vertexPrefix c +:+ "WORKDIR " +:+ workdirPath)) s))
  else ret tt.

(** [User] *)
Definition User (user : string) : M unit :=
  modify (setFinal (fun s =>
            STS.setSideEffectsState (llb.User (STS.SideEffectsState s) user) s)) ;;
  modify (setConfig (image.withUser user)).

(** [Cmd] *)
Definition Cmd (cmdArgs : list string) (isWithShell : bool) : M unit :=
  modify (setConfig (image.withCmd (withShell cmdArgs isWithShell))).

(** [Entrypoint] *)
Definition Entrypoint (entrypointArgs : list string) (isWithShell : bool) : M unit :=
  modify (setConfig (image.withEntrypoint (withShell entrypointArgs isWithShell))).

(** [Expose] *)
Definition Expose (ports : list string) : M unit :=
  modify (setConfig (fun cfg =>
            image.withExposedPorts (list_to_set ports ∪ image.ExposedPorts cfg) cfg)).

(** [Volume] *)
Definition Volume (volumes : list string) : M unit :=
  modify (setConfig (fun cfg =>
            image.withVolumes (list_to_set volumes ∪ image.Volumes cfg) cfg)).

(** [Env] *)
Definition Env (envKey envValue : string) : M unit :=
  modify (fun c =>
            setVarCollection
              (variables.AddActive (varCollection c) envKey
                                   (variables.ConstantEnvVar envValue) true).1 c) ;;
  modify (setFinal (fun s =>
            STS.setSideEffectsState (llb.AddEnv (STS.SideEffectsState s) envKey envValue) s)) ;;
  modify (setConfig (fun cfg =>
            image.withEnv (variables.AddEnv (image.Env cfg) envKey envValue) cfg)).

(** [Arg] *)
Definition Arg (argKey defaultArgValue : string) : M unit :=
  c <- get ;;
  let '(vars, effective) :=
    variables.AddActive (varCollection c) argKey (variables.Constant defaultArgValue) false in
  modify (setVarCollection vars) ;;
  modify (setFinal (fun s =>
            STS.setTargetInput
              (WithBuildArgInput (STS.TargetInput s)
                                 (variables.BuildArgInput effective argKey defaultArgValue)) s)).

(** [Label] *)
Definition Label (labels : gmap string string) : M unit :=
  modify (setConfig (fun cfg => image.withLabels (labels ∪ image.Labels cfg) cfg)).

(** [GitClone] *)
Definition GitClone (gitURL branch dest : string) : M unit :=
  c <- get ;;
  let gitOpts :=
    [llb.GitCustomName (vertexPrefixWithURL c gitURL +:+ "GIT CLONE (--branch " +:+ branch
                          +:+ ") " +:+ gitURL);
     llb.KeepGitDir] in
  let gitState := llb.Git gitURL branch gitOpts in
  modify (setFinal (fun s =>
    STS.setSideEffectsState
      (llb.CopyOp gitState ["."%string] (STS.SideEffectsState s) dest false false ""
                  (vertexPrefix c +:+ "COPY GIT CLONE (--branch " +:+ branch +:+ ") "
                     +:+ gitURL +:+ " TO " +:+ dest)) s)).

(** [solveAndLoadOld] *)
Definition solveAndLoadOld (dep : MTS.t) (opName dockerTag : string)
           (opts : list llb.RunOption) : M unit :=
  outDir <- wrap (liftW (ioutil_TempDir "/tmp" "earthly-docker-load"))
                 "mk temp dir for docker load" ;;
  c <- get ;;
  liftW (fun w => (cleanup_Add_RemoveAll (cleanCollection c) outDir w, Ok tt)) ;;
  let outFile := GoPath.Join [outDir; "image.tar"]%string in
  match dockerBuilderFun c with
  | None => panic "call of a nil function"
  | Some f =>
      wrap (liftW (f dep dockerTag outFile))
           ("build target " +:+ opName +:+ " for docker load")
  end ;;
  dockerImageID <- wrap (liftW (dockertar_GetID outFile)) "inspect docker tar after build" ;;
  let sessionIDKey := (dockerTag +:+ "-" +:+ dockerImageID)%string in
  let sessionID := GoHex.EncodeToString (sha256_Sum256 sessionIDKey) in
  (* Add the tar to the local context. *)
  let tarContext :=
    llb.Local opName
      [llb.SharedKeyHint opName; llb.SessionID sessionID;
       llb.LocalPlatform llb.TargetPlatform;
       llb.LocalCustomName ("[internal] docker tar context " +:+ opName +:+ " " +:+ sessionID)] in
  modify (setFinal (fun s => STS.setLocalDirs (<[opName := outDir]> (STS.LocalDirs s)) s)) ;;
  modify (setFinal (fun s =>
    STS.setSideEffectsState
      (llb.File (STS.SideEffectsState s)
                (llb.Mkdir "/var/lib/docker" 493 [llb.WithParents true])
                "[internal] mkdir /var/lib/docker") s)) ;;
  let loadOpts :=
    [llb.Args (withDockerdWrapOld ["docker"; "load"; "</src/image.tar"]%string [] true false);
     llb.AddMount "/src" tarContext [llb.Readonly];
     llb.RunDir "/src";
     llb.Security true] ++ opts in
  modify (setFinal (fun s =>
    STS.setSideEffectsState
      (llb.RunAddMount (STS.SideEffectsState s) loadOpts
                       "/var/lib/docker" (STS.SideEffectsState s)
                       [llb.SourcePath "/var/lib/docker"]) s)).

(** [DockerLoadOld] *)
Definition DockerLoadOld (targetName dockerTag : string) (buildArgs : list string) : M unit :=
  depTarget <- wrap (liftO (ParseTarget targetName)) ("parse target " +:+ targetName) ;;
  dep <- Build (Target_String depTarget) buildArgs ;;
  c <- get ;;
  solveAndLoadOld dep (Target_String depTarget) dockerTag
    [llb.RunCustomName (vertexPrefix c +:+ "DOCKER LOAD " +:+ Target_String depTarget
                          +:+ " " +:+ dockerTag)].

(** The zero value of [SingleTargetStates]. *)
Definition zeroSTS : STS.t :=
  STS.mk (mkTarget "" "" "" "") (mkTargetInput "" []) llb.Scratch image.NewImage llb.Scratch
         [] [] [] RunPush.zero ∅ false "".

(** [DockerPullOld] *)
Definition DockerPullOld (dockerTag : string) : M unit :=
  c <- get ;;
  '(state, img, _) <-
    internalFromClassical dockerTag
      [llb.ImageCustomName (vertexPrefix c +:+ "DOCKER PULL " +:+ dockerTag)] ;;
  let dep :=
    MTS.mk (STS.setSaveImages [SaveImage.mk state img dockerTag false]
              (STS.setSideEffectsImage img (STS.setSideEffectsState state zeroSTS)))
           ∅ in
  c <- get ;;
  solveAndLoadOld dep dockerTag dockerTag
    [llb.RunCustomName (vertexPrefix c +:+ "DOCKER LOAD (PULL " +:+ dockerTag +:+ ")")].

(** [Healthcheck] *)
Definition Healthcheck (isNone : bool) (cmdArgs : list string)
           (interval timeout startPeriod retries : Z) : M unit :=
  let hc :=
    if isNone then image.mkHealthConfig ["NONE"%string] 0 0 0 0
    else image.mkHealthConfig ["CMD-SHELL"%string; GoStrings.Join cmdArgs " "]
                              interval timeout startPeriod retries in
  modify (setConfig (image.withHealthcheck (Some hc))).

(** [FinalizeStates] *)
Definition FinalizeStates : M MTS.t :=
  (* Create an artificial bond to depStates so that side-effects of deps
     are built automatically. *)
  modify (fun c =>
    setFinal (fun s =>
      fold_left (fun s depStates =>
                   STS.setSideEffectsState
                     (withDependency (STS.SideEffectsState s) (STS.Target s)
                                     (STS.SideEffectsState depStates)
                                     (STS.Target depStates)) s)
                (directDeps c) s) c) ;;
  modify (setFinal (STS.setOngoing false)) ;;
  c <- get ;;
  ret (mts c).

End Operations.

(** ** Commands

    The public methods of the converter as data, so that sequences of
    commands can be quantified over.  ([WithDockerRun] hands over to the
    [withDockerRun] type of another file and is not among them;
    [ExpandArgs] only reads.) *)
Inductive Command :=
| CFrom (imageName : string) (buildArgs : list string)
| CFromDockerfile (contextPath dfPath dfTarget : string) (buildArgs : list string)
| CCopyArtifact (artifactName dest : string) (buildArgs : list string)
                (isDir : bool) (chown : string)
| CCopyClassical (srcs : list string) (dest : string) (isDir : bool) (chown : string)
| CRun (args mounts secretKeyValues : list string)
       (privileged withEntrypoint withDocker isWithShell pushFlag withSSH : bool)
| CSaveArtifact (saveFrom saveTo saveAsLocalTo : string)
| CSaveImage (imageNames : list string) (pushImages : bool)
| CBuild (fullTargetName : string) (buildArgs : list string)
| CWorkdir (workdirPath : string)
| CUser (user : string)
| CCmd (cmdArgs : list string) (isWithShell : bool)
| CEntrypoint (entrypointArgs : list string) (isWithShell : bool)
| CExpose (ports : list string)
| CVolume (volumes : list string)
| CEnv (envKey envValue : string)
| CArg (argKey defaultArgValue : string)
| CLabel (labels : gmap string string)
| CGitClone (gitURL branch dest : string)
| CDockerLoadOld (targetName dockerTag : string) (buildArgs : list string)
| CDockerPullOld (dockerTag : string)
| CHealthcheck (isNone : bool) (cmdArgs : list string)
               (interval timeout startPeriod retries : Z)
| CFinalizeStates.

Section Commands.
Context {C : Collaborators} {E : @Entries C}.
Local Open Scope conv_scope.

Definition apply (cmd : Command) : M unit :=
  match cmd with
  | CFrom imageName buildArgs => From imageName buildArgs
  | CFromDockerfile contextPath dfPath dfTarget buildArgs =>
      FromDockerfile contextPath dfPath dfTarget buildArgs
  | CCopyArtifact artifactName dest buildArgs isDir chown =>
      CopyArtifact artifactName dest buildArgs isDir chown
  | CCopyClassical srcs dest isDir chown => CopyClassical srcs dest isDir chown
  | CRun args mounts secretKeyValues privileged withEntrypoint withDocker isWithShell
         pushFlag withSSH =>
      Run args mounts secretKeyValues privileged withEntrypoint withDocker isWithShell
          pushFlag withSSH
  | CSaveArtifact saveFrom saveTo saveAsLocalTo => SaveArtifact saveFrom saveTo saveAsLocalTo
  | CSaveImage imageNames pushImages => SaveImage imageNames pushImages
  | CBuild fullTargetName buildArgs => Build fullTargetName buildArgs ;; ret tt
  | CWorkdir workdirPath => Workdir workdirPath
  | CUser user => User user
  | CCmd cmdArgs isWithShell => Cmd cmdArgs isWithShell
  | CEntrypoint entrypointArgs isWithShell => Entrypoint entrypointArgs isWithShell
  | CExpose ports => Expose ports
  | CVolume volumes => Volume volumes
  | CEnv envKey envValue => Env envKey envValue
  | CArg argKey defaultArgValue => Arg argKey defaultArgValue
  | CLabel labels => Label labels
  | CGitClone gitURL branch dest => GitClone gitURL branch dest
  | CDockerLoadOld targetName dockerTag buildArgs =>
      DockerLoadOld targetName dockerTag buildArgs
  | CDockerPullOld dockerTag => DockerPullOld dockerTag
  | CHealthcheck isNone cmdArgs interval timeout startPeriod retries =>
      Healthcheck isNone cmdArgs interval timeout startPeriod retries
  | CFinalizeStates => FinalizeStates ;; ret tt
  end.

(** The converters that a sequence of commands can produce: a new
    converter, then any commands, whatever each one yields. *)
Inductive reachable : World -> Converter -> Prop :=
| reachable_new target bc opt w w' c :
    NewConverter target bc opt w = (w', Ok c) -> reachable w' c
| reachable_step cmd w c w' c' o :
    reachable w c -> apply cmd w c = (w', c', o) -> reachable w' c'.

(** A sequence of commands, stopping at the first error. *)
Fixpoint applyAll (cmds : list Command) : M unit :=
  match cmds with
  | [] => ret tt
  | cmd :: rest => apply cmd ;; applyAll rest
  end.

Definition isPush (cmd : Command) : bool :=
  match cmd with
  | CRun _ _ _ _ _ _ _ pushFlag _ => pushFlag
  | _ => false
  end.


(** ** Reading the build graph *)



(** The arguments of the run on top of [s]. *)
Definition topRunArgs (s : llb.State) : list (list string) :=
  match s with
  | llb.RunRoot _ opts =>
      omap (fun o => match o with llb.Args a => Some a | _ => None end) opts
  | _ => []
  end.

(** The states that [s] was made to depend on by [llbutil.WithDependency],
    last one first, and the state below these artificial dependencies. *)
Fixpoint dependencyParents (s : llb.State) : list llb.State :=
  match s with
  | llb.WithDependency s' dep _ => dep :: dependencyParents s'
  | _ => []
  end.

Fixpoint withoutDependencies (s : llb.State) : llb.State :=
  match s with
  | llb.WithDependency s' _ _ => withoutDependencies s'
  | _ => s
  end.





(** The command string [runStr] that [Run] builds for a RUN command. *)
Definition commandStr (c : Converter) (cmd : Command) : string :=
  match cmd with
  | CRun args _ _ privileged withEntrypoint withDocker _ pushFlag _ =>
      let cfg := image.Config (STS.SideEffectsImage (final c)) in
      let finalArgs := if withEntrypoint then image.Entrypoint cfg ++ args else args in
      "RUN " +:+ strIf privileged "--privileged " +:+ strIf withDocker "--with-docker "
        +:+ strIf withEntrypoint "--entrypoint " +:+ strIf pushFlag "--push "
        +:+ GoStrings.Join finalArgs " "
  | _ => ""
  end.

(** ** What a computation leaves alone

    [preserves p m]: whatever [m] yields, the part [p] of the converter is
    afterwards what it was before. *)
Definition preserves {A X : Type} (p : Converter -> X) (m : M A) : Prop :=
  forall w c, p (m w c).1.2 = p c.

(** The converter with the fields that evaluating build arguments and
    recursing into another target may change put to fixed values: the
    side-effects state, the argument counter, the visited states and the
    direct dependencies. *)
Definition rest (c : Converter) : Converter :=
  setDirectDeps []
    (setNextArgIndex 0
       (setVisited ∅ (setFinal (STS.setSideEffectsState llb.Scratch) c))).

(** The two parallel vectors of the STS. *)
Definition vectors (c : Converter) : list llb.State * list SaveLocal.t :=
  (STS.SeparateArtifactsState (final c), STS.SaveLocals (final c)).

(** The name of the local destination of a command, if it saves one. *)
Definition savesLocal (cmd : Command) : bool :=
  match cmd with
  | CSaveArtifact _ _ saveAsLocalTo => negb (String.eqb saveAsLocalTo "")
  | _ => false
  end.

(** The invariant behind the index bound: there are as many [SaveLocal]
    entries as separate states, and the entry at position [i] has index
    [i]. *)
Definition indexed (v : list llb.State * list SaveLocal.t) : Prop :=
  length v.2 = length v.1
  /\ forall i sl, v.2 !! i = Some sl -> SaveLocal.Index sl = Z.of_nat i.


(** ** Kinds of commands *)

Definition finalizes (cmd : Command) : bool :=
  match cmd with CFinalizeStates => true | _ => false end.

Definition isSaveImage (cmd : Command) : bool :=
  match cmd with CSaveImage _ _ => true | _ => false end.

Definition isSaveArtifact (cmd : Command) : bool :=
  match cmd with CSaveArtifact _ _ _ => true | _ => false end.

Definition isArg (cmd : Command) : bool :=
  match cmd with CArg _ _ => true | _ => false end.

(** The commands that only write the image config. *)
Definition imageOnly (cmd : Command) : bool :=
  match cmd with
  | CCmd _ _ | CEntrypoint _ _ | CExpose _ | CVolume _ | CLabel _
  | CHealthcheck _ _ _ _ _ _ => true
  | _ => false
  end.

(** [evolves R m]: whatever [m] yields, the converter afterwards is related
    by [R] to the converter before. *)
Definition evolves {A : Type} (R : Converter -> Converter -> Prop) (m : M A) : Prop :=
  forall w c, R c (m w c).1.2.

(** What names an STS in vertex labels: its target and its salt. *)
Definition labelled (s : STS.t) : Target * string := (STS.Target s, STS.Salt s).

(** A secret definition that [internalRun] accepts: [ENV=+secrets/ID]. *)
Definition validSecret (secretKeyValue : string) : bool :=
  match GoStrings.SplitN2 secretKeyValue "="%char with
  | [_; value] => GoStrings.HasPrefix value "+secrets/"
  | _ => false
  end.

(** Where the secret of a definition is mounted. *)
Definition secretPath (secretKeyValue : string) : string :=
  match GoStrings.SplitN2 secretKeyValue "="%char with
  | [_; value] => GoPath.Join ["/run/secrets"%string; GoStrings.TrimPrefix value "+secrets/"]
  | _ => ""%string
  end.

(** The secret mount and the env-var prelude entry of a definition. *)
Definition secretMount (secretKeyValue : string) : llb.RunOption :=
  match GoStrings.SplitN2 secretKeyValue "="%char with
  | [_; value] =>
      llb.AddSecret (secretPath secretKeyValue)
                    [llb.SecretID (GoStrings.TrimPrefix value "+secrets/");
                     llb.SecretFileOpt 0 0 292]
  | _ => llb.AddSecret "" []
  end.

Definition secretEnvVar (secretKeyValue : string) : string :=
  match GoStrings.SplitN2 secretKeyValue "="%char with
  | [envVar; _] => envVar +:+ "=" +:+ dquote +:+ "$(cat " +:+ secretPath secretKeyValue
                          +:+ ")" +:+ dquote
  | _ => ""%string
  end.

(** The error of [internalRun] for a secret definition it rejects. *)
Definition secretError (secretKeyValue : string) : error :=
  match GoStrings.SplitN2 secretKeyValue "="%char with
  | [_; _] => NewError ("Secret definition " +:+ secretKeyValue
                          +:+ " not supported. Must start with +secrets/")
  | _ => NewError ("Invalid secret definition " +:+ secretKeyValue)
  end.

(** The commands whose method has no error result, or only returns nil. *)
Definition infallible (cmd : Command) : bool :=
  match cmd with
  | CCopyClassical _ _ _ _ | CSaveImage _ _ | CWorkdir _ | CUser _ | CCmd _ _
  | CEntrypoint _ _ | CExpose _ | CVolume _ | CEnv _ _ | CArg _ _ | CLabel _
  | CGitClone _ _ _ | CHealthcheck _ _ _ _ _ _ | CFinalizeStates => true
  | _ => false
  end.

(** The commands that write the variable collection. *)
Definition changesVars (cmd : Command) : bool :=
  match cmd with
  | CFrom _ _ | CFromDockerfile _ _ _ _ | CEnv _ _ | CArg _ _ => true
  | _ => false
  end.

(** An outcome that is not a value. *)
Definition notOk {A : Type} (o : outcome A) : Prop :=
  match o with Ok _ => False | _ => True end.

(** The fields that [NewConverter] sets and no method of this file
    assigns afterwards (what the cleanup collection and the solve cache
    refer to may change behind them). *)
Definition configuration (c : Converter) :=
  (gitMeta c, resolver c, directDepIndices c, buildContext c, cacheContext c,
   dockerBuilderFun c, artifactBuilderFun c, cleanCollection c, solveCache c,
   imageResolveMode c).

(** The classical FROM writes three parts of the converter: the
    side-effects state, the image and the variables. *)
Definition withBase (state : llb.State) (img : image.Image) (vars : variables.Collection)
           (c : Converter) : Converter :=
  setVarCollection vars
    (setFinal (STS.setSideEffectsImage img) (setFinal (STS.setSideEffectsState state) c)).

(** [quiet m]: [m] yields a value and leaves the world alone. *)
Definition quiet {A : Type} (m : M A) : Prop :=
  forall w c, exists c' a, m w c = (w, c', Ok a).

(** The commands that build another target. *)
Definition callsBuild (cmd : Command) : bool :=
  match cmd with
  | CFrom _ _ | CFromDockerfile _ _ _ _ | CCopyArtifact _ _ _ _ _ | CBuild _ _
  | CDockerLoadOld _ _ _ => true
  | _ => false
  end.

(** Every local directory of [c] is still one of [c']. *)
Definition keepsLocalDirs (c c' : Converter) : Prop :=
  dom (STS.LocalDirs (final c)) ⊆ dom (STS.LocalDirs (final c')).

(** The direct dependencies of [c'] are those of [c], then maybe more. *)
Definition extendsDeps (c c' : Converter) : Prop :=
  directDeps c `prefix_of` directDeps c'.

End Commands.

(** ** A small environment

    One concrete choice of collaborators, on which the statements below are
    exercised: targets are written [path+name], projects under
    [github.com/] are external, and the recursive entry returns a fixed STS
    for each target name. *)
Module Sample.

Definition parseTarget (s : string) : outcome Target :=
  match GoStrings.cut "+"%char s with
  | Some (p, n) => Ok (mkTarget p p n "")
  | None => Err (NewError ("invalid target " +:+ s))
  end.

Definition parseArtifact (s : string) : outcome Artifact :=
  match GoStrings.cut "+"%char s with
  | Some (p, rest) =>
      match GoStrings.cut "/"%char rest with
      | Some (n, a) => Ok (mkArtifact (mkTarget p p n "") a)
      | None => Err (NewError ("invalid artifact " +:+ s))
      end
  | None => Err (NewError ("invalid artifact " +:+ s))
  end.

Definition joinTargets (base rel : Target) : outcome Target :=
  Ok (if String.eqb (ProjectPath rel) ""
      then mkTarget (ProjectPath base) (LocalPath base) (TargetName rel) (Tag rel)
      else rel).

Definition targetString (t : Target) : string := LocalPath t +:+ "+" +:+ TargetName t.

Definition canonical (t : Target) : string :=
  ProjectPath t +:+ "+" +:+ TargetName t
    +:+ (if String.eqb (Tag t) "" then "" else ":" +:+ Tag t).

Definition shell (wrapper : string) (args envVars : list string) (isWithShell : bool)
  : list string :=
  if isWithShell then [wrapper; "-c"%string; GoStrings.Join (envVars ++ args) " "]
  else args.

#[local] Instance collaborators : Collaborators := {|
  World := nat;
  GitMetadata := unit;
  Resolver := unit;
  CleanCollection := unit;
  SolveCache := unit;
  Reference := string;
  DockerfileImage := image.Image;
  ParseTarget := parseTarget;
  ParseArtifact := parseArtifact;
  JoinTargets := joinTargets;
  Target_String := targetString;
  Target_StringCanonical := canonical;
  Target_ProjectCanonical := ProjectPath;
  Target_IsExternal := fun t => GoStrings.HasPrefix (ProjectPath t) "github.com/";
  Target_IsLocalInternal := fun t => String.eqb (LocalPath t) "";
  Artifact_String := fun a => targetString (Artifact_Target a) +:+ "/" +:+ Artifact_Artifact a;
  sha256_Sum256 := fun s => s;
  rand_Int := fun w => (S w, Z.of_nat w);
  builtinBuildArgs := fun t _ => [("EARTHLY_TARGET"%string, canonical t)];
  parseMounts := fun mounts _ _ _ => Ok (map llb.MountSpec mounts);
  withShellAndEnvVars := fun args envVars isWithShell _ => shell "/bin/sh" args envVars isWithShell;
  withDockerdWrapOld := fun args envVars isWithShell _ => shell "dockerd-wrap" args envVars isWithShell;
  withShell := fun args isWithShell => shell "/bin/sh" args [] isWithShell;
  splitWildcards := fun s => (s, ""%string);
  debuggerPath := "/usr/bin/earth_debugger";
  DebuggerSettingsSecretsKey := "earthly_debugger_settings";
  DockerfileMetaTarget := "Dockerfile";
  llbutil_Abs := fun _ p w => (w, Ok (if GoPath.IsAbs p then p else GoPath.Join ["/"%string; p]));
  reference_ParseNormalizedNamed := fun s => Ok s;
  reference_TagNameOnly := fun r => r;
  reference_WithDigest := fun r d => Ok (r +:+ "@" +:+ d);
  Reference_String := fun r => r;
  ResolveImageConfig := fun name _ _ w => (w, Ok (""%string, name));
  json_Unmarshal_Image := fun _ => Ok image.NewImage;
  json_Marshal_DockerfileImage := fun _ => Ok ""%string;
  ioutil_TempDir := fun dir prefix w => (S w, Ok (dir +:+ "/" +:+ prefix +:+ pretty w));
  ioutil_ReadFile := fun _ w => (w, Ok "FROM scratch"%string);
  cleanup_Add_RemoveAll := fun _ _ w => w;
  dockertar_GetID := fun _ w => (w, Ok "sha256:0"%string);
|}.

(** The image that the target [img] saves. *)
Definition savedImage : image.Image :=
  image.setConfig image.NewImage (image.withEnv ["PATH=/bin"; "LANG=C"]%string).

(** The STS the recursive entry returns: a target named [img] saves one
    image; a target named [lib] also needs the directory [../base]. *)
Definition built (target : Target) (vars : variables.Collection) : STS.t :=
  let ti :=
    fold_left (fun ti key =>
                 let '(ovVar, _, _) := variables.Get vars key in
                 WithBuildArgInput ti (variables.BuildArgInput ovVar key ""))
              (variables.SortedOverridingVariables vars)
              (mkTargetInput (canonical target) []) in
  let st := llb.Foreign ("state of " +:+ targetString target) in
  STS.mk target ti st savedImage (llb.Foreign ("artifacts of " +:+ targetString target))
         [] []
         (if String.eqb (TargetName target) "img"
          then [SaveImage.mk st savedImage "img:latest" false] else [])
         RunPush.zero
         (if String.eqb (TargetName target) "lib"
          then {[ LocalPath target := LocalPath target; "../base"%string := "../base"%string ]}
          else {[ LocalPath target := LocalPath target ]})
         false "7".

#[local] Instance entries : Entries := {|
  Resolve := fun _ t w =>
    (w, Ok (mkData (llb.Foreign ("context of " +:+ LocalPath t))
                   (LocalPath t +:+ "/Dockerfile")
                   {[ LocalPath t := LocalPath t ]} None));
  Dockerfile2LLB := fun _ _ w => (w, Ok (llb.Foreign "dockerfile", image.NewImage));
  Earthfile2LLB := fun target opt w =>
    let sts := built target (opt_VarCollection opt) in
    let targetStr := Target_String target in
    (w,
     <[targetStr := default [] (opt_VisitedStates opt !! targetStr) ++ [sts]]>
       (opt_VisitedStates opt),
     Ok sts);
|}.

(** The caller: target [+app] of the project in [.], built with the
    overriding argument [GLOBAL=x]. *)
Definition app : Target := mkTarget "." "." "app" "".

Definition callerVars : variables.Collection :=
  variables.addOverriding variables.NewCollection "GLOBAL" (variables.Constant "x").

Definition appOpt : ConvertOpt :=
  mkConvertOpt tt llb.ResolveModeDefault None None tt ∅ callerVars tt.

Definition appData : Data :=
  mkData (llb.Foreign "context of .") "./Earthfile" {[ "."%string := "."%string ]} None.

Definition world0 : World := 0%nat.

(** The converter [NewConverter] makes for [+app], and the world after. *)
Definition world1 : World := (NewConverter app appData appOpt world0).1.
Definition conv1 : Converter :=
  match (NewConverter app appData appOpt world0).2 with
  | Ok c => c
  | _ => mkConverter None tt (MTS.mk zeroSTS ∅) [] [] llb.Scratch llb.Scratch
                     variables.NewCollection None None tt 0 tt llb.ResolveModeDefault
  end.

(** The value of an outcome, or a default. *)
Definition value {A} (d : A) (o : outcome A) : A :=
  match o with Ok a => a | _ => d end.

(** The same converter after [ENTRYPOINT ["/bin/app"]] and [CMD ["serve"]]. *)
Definition conv2 : Converter :=
  (applyAll [CEntrypoint ["/bin/app"%string] false; CCmd ["serve"%string] false]
            world1 conv1).1.2.


(** Two SAVE ARTIFACT ... AS LOCAL commands after a FROM. *)
Definition saveScenario : list Command :=
  [CFrom "scratch" [];
   CSaveArtifact "/out/x" "" "./x";
   CSaveArtifact "/out/y" "bin/" "./y"].

(** A docker builder that writes the tar without a trace in the world, and
    the converter of [+app] set up with it. *)
Definition builder : DockerBuilderFun := fun _ _ _ w => (w, Ok tt).

Definition loadOpt : ConvertOpt :=
  mkConvertOpt tt llb.ResolveModeDefault (Some builder) None tt ∅ callerVars tt.

Definition conv3 : Converter :=
  match (NewConverter app appData loadOpt world0).2 with
  | Ok c => c
  | _ => conv1
  end.

(** A recursive entry that refuses options with an artifact builder. *)
#[local] Instance strictEntries : Entries := {|
  Resolve := @Resolve collaborators entries;
  Dockerfile2LLB := @Dockerfile2LLB collaborators entries;
  Earthfile2LLB := fun target opt w =>
    match opt_ArtifactBuilderFun opt with
    | None => @Earthfile2LLB collaborators entries target opt w
    | Some _ => (w, opt_VisitedStates opt, Err (NewError "artifact builder passed on"))
    end;
|}.

(** An image being described: ENTRYPOINT, CMD, EXPOSE, LABEL. *)
Definition describeScenario : list Command :=
  [CEntrypoint ["/bin/app"%string] false;
   CCmd ["serve"%string] false;
   CExpose ["8080"%string];
   CLabel {[ "maintainer"%string := "ops"%string ]}].

(** Commands that cannot fail: WORKDIR, ENV, a COPY, SAVE IMAGE. *)
Definition plainScenario : list Command :=
  [CWorkdir "/app";
   CEnv "MODE" "prod";
   CCopyClassical ["main.go"%string] "." false "";
   CSaveImage ["app:latest"%string] false].

(** A BUILD, a RUN and a SAVE IMAGE: nothing that writes the variables. *)
Definition buildScenario : list Command :=
  [CBuild "+img" ["VER=2"%string];
   CRun ["make"%string] [] [] false false false true false false;
   CSaveImage ["app:latest"%string] false].

End Sample.

(** * Properties *)

(** The library functions on a few inputs. *)
Example Join_run : GoPath.Join ["/run/buildargs-src"; "VER"]%string = "/run/buildargs-src/VER"%string.
Proof. reflexivity. Qed.
Example Join_dots : GoPath.Join ["/a/b"; "../c/./d/"; ""]%string = "/a/c/d"%string.
Proof. reflexivity. Qed.
Example Join_rel : GoPath.Join ["."; "/out/x"]%string = "out/x"%string.
Proof. reflexivity. Qed.
Example Base_x : GoPath.Base "out/x/"%string = "x"%string.
Proof. reflexivity. Qed.
Example Split_x : GoStrings.Split "echo hi >/f"%string " "%char = ["echo"; "hi"; ">/f"]%string.
Proof. reflexivity. Qed.
Example Hex_x : GoHex.EncodeToString "J/"%string = "4a2f"%string.
Proof. reflexivity. Qed.

Section Properties.
Context {C : Collaborators} {E : @Entries C}.
Local Open Scope conv_scope.

Lemma preserves_ret {A X} (p : Converter -> X) (a : A) : preserves p (ret a).
Proof. intros w c. reflexivity. Qed.

Lemma preserves_fail {A X} (p : Converter -> X) e : preserves p (@fail _ A e).
Proof. intros w c. reflexivity. Qed.

Lemma preserves_panic {A X} (p : Converter -> X) msg : preserves p (@panic _ A msg).
Proof. intros w c. reflexivity. Qed.

Lemma preserves_get {X} (p : Converter -> X) : preserves p get.
Proof. intros w c. reflexivity. Qed.

Lemma preserves_liftO {A X} (p : Converter -> X) (o : outcome A) : preserves p (liftO o).
Proof. intros w c. reflexivity. Qed.

Lemma preserves_liftW {A X} (p : Converter -> X) (f : World -> World * outcome A) :
  preserves p (liftW f).
Proof. intros w c. unfold liftW. destruct (f w). reflexivity. Qed.

Lemma preserves_modify {X} (p : Converter -> X) f :
  (forall c, p (f c) = p c) -> preserves p (modify f).
Proof. intros Hf w c. apply Hf. Qed.

Lemma preserves_bind {A B X} (p : Converter -> X) (m : M A) (k : A -> M B) :
  preserves p m -> (forall a, preserves p (k a)) -> preserves p (bind m k).
Proof.
  intros Hm Hk w c. unfold bind. specialize (Hm w c).
  destruct (m w c) as [[w' c'] [a | e | msg]]; simpl in *; try assumption.
  rewrite Hk. assumption.
Qed.

Lemma preserves_wrap {A X} (p : Converter -> X) (m : M A) msg :
  preserves p m -> preserves p (wrap m msg).
Proof.
  intros Hm w c. unfold wrap. specialize (Hm w c).
  destruct (m w c) as [[w' c'] [a | e | s]]; assumption.
Qed.

(** Progress through a computation built from the pieces above. *)
Ltac frame_step :=
  match goal with
  | |- preserves _ (bind _ _) => apply preserves_bind; [ | intros ]
  | |- preserves _ (wrap _ _) => apply preserves_wrap
  | |- preserves _ (ret _) => apply preserves_ret
  | |- preserves _ (fail _) => apply preserves_fail
  | |- preserves _ (panic _) => apply preserves_panic
  | |- preserves _ get => apply preserves_get
  | |- preserves _ (liftO _) => apply preserves_liftO
  | |- preserves _ (liftW _) => apply preserves_liftW
  | |- preserves _ (modify _) => apply preserves_modify; intros; try reflexivity
  | |- preserves _ (if ?b then _ else _) => destruct b
  | |- preserves _ (match ?x with _ => _ end) => destruct x
  | |- preserves _ (let '(_, _) := ?x in _) => destruct x
  | H : preserves ?p ?m |- preserves ?p ?m => exact H
  end.
Ltac frame := repeat frame_step.

Lemma processNonConstantBuildArgFunc_rest name expression :
  preserves rest (processNonConstantBuildArgFunc name expression).
Proof. unfold processNonConstantBuildArgFunc, internalRun. simpl. frame. Qed.

Lemma WithParseBuildArgs_rest col args acc :
  preserves rest (WithParseBuildArgs col args processNonConstantBuildArgFunc acc).
Proof.
  revert acc. induction args as [ | arg args IH]; intros acc; simpl.
  - frame.
  - destruct (GoStrings.cut "=" arg) as [[k v] | ].
    + destruct (GoStrings.HasPrefix v "$("); [ | apply IH].
      frame; [apply processNonConstantBuildArgFunc_rest | apply IH].
    + destruct (variables.Get col arg) as [[v [ | ]] [ | ]]; try apply IH.
      * frame; [apply processNonConstantBuildArgFunc_rest | apply IH].
      * frame.
Qed.

Lemma callEarthfile2LLB_rest target opt : preserves rest (callEarthfile2LLB target opt).
Proof.
  intros w c. unfold callEarthfile2LLB.
  destruct (Earthfile2LLB target opt w) as [[w' visited] r]. reflexivity.
Qed.

Lemma Build_rest fullTargetName buildArgs : preserves rest (Build fullTargetName buildArgs).
Proof.
  unfold Build. frame;
    try apply WithParseBuildArgs_rest; try apply callEarthfile2LLB_rest.
Qed.

Lemma final_setFinal f c : final (setFinal f c) = f (final c).
Proof. reflexivity. Qed.



(** ** Cache key *)

(** C5: targets that differ only in their tag have the same cache key,
    which is the hex-encoded SHA-256 of the canonical string of the target
    with its tag emptied. *)
Theorem cacheKey_ignores_tag (t1 t2 : Target) :
  ProjectPath t1 = ProjectPath t2 ->
  LocalPath t1 = LocalPath t2 ->
  TargetName t1 = TargetName t2 ->
  cacheKey t1 = cacheKey t2
  /\ cacheKey t1
     = GoHex.EncodeToString (sha256_Sum256 (Target_StringCanonical (setTag t1 ""))).
Proof.
  intros Hp Hl Hn. split; [ | reflexivity].
  unfold cacheKey, setTag. rewrite Hp, Hl, Hn. reflexivity.
Qed.

(** ** FROM *)

(** C9: a FROM whose reference has no [+] and that carries build args
    fails with the invalid-arguments error and changes nothing; without
    build args it is the classical FROM; with a [+] in the reference it is
    the target FROM, whatever the build args. *)
Theorem From_dispatch (imageName : string) (buildArgs : list string) w c :
  (GoStrings.Contains imageName "+" = false ->
   buildArgs <> [] ->
   From imageName buildArgs w c
   = (w, c, Err (NewError "--build-arg not supported in non-target FROM")))
  /\ (GoStrings.Contains imageName "+" = false ->
      From imageName [] w c = fromClassical imageName w c)
  /\ (GoStrings.Contains imageName "+" = true ->
      From imageName buildArgs w c = fromTarget imageName buildArgs w c).
Proof.
  unfold From. repeat split; intros Hc; rewrite Hc; try reflexivity.
  intros Hne. destruct buildArgs; [contradiction | reflexivity].
Qed.

(** ** Finalize *)

Lemma finalize_fold_parents deps s :
  dependencyParents
    (STS.SideEffectsState
       (fold_left (fun s depStates =>
                     STS.setSideEffectsState
                       (withDependency (STS.SideEffectsState s) (STS.Target s)
                                       (STS.SideEffectsState depStates)
                                       (STS.Target depStates)) s) deps s))
  = rev (map STS.SideEffectsState deps) ++ dependencyParents (STS.SideEffectsState s)
  /\ withoutDependencies
       (STS.SideEffectsState
          (fold_left (fun s depStates =>
                        STS.setSideEffectsState
                          (withDependency (STS.SideEffectsState s) (STS.Target s)
                                          (STS.SideEffectsState depStates)
                                          (STS.Target depStates)) s) deps s))
     = withoutDependencies (STS.SideEffectsState s).
Proof.
  revert s. induction deps as [ | d deps IH]; intros s; simpl.
  - split; reflexivity.
  - destruct (IH (STS.setSideEffectsState
                    (withDependency (STS.SideEffectsState s) (STS.Target s)
                                    (STS.SideEffectsState d) (STS.Target d)) s)) as [IH1 IH2].
    rewrite IH1, IH2. simpl. split; [ | reflexivity].
    rewrite <- app_assoc. reflexivity.
Qed.

(** C7: after [FinalizeStates], [Ongoing] is false, the side-effects state
    of every direct dependency is an artificial-dependency parent of the
    final side-effects state, and below these dependencies the state is the
    one from before. *)
Theorem FinalizeStates_spec w c :
  let r := FinalizeStates w c in
  let c' := r.1.2 in
  r = (w, c', Ok (mts c'))
  /\ STS.Ongoing (final c') = false
  /\ dependencyParents (STS.SideEffectsState (final c'))
     = rev (map STS.SideEffectsState (directDeps c))
         ++ dependencyParents (STS.SideEffectsState (final c))
  /\ (forall dep, In dep (directDeps c) ->
       In (STS.SideEffectsState dep) (dependencyParents (STS.SideEffectsState (final c'))))
  /\ withoutDependencies (STS.SideEffectsState (final c'))
     = withoutDependencies (STS.SideEffectsState (final c)).
Proof.
  destruct (finalize_fold_parents (directDeps c) (final c)) as [Hp Hw].
  simpl. rewrite !final_setFinal. repeat split; try assumption.
  intros dep Hin. rewrite Hp. apply in_or_app. left.
  apply in_rev. rewrite rev_involutive. apply in_map. exact Hin.
Qed.

(** ** Non-constant build arguments *)

Lemma wrap_int_succ n : int_min <= n < int_max -> wrap_int (n + 1) = n + 1.
Proof.
  unfold wrap_int, int_min, int_max. intros Hn.
  rewrite Z.mod_small by lia. lia.
Qed.

(** C10: evaluating a non-constant build argument changes the caller's own
    side-effects state: a mkdir of [/run/buildargs-src], a shell run of
    [echo "<expression>" ><that directory>/<name>] and a rm of that file are
    put on top of it; the argument gets the converter's counter as its
    index, and the counter goes up by one, so the argument evaluated next
    gets the index after it.  Nothing else of the converter changes. *)
Theorem processNonConstantBuildArgFunc_effect (name expression : string) w c :
  int_min <= nextArgIndex c < int_max ->
  let srcPath := GoPath.Join ["/run/buildargs-src"%string; name] in
  let echo :=
    GoStrings.Split ("echo " +:+ dquote +:+ expression +:+ dquote +:+ " >" +:+ srcPath)
                    " "%char in
  let s1 :=
    llb.File (STS.SideEffectsState (final c))
             (llb.Mkdir "/run/buildargs-src" 493 [llb.WithParents true])
             "[internal] mkdir /run/buildargs-src" in
  exists opts envVars,
    let s2 := llb.RunRoot s1 (opts ++ [llb.Args (withShellAndEnvVars echo envVars true true)]) in
    let s3 :=
      llb.File s2 (llb.Rm srcPath [llb.WithAllowNotFound true])
               ("[internal] rm " +:+ srcPath) in
    let r := processNonConstantBuildArgFunc name expression w c in
    r.1.1 = w
    /\ r.2 = Ok (llb.CopyOp s2 [srcPath] llb.scratch
                            (GoPath.Join ["/run/buildargs"%string; name]) false false ""
                            ("[internal] copy buildarg " +:+ name),
                 STS.TargetInput (final c), nextArgIndex c)
    /\ STS.SideEffectsState (final r.1.2) = s3
    /\ nextArgIndex r.1.2 = nextArgIndex c + 1
    /\ nextArgIndex c < nextArgIndex r.1.2
    /\ (forall name' expression', exists st,
          (processNonConstantBuildArgFunc name' expression' r.1.1 r.1.2).2
          = Ok (st, STS.TargetInput (final c), nextArgIndex c + 1))
    /\ rest r.1.2 = rest c.
Proof.
  intros Hrange srcPath echo s1.
  unfold processNonConstantBuildArgFunc, internalRun, runOpts.
  cbn [bind modify get ret wrap liftO secretsLoop fst snd].
  match goal with
  | |- context [buildArgsLoop ?v ?n ?o ?e] => destruct (buildArgsLoop v n o e) as [opts envVars] eqn:Hloop
  end.
  exists (opts ++ [llb.AddSecret ("/run/secrets/" +:+ DebuggerSettingsSecretsKey)
                     [llb.SecretID DebuggerSettingsSecretsKey; llb.SecretFileOpt 0 0 292];
                   llb.AddMount debuggerPath llb.Scratch
                     [llb.HostBind; llb.SourcePath "/usr/bin/earth_debugger"];
                   llb.AddMount "/run/earthly" llb.Scratch
                     [llb.HostBind; llb.SourcePath "/run/earthly"]]), envVars.
  cbn -[GoPath.Join GoStrings.Split String.append Z.add wrap_int].
  rewrite (wrap_int_succ _ Hrange).
  repeat split; try reflexivity; try lia.
  intros name' expression'. eexists. reflexivity.
Qed.

(** ** RUN and RUN --push *)










(** ** SAVE ARTIFACT ... AS LOCAL *)

Lemma preserves_of_rest {A X} (p : Converter -> X) (m : M A) :
  (forall c, p c = p (rest c)) -> preserves rest m -> preserves p m.
Proof. intros Hp Hm w c. rewrite Hp, Hm, <- Hp. reflexivity. Qed.

Ltac frame_rest :=
  apply preserves_of_rest;
  [ intros; reflexivity
  | first [ apply Build_rest
          | apply WithParseBuildArgs_rest
          | apply processNonConstantBuildArgFunc_rest
          | apply callEarthfile2LLB_rest ] ].
Ltac frames := repeat first [ frame_step | frame_rest ].

Lemma SaveImage_fold_vectors names push s :
  let s' :=
    fold_left (fun s imageName =>
                 STS.setSaveImages
                   (STS.SaveImages s ++
                      [SaveImage.mk (STS.SideEffectsState s)
                                    (image.Clone (STS.SideEffectsImage s))
                                    imageName push]) s) names s in
  STS.SeparateArtifactsState s' = STS.SeparateArtifactsState s
  /\ STS.SaveLocals s' = STS.SaveLocals s.
Proof.
  revert s. induction names as [ | n names IH]; intros s; simpl; [split; reflexivity | ].
  apply (IH (STS.setSaveImages _ s)).
Qed.

Lemma Finalize_fold_vectors deps s :
  let s' :=
    fold_left (fun s depStates =>
                 STS.setSideEffectsState
                   (withDependency (STS.SideEffectsState s) (STS.Target s)
                                   (STS.SideEffectsState depStates)
                                   (STS.Target depStates)) s) deps s in
  STS.SeparateArtifactsState s' = STS.SeparateArtifactsState s
  /\ STS.SaveLocals s' = STS.SaveLocals s.
Proof.
  revert s. induction deps as [ | d deps IH]; intros s; simpl; [split; reflexivity | ].
  apply (IH (STS.setSideEffectsState _ s)).
Qed.

Lemma internalFromClassical_vectors imageName opts :
  preserves vectors (internalFromClassical imageName opts).
Proof. unfold internalFromClassical. frames. Qed.

Lemma solveAndLoadOld_vectors dep opName dockerTag opts :
  preserves vectors (solveAndLoadOld dep opName dockerTag opts).
Proof. unfold solveAndLoadOld. frames. Qed.

Lemma internalRun_vectors args secrets sh wrapper push ssh str opts :
  preserves vectors (internalRun args secrets sh wrapper push ssh str opts).
Proof.
  unfold internalRun. frames. unfold vectors. rewrite final_setFinal.
  unfold applyRun. destruct push; reflexivity.
Qed.

Lemma SaveArtifact_vectors saveFrom saveTo saveAsLocalTo w c :
  let r := SaveArtifact saveFrom saveTo saveAsLocalTo w c in
  (r.2 <> Ok tt -> vectors r.1.2 = vectors c)
  /\ (r.2 = Ok tt ->
      if String.eqb saveAsLocalTo "" then vectors r.1.2 = vectors c
      else exists src dst name artifactPath,
          vectors r.1.2
          = (STS.SeparateArtifactsState (final c)
               ++ [llb.CopyOp src [saveFrom] llb.scratch dst true false "" name],
             STS.SaveLocals (final c)
               ++ [SaveLocal.mk saveAsLocalTo artifactPath
                     (Z.of_nat (length (STS.SeparateArtifactsState (final c))))])).
Proof.
  assert (Hgrow : forall (l : list llb.State) x, Z.of_nat (length (l ++ [x])) - 1 = Z.of_nat (length l))
    by (intros l x; rewrite length_app; simpl; lia).
  unfold SaveArtifact. cbv beta zeta delta [bind liftW ret modify get].
  destruct (String.eqb saveTo "" || String.eqb saveTo "." || GoStrings.HasSuffix saveTo "/").
  - destruct (llbutil_Abs (STS.SideEffectsState (final c)) saveFrom w) as [w1 [a' | e | msg]];
      [ | split; [reflexivity | discriminate] .. ].
    match goal with
    | |- context [splitWildcards ?a] => destruct (splitWildcards a) as [d f]
    end.
    destruct (String.eqb f ""); destruct (String.eqb saveAsLocalTo ""); cbn;
      (split; [intros Hne; contradiction Hne; reflexivity | intros _]);
      try reflexivity; unfold vectors; cbn; rewrite Hgrow; do 4 eexists; reflexivity.
  - match goal with
    | |- context [splitWildcards ?a] => destruct (splitWildcards a) as [d f]
    end.
    destruct (String.eqb f ""); destruct (String.eqb saveAsLocalTo ""); cbn;
      (split; [intros Hne; contradiction Hne; reflexivity | intros _]);
      try reflexivity; unfold vectors; cbn; rewrite Hgrow; do 4 eexists; reflexivity.
Qed.

Ltac vector_frames :=
  repeat first [ frame_step | frame_rest
               | apply internalFromClassical_vectors
               | apply solveAndLoadOld_vectors
               | apply internalRun_vectors ].

(** Every command but SAVE ARTIFACT ... AS LOCAL leaves the two vectors as
    they are, whatever it yields. *)
Lemma apply_vectors cmd : savesLocal cmd = false -> preserves vectors (apply cmd).
Proof.
  destruct cmd; intros Hs; cbn [apply];
    unfold From, fromTarget, fromClassical, FromDockerfile, solveArtifact, CopyArtifact,
      CopyClassical, Run, SaveImage, Workdir, User, Cmd, Entrypoint, Expose, Volume, Env,
      Arg, Label, GitClone, DockerLoadOld, DockerPullOld, Healthcheck, FinalizeStates;
    vector_frames.
  all: try (unfold vectors; rewrite final_setFinal;
            first [ destruct (SaveImage_fold_vectors
                                (if (length imageNames =? 0)%nat then [""%string] else imageNames)
                                pushImages (final c)) as [-> ->]
                  | destruct (Finalize_fold_vectors (directDeps c) (final c)) as [-> ->] ];
            reflexivity).
  intros w c. pose proof (SaveArtifact_vectors saveFrom saveTo saveAsLocalTo w c) as Hv.
  cbv zeta in Hv. destruct Hv as [Hfail Hok].
  simpl in Hs. apply negb_false_iff in Hs. rewrite Hs in Hok.
  destruct ((SaveArtifact saveFrom saveTo saveAsLocalTo w c).2) as [[] | e | msg] eqn:Hr;
    [apply Hok; reflexivity | apply Hfail; discriminate ..].
Qed.

Lemma indexed_nil : indexed ([], []).
Proof. split; [reflexivity | intros i sl H; destruct i; discriminate]. Qed.

Lemma indexed_snoc states locals st dest path :
  indexed (states, locals) ->
  indexed (states ++ [st], locals ++ [SaveLocal.mk dest path (Z.of_nat (length states))]).
Proof.
  intros [Hlen Hidx]. simpl in *. split; simpl.
  - rewrite !length_app, Hlen. reflexivity.
  - intros i sl Hi. destruct (decide (i < length locals)%nat) as [Hlt | Hge].
    + rewrite lookup_app_l in Hi by exact Hlt. apply Hidx. exact Hi.
    + rewrite lookup_app_r in Hi by lia.
      destruct (i - length locals)%nat as [ | k] eqn:Hk; simpl in Hi; [ | destruct k; discriminate].
      inversion Hi; subst. simpl. f_equal. lia.
Qed.

Lemma apply_indexed cmd w c : indexed (vectors c) -> indexed (vectors (apply cmd w c).1.2).
Proof.
  intros Hinv. destruct (savesLocal cmd) eqn:Hs.
  - destruct cmd; try discriminate. cbn [apply].
    pose proof (SaveArtifact_vectors saveFrom saveTo saveAsLocalTo w c) as Hv.
    cbv zeta in Hv. destruct Hv as [Hfail Hok].
    simpl in Hs. apply negb_true_iff in Hs. rewrite Hs in Hok.
    destruct ((SaveArtifact saveFrom saveTo saveAsLocalTo w c).2) as [[] | e | msg] eqn:Hr;
      [ | rewrite Hfail by discriminate; exact Hinv ..].
    destruct (Hok eq_refl) as (src & dst & name & path & ->).
    apply indexed_snoc. exact Hinv.
  - rewrite (apply_vectors cmd Hs w c). exact Hinv.
Qed.

Lemma reachable_indexed w c : reachable w c -> indexed (vectors c).
Proof.
  induction 1 as [target bc opt w w' c Hnew | cmd w c w' c' o Hreach IH Hstep].
  - unfold NewConverter in Hnew. destruct (rand_Int w) as [w1 salt].
    inversion Hnew; subst. apply indexed_nil.
  - pose proof (apply_indexed cmd w c IH) as Hi. rewrite Hstep in Hi. exact Hi.
Qed.

(** C8: in every converter that a sequence of commands can produce, every
    [SaveLocal] has an index within [SeparateArtifactsState], namely its
    own position.  A SAVE ARTIFACT with a local destination that succeeds
    appends one state copied onto scratch and one [SaveLocal] whose index is
    the position of that state; no other command, and no command that
    fails, changes either vector. *)
Theorem SaveLocal_index_in_range w c :
  reachable w c ->
  (forall sl, In sl (STS.SaveLocals (final c)) ->
     0 <= SaveLocal.Index sl < Z.of_nat (length (STS.SeparateArtifactsState (final c))))
  /\ (forall i sl, STS.SaveLocals (final c) !! i = Some sl ->
        SaveLocal.Index sl = Z.of_nat i
        /\ is_Some (STS.SeparateArtifactsState (final c) !! i))
  /\ (forall cmd w0 c0, savesLocal cmd = false ->
        vectors (apply cmd w0 c0).1.2 = vectors c0)
  /\ (forall saveFrom saveTo saveAsLocalTo w0 c0,
        saveAsLocalTo <> ""%string ->
        let r := apply (CSaveArtifact saveFrom saveTo saveAsLocalTo) w0 c0 in
        (r.2 <> Ok tt -> vectors r.1.2 = vectors c0)
        /\ (r.2 = Ok tt ->
            exists src dst name artifactPath,
              vectors r.1.2
              = (STS.SeparateArtifactsState (final c0)
                   ++ [llb.CopyOp src [saveFrom] llb.scratch dst true false "" name],
                 STS.SaveLocals (final c0)
                   ++ [SaveLocal.mk saveAsLocalTo artifactPath
                         (Z.of_nat (length (STS.SeparateArtifactsState (final c0))))]))).
Proof.
  intros Hreach. destruct (reachable_indexed w c Hreach) as [Hlen Hidx].
  unfold vectors in Hlen, Hidx. simpl in Hlen, Hidx.
  assert (Hpos : forall i sl, STS.SaveLocals (final c) !! i = Some sl ->
            SaveLocal.Index sl = Z.of_nat i
            /\ (i < length (STS.SeparateArtifactsState (final c)))%nat).
  { intros i sl Hi. split; [apply Hidx; exact Hi | ].
    rewrite <- Hlen. apply lookup_lt_Some in Hi. exact Hi. }
  split; [ | split; [ | split]].
  - intros sl Hin. apply list_elem_of_In, list_elem_of_lookup in Hin as [i Hi].
    destruct (Hpos i sl Hi) as [-> Hlt]. lia.
  - intros i sl Hi. destruct (Hpos i sl Hi) as [Hx Hlt].
    split; [exact Hx | apply lookup_lt_is_Some; exact Hlt].
  - intros cmd w0 c0 Hs. apply apply_vectors. exact Hs.
  - intros saveFrom saveTo saveAsLocalTo w0 c0 Hne r. subst r. cbn [apply].
    pose proof (SaveArtifact_vectors saveFrom saveTo saveAsLocalTo w0 c0) as Hv.
    cbv zeta in Hv. destruct Hv as [Hfail Hok].
    apply String.eqb_neq in Hne. rewrite Hne in Hok. split; assumption.
Qed.

(** ** RUN --entrypoint *)

(** C2: what the code does for a RUN with [withEntrypoint] and no
    arguments (the source comment there reads: use the image's CMD): the argv handed to the shell wrapper is the image's
    entrypoint alone, in exec form ([withShell] false); the image's cmd is
    not used. *)
Theorem Run_entrypoint_without_args mounts secrets privileged withDocker isWithShell
        pushFlag withSSH w c w' c' :
  Run [] mounts secrets privileged true withDocker isWithShell pushFlag withSSH w c
  = (w', c', Ok tt) ->
  exists opts envVars,
    final c'
    = applyRun pushFlag
        (commandStr c (CRun [] mounts secrets privileged true withDocker isWithShell
                            pushFlag withSSH))
        (opts ++ [llb.Args ((if withDocker then withDockerdWrapOld else withShellAndEnvVars)
                              (image.Entrypoint (image.Config (STS.SideEffectsImage (final c))))
                              envVars false true)])
        (final c).
Proof.
  unfold Run, internalRun, commandStr. cbn [bind get wrap liftO fst snd].
  destruct (parseMounts _ _ _ _) as [mo | e | msg];
    cbn [bind get wrap liftO fst snd]; try discriminate.
  rewrite app_nil_r.
  destruct (secretsLoop _ _ _) as [after | e | msg]; try discriminate.
  cbn [modify]. intros Hok. inversion Hok; subst. rewrite final_setFinal.
  unfold runOpts.
  match goal with
  | |- context [buildArgsLoop ?v ?n ?o ?e] => destruct (buildArgsLoop v n o e) as [opts envVars]
  end.
  eexists. exists envVars. reflexivity.
Qed.

(** ** COPY +target/artifact *)

Lemma CopyArtifact_LocalDirs artifactName dest buildArgs isDir chown :
  preserves (fun c => STS.LocalDirs (final c))
            (CopyArtifact artifactName dest buildArgs isDir chown).
Proof. unfold CopyArtifact. frames. Qed.

(** ** FROM +target *)








(** ** BUILD and the variables of the callee *)



Lemma BuildArgInput_Name_of v name default :
  BuildArgInput_Name (variables.BuildArgInput v name default) = name.
Proof. destruct v; reflexivity. Qed.

Lemma seed_TargetInput vars keys ti :
  fold_left (fun ti key =>
               let '(ovVar, _, _) := variables.Get vars key in
               WithBuildArgInput ti (variables.BuildArgInput ovVar key ""))
            keys ti
  = mkTargetInput (TargetCanonical ti)
      (BuildArgs ti ++ map (fun key => variables.BuildArgInput (variables.Get vars key).1.1 key "")
                           keys).
Proof.
  revert ti. induction keys as [ | key keys IH]; intros ti; simpl.
  - rewrite app_nil_r. destruct ti; reflexivity.
  - rewrite IH. destruct (variables.Get vars key) as [[v a] f]. simpl.
    rewrite <- app_assoc. reflexivity.
Qed.

(** The dedup input a new converter starts with: the canonical target, then
    one argument input for each overriding variable, in sorted order. *)
Lemma NewConverter_TargetInput target bc opt w w' callee :
  NewConverter target bc opt w = (w', Ok callee) ->
  TargetCanonical (STS.TargetInput (final callee)) = Target_StringCanonical target
  /\ map BuildArgInput_Name (BuildArgs (STS.TargetInput (final callee)))
     = variables.SortedOverridingVariables (opt_VarCollection opt).
Proof.
  unfold NewConverter. destruct (rand_Int w) as [w2 salt]. intros Hn.
  inversion Hn; subst. cbn. rewrite seed_TargetInput. cbn.
  split; [reflexivity | ]. rewrite map_map.
  erewrite map_ext; [apply map_id | ]. intros key. apply BuildArgInput_Name_of.
Qed.













(** ** Which command changes which part of the converter *)

Lemma fold_left_keeps {S X Y : Type} (q : S -> Y) (f : S -> X -> S) l s :
  (forall s x, q (f s x) = q s) -> q (fold_left f l s) = q s.
Proof.
  intros Hf. revert s. induction l as [ | x l IH]; intros s; simpl; [reflexivity | ].
  rewrite IH. apply Hf.
Qed.

Lemma preserves_applyAll {X} (p : Converter -> X) cmds :
  (forall cmd, In cmd cmds -> preserves p (apply cmd)) -> preserves p (applyAll cmds).
Proof.
  induction cmds as [ | cmd cmds IH]; intros Hall; simpl.
  - apply preserves_ret.
  - apply preserves_bind; [apply Hall; left; reflexivity | ].
    intros _. apply IH. intros cmd' Hin. apply Hall. right. exact Hin.
Qed.

Ltac unfold_commands :=
  unfold From, FromDockerfile, CopyArtifact, CopyClassical, Run, SaveArtifact, SaveImage,
    Workdir, User, Cmd, Entrypoint, Expose, Volume, Env, Arg, Label, GitClone,
    DockerLoadOld, DockerPullOld, Healthcheck, FinalizeStates;
  unfold fromTarget, fromClassical, solveArtifact, solveAndLoadOld, internalRun;
  unfold internalFromClassical.

(** What is left after [frames]: a field of the STS after the last step of
    a run, or after a fold over names or dependencies. *)
Ltac frame_leftover :=
  intros; cbv beta;
  first
    [ reflexivity
    | rewrite !final_setFinal; unfold applyRun;
      match goal with |- context [if ?b then _ else _] => destruct b end; reflexivity
    | rewrite !final_setFinal;
      match goal with
      | |- ?q (fold_left ?f ?l ?s) = _ =>
          apply (fold_left_keeps q f l s); intros; reflexivity
      end ].

Ltac command_frames := unfold_commands; frames; try frame_leftover.

(** [Ongoing] is cleared by [FinalizeStates] and by nothing else. *)
Lemma apply_Ongoing cmd :
  finalizes cmd = false -> preserves (fun c => STS.Ongoing (final c)) (apply cmd).
Proof. destruct cmd; intros Hf; try discriminate; cbn [apply]; command_frames. Qed.

Lemma apply_labelled cmd : preserves (fun c => labelled (final c)) (apply cmd).
Proof. destruct cmd; cbn [apply]; command_frames. Qed.

(** [RunPush] is written by a push-flagged RUN and by nothing else. *)
Lemma apply_RunPush cmd :
  isPush cmd = false -> preserves (fun c => STS.RunPush (final c)) (apply cmd).
Proof.
  destruct cmd; intros Hp; cbn [apply]; try (command_frames; fail).
  simpl in Hp. subst pushFlag. unfold Run, internalRun. frames.
Qed.

(** [TargetInput] is written by ARG and by nothing else. *)
Lemma apply_TargetInput cmd :
  isArg cmd = false -> preserves (fun c => STS.TargetInput (final c)) (apply cmd).
Proof. destruct cmd; intros Ha; try discriminate; cbn [apply]; command_frames. Qed.

(** [ArtifactsState] is written by SAVE ARTIFACT and by nothing else. *)
Lemma apply_ArtifactsState cmd :
  isSaveArtifact cmd = false -> preserves (fun c => STS.ArtifactsState (final c)) (apply cmd).
Proof. destruct cmd; intros Ha; try discriminate; cbn [apply]; command_frames. Qed.

(** [SaveImages] is written by SAVE IMAGE and by nothing else. *)
Lemma apply_SaveImages cmd :
  isSaveImage cmd = false -> preserves (fun c => STS.SaveImages (final c)) (apply cmd).
Proof. destruct cmd; intros Ha; try discriminate; cbn [apply]; command_frames. Qed.

Lemma forallb_In {X} (f : X -> bool) l x : forallb f l = true -> In x l -> f x = true.
Proof. intros Hall Hin. rewrite forallb_forall in Hall. apply Hall. exact Hin. Qed.

(** X1: a new converter is ongoing, and stays so through any commands
    other than [FinalizeStates], whether they succeed or fail; finalizing
    after the commands clears the flag exactly when the commands
    succeeded. *)
Theorem Ongoing_until_finalize target bc opt w cmds :
  forallb (fun cmd => negb (finalizes cmd)) cmds = true ->
  exists w1 c,
    NewConverter target bc opt w = (w1, Ok c)
    /\ STS.Ongoing (final c) = true
    /\ STS.Ongoing (final (applyAll cmds w1 c).1.2) = true
    /\ STS.Ongoing (final (bind (applyAll cmds) (fun _ => FinalizeStates) w1 c).1.2)
       = match (applyAll cmds w1 c).2 with Ok _ => false | _ => true end.
Proof.
  intros Hcmds. unfold NewConverter. destruct (rand_Int w) as [w1 salt].
  eexists. eexists. split; [reflexivity | ].
  match goal with |- context [applyAll cmds w1 ?c0] => set (c := c0) end.
  split; [reflexivity | ].
  assert (Hon : STS.Ongoing (final (applyAll cmds w1 c).1.2) = true).
  { rewrite (preserves_applyAll (fun c => STS.Ongoing (final c)) cmds); [reflexivity | ].
    intros cmd Hin. apply apply_Ongoing.
    apply negb_true_iff. exact (forallb_In _ _ _ Hcmds Hin). }
  split; [exact Hon | ].
  unfold bind. destruct (applyAll cmds w1 c) as [[w2 c2] [[] | e | msg]]; simpl in *;
    try exact Hon.
  reflexivity.
Qed.

(** X2: no command changes the target or the salt of the STS, so the
    prefix of the vertex labels is the same throughout a conversion. *)
Theorem vertexPrefix_stable cmds w c :
  STS.Target (final (applyAll cmds w c).1.2) = STS.Target (final c)
  /\ STS.Salt (final (applyAll cmds w c).1.2) = STS.Salt (final c)
  /\ vertexPrefix (applyAll cmds w c).1.2 = vertexPrefix c.
Proof.
  assert (Hl : labelled (final (applyAll cmds w c).1.2) = labelled (final c)).
  { apply (preserves_applyAll (fun c => labelled (final c)) cmds).
    intros cmd _. apply apply_labelled. }
  unfold labelled in Hl. inversion Hl as [[Ht Hs]].
  unfold vertexPrefix. rewrite Ht, Hs. repeat split; reflexivity.
Qed.

(** X3: only a push-flagged RUN writes [RunPush]: through any other
    commands, a FROM included, the push state, its flag and its command
    strings stay as they are. *)
Theorem RunPush_only_by_push cmds w c :
  forallb (fun cmd => negb (isPush cmd)) cmds = true ->
  STS.RunPush (final (applyAll cmds w c).1.2) = STS.RunPush (final c).
Proof.
  intros Hcmds. apply (preserves_applyAll (fun c => STS.RunPush (final c)) cmds).
  intros cmd Hin. apply apply_RunPush.
  apply negb_true_iff. exact (forallb_In _ _ _ Hcmds Hin).
Qed.

(** X4: only SAVE ARTIFACT writes [ArtifactsState].  It never changes the
    side-effects state, the image or the variables; when it succeeds the
    artifacts state is a copy from the side-effects state on top of the
    artifacts state from before, and when it fails nothing has changed. *)
Theorem ArtifactsState_only_by_SaveArtifact cmd w c :
  (isSaveArtifact cmd = false ->
   STS.ArtifactsState (final (apply cmd w c).1.2) = STS.ArtifactsState (final c))
  /\ (forall saveFrom saveTo saveAsLocalTo,
        cmd = CSaveArtifact saveFrom saveTo saveAsLocalTo ->
        STS.SideEffectsState (final (apply cmd w c).1.2) = STS.SideEffectsState (final c)
        /\ STS.SideEffectsImage (final (apply cmd w c).1.2) = STS.SideEffectsImage (final c)
        /\ varCollection (apply cmd w c).1.2 = varCollection c
        /\ match (apply cmd w c).2 with
           | Ok _ =>
               exists dst name,
                 STS.ArtifactsState (final (apply cmd w c).1.2)
                 = llb.CopyOp (STS.SideEffectsState (final c)) [saveFrom]
                              (STS.ArtifactsState (final c)) dst true true "" name
           | _ => (apply cmd w c).1.2 = c
           end).
Proof.
  split; [intros Hs; apply (apply_ArtifactsState cmd Hs) | ].
  intros saveFrom saveTo saveAsLocalTo ->. cbn [apply].
  unfold SaveArtifact. cbv beta zeta delta [bind liftW ret modify get].
  destruct (String.eqb saveTo "" || String.eqb saveTo "." || GoStrings.HasSuffix saveTo "/").
  - destruct (llbutil_Abs (STS.SideEffectsState (final c)) saveFrom w) as [w1 [a' | e | msg]];
      [ | repeat split; reflexivity .. ].
    match goal with
    | |- context [splitWildcards ?a] => destruct (splitWildcards a) as [d f]
    end.
    destruct (String.eqb f ""); destruct (String.eqb saveAsLocalTo ""); cbn;
      repeat split; try reflexivity; do 2 eexists; reflexivity.
  - match goal with
    | |- context [splitWildcards ?a] => destruct (splitWildcards a) as [d f]
    end.
    destruct (String.eqb f ""); destruct (String.eqb saveAsLocalTo ""); cbn;
      repeat split; try reflexivity; do 2 eexists; reflexivity.
Qed.

(** X5: only ARG writes [TargetInput]: RUN, COPY, FROM and the other
    commands leave the dedup input alone.  ARG always succeeds, appends one
    argument input named by its key, and changes neither state. *)
Theorem TargetInput_only_by_Arg cmds argKey defaultArgValue w c :
  (forallb (fun cmd => negb (isArg cmd)) cmds = true ->
   STS.TargetInput (final (applyAll cmds w c).1.2) = STS.TargetInput (final c))
  /\ (Arg argKey defaultArgValue w c).2 = Ok tt
  /\ (exists input,
        BuildArgInput_Name input = argKey
        /\ STS.TargetInput (final (Arg argKey defaultArgValue w c).1.2)
           = mkTargetInput (TargetCanonical (STS.TargetInput (final c)))
                           (BuildArgs (STS.TargetInput (final c)) ++ [input]))
  /\ STS.SideEffectsState (final (Arg argKey defaultArgValue w c).1.2)
     = STS.SideEffectsState (final c)
  /\ STS.ArtifactsState (final (Arg argKey defaultArgValue w c).1.2)
     = STS.ArtifactsState (final c).
Proof.
  split.
  { intros Hcmds. apply (preserves_applyAll (fun c => STS.TargetInput (final c)) cmds).
    intros cmd Hin. apply apply_TargetInput.
    apply negb_true_iff. exact (forallb_In _ _ _ Hcmds Hin). }
  unfold Arg. cbn [bind get].
  destruct (variables.AddActive (varCollection c) argKey
              (variables.Constant defaultArgValue) false) as [vars effective].
  cbn. repeat split.
  exists (variables.BuildArgInput effective argKey defaultArgValue).
  split; [apply BuildArgInput_Name_of | reflexivity].
Qed.

(** ** SAVE IMAGE *)

Lemma SaveImage_fold names push : forall s,
  let s' :=
    fold_left (fun s imageName =>
                 STS.setSaveImages
                   (STS.SaveImages s ++
                      [SaveImage.mk (STS.SideEffectsState s)
                                    (image.Clone (STS.SideEffectsImage s))
                                    imageName push]) s) names s in
  s' = STS.setSaveImages
         (STS.SaveImages s ++
            map (fun imageName =>
                   SaveImage.mk (STS.SideEffectsState s)
                                (image.Clone (STS.SideEffectsImage s)) imageName push) names) s.
Proof.
  induction names as [ | n names IH]; intros s; simpl.
  - rewrite app_nil_r. destruct s; reflexivity.
  - rewrite IH. cbn. rewrite <- app_assoc. reflexivity.
Qed.

(** X6: SAVE IMAGE always succeeds and appends one entry for each name,
    in order, or one entry with the empty name when no name is given; each
    entry holds the side-effects state and the image config of that moment
    and the push flag.  The entries recorded before stay, and the last
    saved image is the one of the last name.  No other command writes
    [SaveImages]. *)
Theorem SaveImage_appends imageNames pushImages w c :
  let names := if (length imageNames =? 0)%nat then [""%string] else imageNames in
  let entry imageName :=
    SaveImage.mk (STS.SideEffectsState (final c))
                 (image.Clone (STS.SideEffectsImage (final c))) imageName pushImages in
  let c' := (SaveImage imageNames pushImages w c).1.2 in
  SaveImage imageNames pushImages w c = (w, c', Ok tt)
  /\ STS.SaveImages (final c') = STS.SaveImages (final c) ++ map entry names
  /\ STS.LastSaveImage (final c') = Some (entry (List.last imageNames ""%string))
  /\ STS.SideEffectsState (final c') = STS.SideEffectsState (final c)
  /\ STS.SideEffectsImage (final c') = STS.SideEffectsImage (final c)
  /\ (forall cmd w0 c0, isSaveImage cmd = false ->
        STS.SaveImages (final (apply cmd w0 c0).1.2) = STS.SaveImages (final c0)).
Proof.
  intros names entry c'. subst c'. unfold SaveImage. cbn [modify fst snd].
  fold names. rewrite final_setFinal.
  pose proof (SaveImage_fold names pushImages (final c)) as Hfold. cbv zeta in Hfold.
  rewrite Hfold. cbn. fold entry.
  split; [reflexivity | ]. split; [reflexivity | ]. split.
  { unfold STS.LastSaveImage. cbn.
    assert (Hlast : exists init, names = init ++ [List.last imageNames ""%string]).
    { unfold names. destruct imageNames as [ | n rest]; [exists []; reflexivity | ].
      cbn [length Nat.eqb].
      destruct (exists_last (l := n :: rest)) as (init & x & Heq); [discriminate | ].
      exists init. rewrite Heq at 1. rewrite Heq. rewrite last_last. reflexivity. }
    destruct Hlast as [init ->].
    rewrite map_app. cbn [map]. rewrite app_assoc. apply last_snoc. }
  split; [reflexivity | ]. split; [reflexivity | ].
  intros cmd w0 c0 Hs. apply (apply_SaveImages cmd Hs).
Qed.

(** ** BUILD *)

Lemma processNonConstantBuildArgFunc_directDeps name expression :
  preserves directDeps (processNonConstantBuildArgFunc name expression).
Proof. unfold processNonConstantBuildArgFunc, internalRun. simpl. frame. Qed.

Lemma WithParseBuildArgs_directDeps col args acc :
  preserves directDeps (WithParseBuildArgs col args processNonConstantBuildArgFunc acc).
Proof.
  revert acc. induction args as [ | arg args IH]; intros acc; simpl.
  - frame.
  - destruct (GoStrings.cut "=" arg) as [[k v] | ].
    + destruct (GoStrings.HasPrefix v "$("); [ | apply IH].
      frame; [apply processNonConstantBuildArgFunc_directDeps | apply IH].
    + destruct (variables.Get col arg) as [[v [ | ]] [ | ]]; try apply IH.
      * frame; [apply processNonConstantBuildArgFunc_directDeps | apply IH].
      * frame.
Qed.

Lemma Build_directDeps_eq fullTargetName buildArgs w c w' c' o :
  Build fullTargetName buildArgs w c = (w', c', o) ->
  match o with
  | Ok dep => directDeps c' = directDeps c ++ [MTS.FinalStates dep]
  | _ => directDeps c' = directDeps c
  end.
Proof.
  unfold Build. cbn [bind get wrap liftO fst snd].
  destruct (ParseTarget fullTargetName) as [rel | e | msg];
    cbn [bind get wrap liftO fst snd]; try (intros H; inversion H; reflexivity).
  destruct (JoinTargets _ rel) as [target | e | msg];
    cbn [bind get wrap liftO fst snd]; try (intros H; inversion H; reflexivity).
  pose proof (WithParseBuildArgs_directDeps
                (if Target_IsExternal rel then variables.NewCollection else varCollection c)
                buildArgs
                (if Target_IsExternal rel then variables.NewCollection else varCollection c)
                w c) as Hp.
  unfold bind, wrap.
  destruct (WithParseBuildArgs _ buildArgs _ _ w c) as [[w1 c1] [vars | e | msg]];
    simpl in Hp; try (intros H; inversion H; subst; exact Hp).
  cbn [bind get]. unfold callEarthfile2LLB.
  match goal with
  | |- context [Earthfile2LLB ?t ?o w1] =>
      destruct (Earthfile2LLB t o w1) as [[w2 visited] [sts | e | msg]]
  end; intros H; inversion H; subst; cbn; rewrite Hp; reflexivity.
Qed.

(** X7: BUILD records the STS it returns as the last direct dependency,
    and records nothing when it fails, at whichever step. *)
Theorem Build_directDeps fullTargetName buildArgs w c :
  match (Build fullTargetName buildArgs w c).2 with
  | Ok dep =>
      directDeps (Build fullTargetName buildArgs w c).1.2
      = directDeps c ++ [MTS.FinalStates dep]
  | _ => directDeps (Build fullTargetName buildArgs w c).1.2 = directDeps c
  end.
Proof.
  destruct (Build fullTargetName buildArgs w c) as [[w' c'] o] eqn:Hb.
  exact (Build_directDeps_eq _ _ _ _ _ _ _ Hb).
Qed.

(** ** What no command writes, and what few commands write *)

Lemma apply_configuration cmd : preserves configuration (apply cmd).
Proof. destruct cmd; cbn [apply]; command_frames. Qed.

Lemma apply_varCollection cmd :
  changesVars cmd = false -> preserves varCollection (apply cmd).
Proof. destruct cmd; intros Hv; try discriminate; cbn [apply]; command_frames. Qed.

(** X8: no command makes the converter refer to something else than it
    was set up with: after any commands its fields for the git metadata,
    the resolver, the build context, the cache context, the two builder
    functions, the cleanup collection, the solve cache, the image resolve
    mode and the dependency indices hold what they held before.  This is
    about the fields, not about the objects behind them: the cleanup
    collection is added to by the load of a docker tar and by the solve of
    an artifact, which is an effect on the world. *)
Theorem configuration_immutable cmds w c :
  configuration (applyAll cmds w c).1.2 = configuration c.
Proof.
  apply (preserves_applyAll configuration cmds). intros cmd _. apply apply_configuration.
Qed.

(** X9: only FROM, FROM DOCKERFILE, ENV and ARG write the variable
    collection: a BUILD, a COPY of an artifact or a RUN, with whatever
    build args, leaves the caller's variables as they are. *)
Theorem varCollection_only_by_from_env_arg cmds w c :
  forallb (fun cmd => negb (changesVars cmd)) cmds = true ->
  varCollection (applyAll cmds w c).1.2 = varCollection c.
Proof.
  intros Hcmds. apply (preserves_applyAll varCollection cmds).
  intros cmd Hin. apply apply_varCollection.
  apply negb_true_iff. exact (forallb_In _ _ _ Hcmds Hin).
Qed.

(** ** RUN with secrets *)

Lemma secretsLoop_find secretKeyValues : forall finalOpts extraEnvVars,
  secretsLoop secretKeyValues finalOpts extraEnvVars
  = match find (fun s => negb (validSecret s)) secretKeyValues with
    | Some s => Err (secretError s)
    | None => Ok (finalOpts ++ map secretMount secretKeyValues,
                  extraEnvVars ++ map secretEnvVar secretKeyValues)
    end.
Proof.
  induction secretKeyValues as [ | s rest IH]; intros finalOpts extraEnvVars; simpl.
  - rewrite !app_nil_r. reflexivity.
  - unfold validSecret at 1. unfold secretMount at 1. unfold secretEnvVar at 1.
    unfold secretPath at 1 2.
    destruct (GoStrings.SplitN2 s "=") as [ | envVar [ | val [ | x l]]] eqn:Hs; simpl;
      try (unfold secretError; rewrite Hs; reflexivity).
    destruct (GoStrings.HasPrefix val "+secrets/"); simpl;
      [ | unfold secretError; rewrite Hs; reflexivity].
    rewrite IH.
    destruct (find (fun s => negb (validSecret s)) rest); [reflexivity | ].
    rewrite <- !app_assoc. reflexivity.
Qed.

Lemma buildArgsLoop_extends vars names : forall finalOpts extraEnvVars,
  exists tail, (buildArgsLoop vars names finalOpts extraEnvVars).1 = finalOpts ++ tail.
Proof.
  unfold buildArgsLoop.
  induction names as [ | n names IH]; intros finalOpts extraEnvVars; simpl.
  - exists []. rewrite app_nil_r. reflexivity.
  - destruct (variables.Get vars n) as [[ba active] found].
    destruct (variables.IsEnvVar ba); [apply IH | ].
    destruct (variables.IsConstant ba); [apply IH | ].
    match goal with
    | |- context [fold_left _ names (finalOpts ++ ?x, ?e)] =>
        destruct (IH (finalOpts ++ x) e) as [tail Htail]; exists (x ++ tail)
    end.
    rewrite Htail, <- app_assoc. reflexivity.
Qed.

(** X10: RUN fails before it changes anything when the mounts do not
    parse or when a secret is not of the form [ENV=+secrets/ID]; the error
    is the one of the first such secret.  Otherwise it succeeds without
    touching the world, and the run options start with the mount options,
    the security option of a privileged run, the vertex name and one
    secret mount for each secret, in order. *)
Theorem Run_secrets args mounts secretKeyValues privileged withEntrypoint withDocker
        isWithShell pushFlag withSSH w c :
  let cmd := CRun args mounts secretKeyValues privileged withEntrypoint withDocker
                  isWithShell pushFlag withSSH in
  match parseMounts mounts (STS.Target (final c)) (STS.TargetInput (final c))
                    (cacheContext c) with
  | Ok mountOpts =>
      match find (fun s => negb (validSecret s)) secretKeyValues with
      | Some s => apply cmd w c = (w, c, Err (secretError s))
      | None =>
          exists tail,
            apply cmd w c
            = (w,
               setFinal
                 (applyRun pushFlag (commandStr c cmd)
                    ((mountOpts ++ (if privileged then [llb.Security true] else [])
                        ++ [llb.RunCustomName (vertexPrefix c +:+ commandStr c cmd)])
                       ++ map secretMount secretKeyValues ++ tail)) c,
               Ok tt)
      end
  | Err e => apply cmd w c = (w, c, Err (Wrap e "parse mounts"))
  | Panic msg => apply cmd w c = (w, c, Panic msg)
  end.
Proof.
  intros cmd. subst cmd. cbn [apply commandStr]. unfold Run, internalRun.
  cbn [bind get wrap liftO fst snd].
  destruct (parseMounts mounts (STS.Target (final c)) (STS.TargetInput (final c))
                        (cacheContext c)) as [mountOpts | e | msg];
    cbn [bind get wrap liftO fst snd]; try reflexivity.
  rewrite secretsLoop_find.
  destruct (find (fun s => negb (validSecret s)) secretKeyValues) as [s | ];
    cbn [bind get wrap liftO modify fst snd]; [reflexivity | ].
  unfold runOpts. cbn [fst snd].
  match goal with
  | |- context [buildArgsLoop ?v ?n ?o ?e] =>
      destruct (buildArgsLoop_extends v n o e) as [tail Htail];
      destruct (buildArgsLoop v n o e) as [finalOpts extraEnvVars]
  end.
  cbn [fst] in Htail. subst finalOpts.
  destruct privileged; destruct withSSH; eexists (tail ++ _);
    repeat rewrite <- app_assoc; cbn [app]; reflexivity.
Qed.

(** ** The classical FROM *)

Ltac run_monad :=
  cbv beta iota zeta delta [bind get wrap liftO liftW ret modify fail panic fst snd].

Lemma fromClassical_eq imageName w c w' c' o :
  fromClassical imageName w c = (w', c', o) ->
  match o with
  | Ok _ => exists state img vars, c' = withBase state img vars c
  | _ => c' = c
  end.
Proof.
  unfold fromClassical, internalFromClassical.
  destruct (String.eqb imageName "scratch"); run_monad.
  { intros H. inversion H; subst. do 3 eexists. reflexivity. }
  destruct (reference_ParseNormalizedNamed imageName) as [ref | e | msg];
    run_monad; try (intros H; inversion H; subst; reflexivity).
  match goal with
  | |- context [ResolveImageConfig ?a ?b ?d w] =>
      destruct (ResolveImageConfig a b d w) as [w1 [[dgst dt] | e | msg]]
  end; run_monad; try (intros H; inversion H; subst; reflexivity).
  destruct (json_Unmarshal_Image dt) as [img | e | msg];
    run_monad; try (intros H; inversion H; subst; reflexivity).
  destruct (negb (String.eqb dgst "")); run_monad.
  - destruct (reference_WithDigest ref dgst) as [ref' | e | msg];
      run_monad; try (intros H; inversion H; subst; reflexivity).
    match goal with
    | |- context [applyFromImage ?a ?b ?d] =>
        destruct (applyFromImage a b d) as [[state img'] vars]
    end.
    intros H. inversion H; subst. do 3 eexists. reflexivity.
  - match goal with
    | |- context [applyFromImage ?a ?b ?d] =>
        destruct (applyFromImage a b d) as [[state img'] vars]
    end.
    intros H. inversion H; subst. do 3 eexists. reflexivity.
Qed.

(** X11: a FROM of an image is all or nothing: when it fails, at
    whichever step, the converter is as before; when it succeeds it has
    replaced the side-effects state, the image and the variables, and
    nothing else, so the artifacts, the saved images and the local
    directories recorded so far survive it.  FROM scratch needs no image
    metadata: it always succeeds and does not touch the world. *)
Theorem fromClassical_atomic imageName w c :
  match (fromClassical imageName w c).2 with
  | Ok _ =>
      exists state img vars, (fromClassical imageName w c).1.2 = withBase state img vars c
  | _ => (fromClassical imageName w c).1.2 = c
  end
  /\ fromClassical "scratch" w c
     = (w, withBase llb.scratch image.NewImage
                    (variables.WithResetEnvVars (varCollection c)) c, Ok tt).
Proof.
  split; [ | reflexivity].
  destruct (fromClassical imageName w c) as [[w' c'] o] eqn:Hf.
  exact (fromClassical_eq _ _ _ _ _ _ Hf).
Qed.

(** ** WORKDIR *)

Lemma prefix_slash s : String.prefix "/" (String "/" s) = true.
Proof.
  cbn [String.prefix]. destruct (ascii_dec "/" "/") as [_ | Hne]; [ | congruence].
  destruct s; reflexivity.
Qed.

Lemma append_String a s t : (String a s +:+ t)%string = String a (s +:+ t).
Proof. reflexivity. Qed.

(** A path joined under the root is rooted. *)
Lemma Join_root_IsAbs a b : GoPath.IsAbs (GoPath.Join ["/"%string; a; b]) = true.
Proof.
  unfold GoPath.Join, GoPath.IsAbs. cbn [fold_left].
  rewrite !append_String. cbn [String.eqb negb].
  rewrite !append_String. cbn [String.eqb negb].
  unfold GoPath.Clean. cbn [String.eqb].
  rewrite prefix_slash, append_String. apply prefix_slash.
Qed.

(** X12: WORKDIR always succeeds and leaves an absolute working
    directory in the image: an absolute path is taken as it is written, a
    relative one is joined to the current working directory under the
    root.  The directory is created, with its parents, unless it is the
    root itself, and it is owned by the image's user when there is one. *)
Theorem Workdir_absolute workdirPath w c :
  let cfg := image.Config (STS.SideEffectsImage (final c)) in
  let c' := (Workdir workdirPath w c).1.2 in
  let cfg' := image.Config (STS.SideEffectsImage (final c')) in
  Workdir workdirPath w c = (w, c', Ok tt)
  /\ GoPath.IsAbs (image.WorkingDir cfg') = true
  /\ image.WorkingDir cfg'
     = (if GoPath.IsAbs workdirPath then workdirPath
        else GoPath.Join ["/"%string; image.WorkingDir cfg; workdirPath])
  /\ STS.SideEffectsState (final c')
     = (let dir := llb.Dir (STS.SideEffectsState (final c)) workdirPath in
        if String.eqb (image.WorkingDir cfg') "/" then dir
        else llb.File dir
               (llb.Mkdir (image.WorkingDir cfg') 493
                  (llb.WithParents true
                   :: if String.eqb (image.User cfg) "" then []
                      else [llb.WithUser (image.User cfg)]))
               (vertexPrefix c +:+ "WORKDIR " +:+ workdirPath)).
Proof.
  intros cfg c' cfg'. subst cfg c' cfg'. unfold Workdir.
  cbn [bind get modify fst snd]. rewrite !final_setFinal.
  cbn [STS.SideEffectsImage STS.setSideEffectsState].
  assert (Hj : GoPath.IsAbs
                 (if negb (GoPath.IsAbs workdirPath)
                  then GoPath.Join
                         ["/"%string;
                          image.WorkingDir (image.Config (STS.SideEffectsImage (final c)));
                          workdirPath]
                  else workdirPath) = true).
  { destruct (GoPath.IsAbs workdirPath) eqn:Habs; [exact Habs | apply Join_root_IsAbs]. }
  assert (Hw : (if negb (GoPath.IsAbs workdirPath)
                then GoPath.Join
                       ["/"%string;
                        image.WorkingDir (image.Config (STS.SideEffectsImage (final c)));
                        workdirPath]
                else workdirPath)
               = (if GoPath.IsAbs workdirPath then workdirPath
                  else GoPath.Join
                         ["/"%string;
                          image.WorkingDir (image.Config (STS.SideEffectsImage (final c)));
                          workdirPath]))
    by (destruct (GoPath.IsAbs workdirPath); reflexivity).
  rewrite <- Hw.
  match type of Hj with GoPath.IsAbs ?x = true => generalize dependent x end.
  intros workdirAbs Habs.
  destruct (String.eqb workdirAbs "/") eqn:Hroot; cbn [negb].
  - cbn. rewrite Hroot. repeat split; try reflexivity. exact Habs.
  - destruct (String.eqb (image.User (image.Config (STS.SideEffectsImage (final c)))) "")
      eqn:Hu; cbn; rewrite ?Hroot, ?Hu; repeat split; try reflexivity; exact Habs.
Qed.

(** X24: USER then WORKDIR: the directory that WORKDIR creates belongs
    to the user set just before, and the image records both. *)
Theorem User_then_Workdir user workdirPath w c :
  user <> ""%string ->
  GoPath.IsAbs workdirPath = true ->
  workdirPath <> "/"%string ->
  let r := bind (User user) (fun _ => Workdir workdirPath) w c in
  let cfg' := image.Config (STS.SideEffectsImage (final r.1.2)) in
  r.2 = Ok tt
  /\ image.User cfg' = user
  /\ image.WorkingDir cfg' = workdirPath
  /\ STS.SideEffectsState (final r.1.2)
     = llb.File (llb.Dir (llb.User (STS.SideEffectsState (final c)) user) workdirPath)
                (llb.Mkdir workdirPath 493 [llb.WithParents true; llb.WithUser user])
                (vertexPrefix c +:+ "WORKDIR " +:+ workdirPath).
Proof.
  intros Huser Habs Hroot r cfg'. subst r cfg'.
  apply String.eqb_neq in Huser. apply String.eqb_neq in Hroot.
  unfold User, Workdir. cbn [bind get modify fst snd]. rewrite !final_setFinal.
  cbn [STS.SideEffectsImage STS.setSideEffectsState STS.setSideEffectsImage
       image.Config image.setConfig image.User image.withUser].
  rewrite Habs. cbn [negb]. rewrite Hroot. cbn. rewrite Huser.
  repeat split; reflexivity.
Qed.

(** ** A new converter *)

(** X13: [NewConverter] never fails.  It draws the salt from the random
    source, registers the new STS as the last entry of its target in the
    visited states and leaves the entries of the other targets alone.  The
    STS starts from scratch with the local directories of the build
    context, nothing saved and no dependency, and its dedup input is the
    canonical target followed by one argument input for each overriding
    variable, in sorted order. *)
Theorem NewConverter_registers target bc opt w :
  exists c,
    NewConverter target bc opt w = ((rand_Int w).1, Ok c)
    /\ STS.Salt (final c) = pretty (rand_Int w).2
    /\ MTS.VisitedStates (mts c) !! Target_String target
       = Some (default [] (opt_VisitedStates opt !! Target_String target) ++ [final c])
    /\ (forall k, k <> Target_String target ->
          MTS.VisitedStates (mts c) !! k = opt_VisitedStates opt !! k)
    /\ TargetCanonical (STS.TargetInput (final c)) = Target_StringCanonical target
    /\ map BuildArgInput_Name (BuildArgs (STS.TargetInput (final c)))
       = variables.SortedOverridingVariables (opt_VarCollection opt)
    /\ STS.SideEffectsState (final c) = llb.scratch
    /\ STS.ArtifactsState (final c) = llb.scratch
    /\ STS.LocalDirs (final c) = Data_LocalDirs bc
    /\ STS.SaveImages (final c) = []
    /\ STS.SaveLocals (final c) = []
    /\ directDeps c = []
    /\ nextArgIndex c = 0.
Proof.
  destruct (NewConverter target bc opt w) as [w' [c | e | msg]] eqn:Hnew;
    unfold NewConverter in Hnew; destruct (rand_Int w) as [w1 salt] eqn:Hrand;
    try discriminate.
  exists c. cbn [fst snd].
  assert (Hti := NewConverter_TargetInput target bc opt w w' c).
  unfold NewConverter in Hti. rewrite Hrand in Hti. specialize (Hti Hnew).
  destruct Hti as [Hcanon Hnames].
  inversion Hnew; subst w' c. clear Hnew.
  split; [reflexivity | ]. split; [reflexivity | ].
  split; [cbn; apply lookup_insert_eq | ].
  split; [intros k Hk; cbn; apply lookup_insert_ne; congruence | ].
  split; [exact Hcanon | ]. split; [exact Hnames | ].
  repeat split.
Qed.

(** ** The commands that cannot fail *)

Lemma quiet_ret {A} (a : A) : quiet (ret a).
Proof. intros w c. exists c, a. reflexivity. Qed.

Lemma quiet_get : quiet get.
Proof. intros w c. exists c, c. reflexivity. Qed.

Lemma quiet_modify f : quiet (modify f).
Proof. intros w c. exists (f c), tt. reflexivity. Qed.

Lemma quiet_bind {A B} (m : M A) (k : A -> M B) :
  quiet m -> (forall a, quiet (k a)) -> quiet (bind m k).
Proof.
  intros Hm Hk w c. destruct (Hm w c) as (c1 & a & Hma).
  destruct (Hk a w c1) as (c2 & b & Hkb).
  exists c2, b. unfold bind. rewrite Hma. exact Hkb.
Qed.

Ltac quiet_step :=
  match goal with
  | |- quiet (bind _ _) => apply quiet_bind; [ | intros ]
  | |- quiet (ret _) => apply quiet_ret
  | |- quiet get => apply quiet_get
  | |- quiet (modify _) => apply quiet_modify
  | |- quiet (if ?b then _ else _) => destruct b
  | |- quiet (let '(_, _) := ?x in _) => destruct x
  end.

Lemma apply_quiet cmd : infallible cmd = true -> quiet (apply cmd).
Proof.
  destruct cmd; intros Hi; try discriminate; cbn [apply]; unfold_commands;
    repeat quiet_step.
Qed.

(** X14: COPY of build-context files, SAVE IMAGE, WORKDIR, USER, CMD,
    ENTRYPOINT, EXPOSE, VOLUME, ENV, ARG, LABEL, GIT CLONE, HEALTHCHECK and
    finalizing cannot fail and do no input or output: any sequence of them
    runs to its end and leaves the world as it was. *)
Theorem infallible_commands cmds w c :
  forallb infallible cmds = true ->
  exists c', applyAll cmds w c = (w, c', Ok tt).
Proof.
  revert w c. induction cmds as [ | cmd cmds IH]; intros w c Hall.
  - exists c. reflexivity.
  - simpl in Hall. apply andb_true_iff in Hall. destruct Hall as [Hcmd Hrest].
    destruct (apply_quiet cmd Hcmd w c) as (c1 & [] & Hstep).
    destruct (IH w c1 Hrest) as (c2 & Hall).
    exists c2. simpl. unfold bind. rewrite Hstep. exact Hall.
Qed.

(** ** Builder functions that are nil *)

Lemma notOk_bind_l {A B} (m : M A) (k : A -> M B) w c :
  notOk (m w c).2 -> notOk (bind m k w c).2.
Proof.
  unfold bind. destruct (m w c) as [[w' c'] [a | e | msg]]; simpl; intros Hm;
    [contradiction | exact I ..].
Qed.

Lemma notOk_bind {A B} (m : M A) (k : A -> M B) w c :
  (forall w' c' a, m w c = (w', c', Ok a) -> notOk (k a w' c').2) ->
  notOk (bind m k w c).2.
Proof.
  unfold bind. destruct (m w c) as [[w' c'] [a | e | msg]]; simpl; intros Hk;
    [exact (Hk w' c' a eq_refl) | exact I ..].
Qed.

Lemma preserved_at {A X} (p : Converter -> X) (m : M A) w c w' c' o :
  preserves p m -> m w c = (w', c', o) -> p c' = p c.
Proof. intros Hm Heq. specialize (Hm w c). rewrite Heq in Hm. exact Hm. Qed.

Lemma solveArtifact_nil dep artifact w c :
  artifactBuilderFun c = None -> notOk (solveArtifact dep artifact w c).2.
Proof.
  intros Hnil. unfold solveArtifact. run_monad.
  destruct (ioutil_TempDir "/tmp" "earthly-solve-artifact" w) as [w1 [outDir | e | msg]];
    try exact I.
  rewrite Hnil. exact I.
Qed.

Lemma solveAndLoadOld_nil dep opName dockerTag opts w c :
  dockerBuilderFun c = None -> notOk (solveAndLoadOld dep opName dockerTag opts w c).2.
Proof.
  intros Hnil. unfold solveAndLoadOld. run_monad.
  destruct (ioutil_TempDir "/tmp" "earthly-docker-load" w) as [w1 [outDir | e | msg]];
    try exact I.
  rewrite Hnil. exact I.
Qed.

Lemma Build_configuration fullTargetName buildArgs :
  preserves configuration (Build fullTargetName buildArgs).
Proof. frames. Qed.

Lemma internalFromClassical_configuration imageName opts :
  preserves configuration (internalFromClassical imageName opts).
Proof. unfold internalFromClassical. frames. Qed.

Lemma configuration_artifactBuilderFun c c' :
  configuration c' = configuration c -> artifactBuilderFun c' = artifactBuilderFun c.
Proof. unfold configuration. intros Hc. inversion Hc. reflexivity. Qed.

Lemma configuration_dockerBuilderFun c c' :
  configuration c' = configuration c -> dockerBuilderFun c' = dockerBuilderFun c.
Proof. unfold configuration. intros Hc. inversion Hc. reflexivity. Qed.

(** X15: a converter takes its two builder functions from its options.
    On a converter without an artifact builder, FROM DOCKERFILE with the
    build context of a target cannot succeed: it fails on the way, or
    panics on the call of the nil function.  Likewise DOCKER LOAD and
    DOCKER PULL on a converter without a docker builder. *)
Theorem nil_builder_never_succeeds w c :
  (forall target bc opt w0 w1 c1,
      NewConverter target bc opt w0 = (w1, Ok c1) ->
      artifactBuilderFun c1 = opt_ArtifactBuilderFun opt
      /\ dockerBuilderFun c1 = opt_DockerBuilderFun opt)
  /\ (artifactBuilderFun c = None ->
      forall contextPath dfPath dfTarget buildArgs,
        GoStrings.Contains contextPath "+" = true ->
        notOk (FromDockerfile contextPath dfPath dfTarget buildArgs w c).2)
  /\ (dockerBuilderFun c = None ->
      forall targetName dockerTag buildArgs,
        notOk (DockerLoadOld targetName dockerTag buildArgs w c).2
        /\ notOk (DockerPullOld dockerTag w c).2).
Proof.
  split; [ | split].
  - intros target bc opt w0 w1 c1 Hnew. unfold NewConverter in Hnew.
    destruct (rand_Int w0) as [w2 salt]. inversion Hnew; subst. split; reflexivity.
  - intros Hnil contextPath dfPath dfTarget buildArgs Hplus. unfold FromDockerfile.
    destruct (negb (String.eqb dfPath "")); [exact I | ].
    rewrite Hplus. apply notOk_bind_l. apply notOk_bind. intros w1 c1 artifact Hparse.
    assert (Hc1 : c1 = c).
    { unfold wrap, liftO in Hparse. destruct (ParseArtifact contextPath); congruence. }
    subst c1. apply notOk_bind. intros w2 c2 dep Hbuild.
    apply notOk_bind_l. apply solveArtifact_nil.
    rewrite <- Hnil. apply configuration_artifactBuilderFun.
    exact (preserved_at _ _ _ _ _ _ _ (Build_configuration _ _) Hbuild).
  - intros Hnil targetName dockerTag buildArgs. split.
    + unfold DockerLoadOld. apply notOk_bind. intros w1 c1 depTarget Hparse.
      assert (Hc1 : c1 = c).
      { unfold wrap, liftO in Hparse. destruct (ParseTarget targetName); congruence. }
      subst c1. apply notOk_bind. intros w2 c2 dep Hbuild.
      apply notOk_bind. intros w3 c3 c4 Hget. inversion Hget; subst.
      apply solveAndLoadOld_nil.
      rewrite <- Hnil. apply configuration_dockerBuilderFun.
      exact (preserved_at _ _ _ _ _ _ _ (Build_configuration _ _) Hbuild).
    + unfold DockerPullOld. apply notOk_bind. intros w1 c1 c0 Hget. inversion Hget; subst.
      apply notOk_bind. intros w2 c2 [[state img] vars] Hfrom.
      apply notOk_bind. intros w3 c3 c4 Hget2. inversion Hget2; subst.
      apply solveAndLoadOld_nil.
      rewrite <- Hnil. apply configuration_dockerBuilderFun.
      exact (preserved_at _ _ _ _ _ _ _ (internalFromClassical_configuration _ _) Hfrom).
Qed.

(** X16: BUILD hands the recursive entry options without an artifact
    builder: whatever the entry would do with options that carry one has
    no bearing on a BUILD. *)
Theorem Build_passes_no_artifact_builder (E' : @Entries C) fullTargetName buildArgs w c :
  (forall target opt w0,
      opt_ArtifactBuilderFun opt = None ->
      @Earthfile2LLB C E' target opt w0 = @Earthfile2LLB C E target opt w0) ->
  @Build C E' fullTargetName buildArgs w c = @Build C E fullTargetName buildArgs w c.
Proof.
  intros Hsame. unfold Build, bind, wrap, callEarthfile2LLB.
  destruct (liftO (ParseTarget fullTargetName) w c) as [[w1 c1] [rel | e | msg]];
    try reflexivity.
  destruct (get w1 c1) as [[w2 c2] [c0 | e | msg]]; try reflexivity.
  destruct (liftO (JoinTargets (STS.Target (final c0)) rel) w2 c2)
    as [[w3 c3] [target | e | msg]]; try reflexivity.
  match goal with
  | |- context [WithParseBuildArgs ?a ?b ?f ?d w3 c3] =>
      destruct (WithParseBuildArgs a b f d w3 c3) as [[w4 c4] [vars | e | msg]]
  end; try reflexivity.
  destruct (get w4 c4) as [[w5 c5] [c6 | e | msg]]; try reflexivity.
  rewrite Hsame; reflexivity.
Qed.

(** ** The commands that only write the image config *)

Lemma setConfig_id c : setConfig (fun cfg => cfg) c = c.
Proof.
  destruct c as [g r [[t ti ses [cfg] a sa sl si rp ld on salt] v] dd ddi bc cc vc dbf abf cl n sc irm].
  reflexivity.
Qed.

Lemma setConfig_compose f g c :
  setConfig g (setConfig f c) = setConfig (fun cfg => g (f cfg)) c.
Proof. reflexivity. Qed.

Lemma apply_imageOnly cmd w c :
  imageOnly cmd = true -> exists f, apply cmd w c = (w, setConfig f c, Ok tt).
Proof.
  destruct cmd; intros Hi; try discriminate; cbn [apply]; eexists; reflexivity.
Qed.

(** X17: CMD, ENTRYPOINT, EXPOSE, VOLUME, LABEL and HEALTHCHECK write the
    config of the image and nothing else: after any sequence of them the
    converter is the one from before with an updated image config, so the
    build graph is untouched. *)
Theorem imageOnly_commands cmds w c :
  forallb imageOnly cmds = true ->
  exists f,
    applyAll cmds w c = (w, setConfig f c, Ok tt)
    /\ STS.SideEffectsState (final (setConfig f c)) = STS.SideEffectsState (final c).
Proof.
  revert w c. induction cmds as [ | cmd cmds IH]; intros w c Hall.
  - exists (fun cfg => cfg). rewrite setConfig_id. split; reflexivity.
  - simpl in Hall. apply andb_true_iff in Hall. destruct Hall as [Hcmd Hrest].
    destruct (apply_imageOnly cmd w c Hcmd) as (f & Hstep).
    destruct (IH w (setConfig f c) Hrest) as (g & Hall & _).
    exists (fun cfg => g (f cfg)). split; [ | reflexivity].
    simpl. unfold bind. rewrite Hstep, Hall, setConfig_compose. reflexivity.
Qed.

(** X18: EXPOSE and VOLUME add to what the image already lists, and
    LABEL overwrites the labels it names and keeps the others: a port is
    exposed afterwards exactly when it was before or is among the ports
    given, and likewise for volumes. *)
Theorem Expose_Volume_Label_accumulate w c :
  let cfg := image.Config (STS.SideEffectsImage (final c)) in
  let after (m : M unit) := image.Config (STS.SideEffectsImage (final (m w c).1.2)) in
  (forall ports p,
      p ∈ image.ExposedPorts (after (Expose ports)) <-> p ∈ ports \/ p ∈ image.ExposedPorts cfg)
  /\ (forall volumes v,
         v ∈ image.Volumes (after (Volume volumes)) <-> v ∈ volumes \/ v ∈ image.Volumes cfg)
  /\ (forall labels key,
         image.Labels (after (Label labels)) !! key
         = match labels !! key with
           | Some value => Some value
           | None => image.Labels cfg !! key
           end).
Proof.
  intros cfg after. subst cfg after. cbn.
  split; [ | split].
  - intros ports p. rewrite elem_of_union, elem_of_list_to_set. reflexivity.
  - intros volumes v. rewrite elem_of_union, elem_of_list_to_set. reflexivity.
  - intros labels key. rewrite lookup_union.
    destruct (labels !! key) as [value | ]; simpl.
    + destruct (image.Labels _ !! key); reflexivity.
    + destruct (image.Labels _ !! key); reflexivity.
Qed.

(** ** What only grows *)

Lemma evolves_bind {A B} (R : Converter -> Converter -> Prop) (m : M A) (k : A -> M B) :
  (forall x y z, R x y -> R y z -> R x z) ->
  evolves R m -> (forall a, evolves R (k a)) -> evolves R (bind m k).
Proof.
  intros Htrans Hm Hk w c. unfold bind. specialize (Hm w c).
  destruct (m w c) as [[w' c'] [a | e | msg]]; simpl in *; try assumption.
  exact (Htrans _ _ _ Hm (Hk a w' c')).
Qed.

Lemma evolves_wrap {A} (R : Converter -> Converter -> Prop) (m : M A) msg :
  evolves R m -> evolves R (wrap m msg).
Proof.
  intros Hm w c. unfold wrap. specialize (Hm w c).
  destruct (m w c) as [[w' c'] [a | e | s]]; assumption.
Qed.

Lemma evolves_preserves {A X} (p : Converter -> X) (R : Converter -> Converter -> Prop)
      (m : M A) :
  (forall c c', p c' = p c -> R c c') -> preserves p m -> evolves R m.
Proof. intros HR Hm w c. apply HR. apply Hm. Qed.

Lemma evolves_modify (R : Converter -> Converter -> Prop) f :
  (forall c, R c (f c)) -> evolves R (modify f).
Proof. intros Hf w c. apply Hf. Qed.

Lemma evolves_applyAll (R : Converter -> Converter -> Prop) cmds :
  (forall x, R x x) -> (forall x y z, R x y -> R y z -> R x z) ->
  (forall cmd, evolves R (apply cmd)) -> evolves R (applyAll cmds).
Proof.
  intros Hrefl Htrans Hcmd. induction cmds as [ | cmd cmds IH]; simpl.
  - intros w c. apply Hrefl.
  - apply evolves_bind; [exact Htrans | apply Hcmd | intros _; exact IH].
Qed.

(** Progress through a computation, down to the steps that write. *)
Ltac evolve_steps Htrans :=
  repeat match goal with
         | |- evolves _ (bind _ _) => apply evolves_bind; [exact Htrans | | intros]
         | |- evolves _ (wrap _ _) => apply evolves_wrap
         | |- evolves _ (if ?b then _ else _) => destruct b
         | |- evolves _ (match ?x with _ => _ end) => destruct x
         end.

Lemma keepsLocalDirs_refl c : keepsLocalDirs c c.
Proof. unfold keepsLocalDirs. reflexivity. Qed.

Lemma keepsLocalDirs_trans x y z :
  keepsLocalDirs x y -> keepsLocalDirs y z -> keepsLocalDirs x z.
Proof. unfold keepsLocalDirs. intros Hxy Hyz. etransitivity; eassumption. Qed.

Ltac localDirs_leaf :=
  first
    [ apply (evolves_preserves (fun c => STS.LocalDirs (final c)));
      [ intros ? ? Hp; unfold keepsLocalDirs; rewrite Hp; reflexivity
      | frames; try frame_leftover ]; fail
    | apply evolves_modify; intros; unfold keepsLocalDirs; rewrite !final_setFinal; cbn;
      rewrite ?dom_union_L, ?dom_insert_L; set_solver ].

Lemma apply_keepsLocalDirs cmd : evolves keepsLocalDirs (apply cmd).
Proof.
  destruct cmd; cbn [apply]; unfold_commands;
    evolve_steps keepsLocalDirs_trans; localDirs_leaf.
Qed.

(** X19: a local directory that the STS needs is never dropped: through
    any sequence of the commands of [Command] (WITH DOCKER, whose body is
    in another file, is not one of them), whether they succeed or fail,
    every name registered in [LocalDirs] stays registered. *)
Theorem LocalDirs_only_grow cmds w c :
  dom (STS.LocalDirs (final c)) ⊆ dom (STS.LocalDirs (final (applyAll cmds w c).1.2)).
Proof.
  apply (evolves_applyAll keepsLocalDirs cmds keepsLocalDirs_refl keepsLocalDirs_trans).
  exact apply_keepsLocalDirs.
Qed.

Lemma extendsDeps_refl c : extendsDeps c c.
Proof. unfold extendsDeps. reflexivity. Qed.

Lemma extendsDeps_trans x y z : extendsDeps x y -> extendsDeps y z -> extendsDeps x z.
Proof. unfold extendsDeps. intros Hxy Hyz. etransitivity; eassumption. Qed.

Lemma Build_extendsDeps fullTargetName buildArgs :
  evolves extendsDeps (Build fullTargetName buildArgs).
Proof.
  intros w c. unfold extendsDeps.
  destruct (Build fullTargetName buildArgs w c) as [[w' c'] o] eqn:Hb.
  pose proof (Build_directDeps_eq _ _ _ _ _ _ _ Hb) as Hd. cbn [fst snd].
  destruct o as [dep | e | msg]; rewrite Hd; [apply prefix_app_r | ..]; reflexivity.
Qed.

Ltac deps_leaf :=
  first
    [ apply Build_extendsDeps
    | apply (evolves_preserves directDeps);
      [ intros ? ? Hp; unfold extendsDeps; rewrite Hp; reflexivity
      | first [ apply WithParseBuildArgs_directDeps | frames; try frame_leftover ] ] ].

Lemma apply_extendsDeps cmd : evolves extendsDeps (apply cmd).
Proof.
  destruct cmd; cbn [apply]; unfold_commands;
    evolve_steps extendsDeps_trans; deps_leaf.
Qed.

Lemma apply_directDeps cmd :
  callsBuild cmd = false -> preserves directDeps (apply cmd).
Proof. destruct cmd; intros Hb; try discriminate; cbn [apply]; command_frames. Qed.

(** X20: the direct dependencies only grow, at their end: through any
    commands, whether they succeed or fail, the dependencies recorded
    before are still the first ones afterwards, so finalizing bonds every
    target that was built along the way.  Only the commands that build a
    target record any. *)
Theorem directDeps_only_grow cmds w c :
  directDeps c `prefix_of` directDeps (applyAll cmds w c).1.2
  /\ (forallb (fun cmd => negb (callsBuild cmd)) cmds = true ->
      directDeps (applyAll cmds w c).1.2 = directDeps c).
Proof.
  split.
  - apply (evolves_applyAll extendsDeps cmds extendsDeps_refl extendsDeps_trans).
    exact apply_extendsDeps.
  - intros Hcmds. apply (preserves_applyAll directDeps cmds).
    intros cmd Hin. apply apply_directDeps.
    apply negb_true_iff. exact (forallb_In _ _ _ Hcmds Hin).
Qed.

(** X21: a target that was built is bonded at the end: after a BUILD
    that succeeded and any further commands, whatever they yield,
    finalizing makes the side-effects state of the built target an
    artificial-dependency parent of the final side-effects state. *)
Theorem built_targets_are_bonded fullTargetName buildArgs cmds w c w1 c1 dep :
  Build fullTargetName buildArgs w c = (w1, c1, Ok dep) ->
  let c2 := (applyAll cmds w1 c1).1.2 in
  forall w2,
    In (STS.SideEffectsState (MTS.FinalStates dep))
       (dependencyParents (STS.SideEffectsState (final (FinalizeStates w2 c2).1.2))).
Proof.
  intros Hbuild c2 w2.
  pose proof (Build_directDeps_eq _ _ _ _ _ _ _ Hbuild) as Hdeps. cbn in Hdeps.
  assert (Hin : In (MTS.FinalStates dep) (directDeps c2)).
  { pose proof (evolves_applyAll extendsDeps cmds extendsDeps_refl extendsDeps_trans
                                 apply_extendsDeps w1 c1) as [more Hmore].
    fold c2 in Hmore. rewrite Hmore, Hdeps.
    apply in_or_app. left. apply in_or_app. right. left. reflexivity. }
  destruct (finalize_fold_parents (directDeps c2) (final c2)) as [Hp _].
  simpl. rewrite !final_setFinal. cbn [STS.SideEffectsState STS.setOngoing].
  rewrite Hp. apply in_or_app. left.
  apply in_rev. rewrite rev_involutive. apply in_map. exact Hin.
Qed.

(** ** DOCKER LOAD *)

(** X22: when the load of a docker tar succeeds, the temporary directory
    that holds the tar is registered in [LocalDirs] under the name of the
    operation, replacing an entry of that name, and the side-effects state
    is a privileged run on top of the state from before with
    [/var/lib/docker] created; a docker builder was there to call. *)
Theorem solveAndLoadOld_registers dep opName dockerTag opts w c w' c' :
  solveAndLoadOld dep opName dockerTag opts w c = (w', c', Ok tt) ->
  exists w1 outDir loadOpts,
    ioutil_TempDir "/tmp" "earthly-docker-load" w = (w1, Ok outDir)
    /\ dockerBuilderFun c <> None
    /\ STS.LocalDirs (final c') = <[opName := outDir]> (STS.LocalDirs (final c))
    /\ In (llb.Security true) loadOpts
    /\ (forall o, In o opts -> In o loadOpts)
    /\ STS.SideEffectsState (final c')
       = (let base :=
            llb.File (STS.SideEffectsState (final c))
                     (llb.Mkdir "/var/lib/docker" 493 [llb.WithParents true])
                     "[internal] mkdir /var/lib/docker" in
          llb.RunAddMount base loadOpts "/var/lib/docker" base
                          [llb.SourcePath "/var/lib/docker"]).
Proof.
  unfold solveAndLoadOld. run_monad.
  destruct (ioutil_TempDir "/tmp" "earthly-docker-load" w) as [w1 [outDir | e | msg]];
    try discriminate.
  destruct (dockerBuilderFun c) as [f | ] eqn:Hf; [ | discriminate].
  match goal with
  | |- context [f dep dockerTag ?file ?w0] =>
      destruct (f dep dockerTag file w0) as [w2 [[] | e | msg]]
  end; try discriminate.
  match goal with
  | |- context [dockertar_GetID ?file w2] =>
      destruct (dockertar_GetID file w2) as [w3 [id | e | msg]]
  end; try discriminate.
  intros Heq. inversion Heq; subst w' c'. clear Heq.
  do 3 eexists. split; [reflexivity | ]. split; [discriminate | ].
  split; [reflexivity | ].
  split; [ | split; [ | cbn; reflexivity]].
  - right. right. right. left. reflexivity.
  - intros o Ho. do 4 right. exact Ho.
Qed.

(** ** References that do not parse *)

(** X23: a reference that does not parse fails the command before
    anything is built or changed, and the error is the parser's, wrapped
    with the reference; so does a [-f] path in FROM DOCKERFILE. *)
Theorem unparsable_reference_changes_nothing w c :
  (forall name buildArgs e,
      ParseTarget name = Err e ->
      Build name buildArgs w c = (w, c, Err (Wrap e ("earth target parse " +:+ name)))
      /\ (GoStrings.Contains name "+" = true ->
          From name buildArgs w c = (w, c, Err (Wrap e ("parse target name " +:+ name))))
      /\ (forall dockerTag,
             DockerLoadOld name dockerTag buildArgs w c
             = (w, c, Err (Wrap e ("parse target " +:+ name)))))
  /\ (forall name dest buildArgs isDir chown e,
         ParseArtifact name = Err e ->
         CopyArtifact name dest buildArgs isDir chown w c
         = (w, c, Err (Wrap e ("parse artifact name " +:+ name)))
         /\ (GoStrings.Contains name "+" = true ->
             forall dfTarget,
               FromDockerfile name "" dfTarget buildArgs w c
               = (w, c, Err (Wrap e ("parse artifact " +:+ name)))))
  /\ (forall contextPath dfPath dfTarget buildArgs,
         dfPath <> ""%string ->
         FromDockerfile contextPath dfPath dfTarget buildArgs w c
         = (w, c, Err (NewError "FROM DOCKERFILE -f not yet supported"))).
Proof.
  split; [ | split].
  - intros name buildArgs e Hparse. split; [ | split].
    + unfold Build. run_monad. rewrite Hparse. reflexivity.
    + intros Hplus. unfold From. rewrite Hplus. unfold fromTarget. run_monad.
      rewrite Hparse. reflexivity.
    + intros dockerTag. unfold DockerLoadOld. run_monad. rewrite Hparse. reflexivity.
  - intros name dest buildArgs isDir chown e Hparse. split.
    + unfold CopyArtifact. run_monad. rewrite Hparse. reflexivity.
    + intros Hplus dfTarget. unfold FromDockerfile. cbn [String.eqb negb].
      rewrite Hplus. run_monad. rewrite Hparse. reflexivity.
  - intros contextPath dfPath dfTarget buildArgs Hne. unfold FromDockerfile.
    apply String.eqb_neq in Hne. rewrite Hne. reflexivity.
Qed.

End Properties.

(** * The statements on the sample environment *)

Section OnSample.
Existing Instance Sample.collaborators.
Existing Instance Sample.entries.

Lemma reachable_applyAll cmds : forall w c,
  reachable w c -> reachable (applyAll cmds w c).1.1 (applyAll cmds w c).1.2.
Proof.
  induction cmds as [ | cmd cmds IH]; intros w c Hr; [exact Hr | ].
  simpl. unfold bind. destruct (apply cmd w c) as [[w1 c1] o] eqn:Hstep.
  pose proof (reachable_step cmd w c w1 c1 o Hr Hstep) as Hr1.
  destruct o as [[] | e | msg]; [apply IH; exact Hr1 | exact Hr1 ..].
Qed.

Lemma reachable_conv1 : reachable Sample.world1 Sample.conv1.
Proof.
  apply (reachable_new Sample.app Sample.appData Sample.appOpt Sample.world0).
  reflexivity.
Qed.

Lemma cacheKey_ignores_tag_witness :
  cacheKey (mkTarget "." "." "app" "v1") = cacheKey (mkTarget "." "." "app" "v2").
Proof.
  apply (cacheKey_ignores_tag (mkTarget "." "." "app" "v1") (mkTarget "." "." "app" "v2"));
    reflexivity.
Defined.

Lemma From_dispatch_witness :
  GoStrings.Contains "alpine:3.13" "+" = false
  /\ From "alpine:3.13" ["VER=1"%string] Sample.world1 Sample.conv1
     = (Sample.world1, Sample.conv1,
        Err (NewError "--build-arg not supported in non-target FROM")).
Proof.
  split; [reflexivity | ].
  apply (From_dispatch "alpine:3.13" ["VER=1"%string] Sample.world1 Sample.conv1);
    [reflexivity | discriminate].
Defined.

Lemma processNonConstantBuildArgFunc_effect_witness :
  int_min <= nextArgIndex Sample.conv1 < int_max
  /\ nextArgIndex (processNonConstantBuildArgFunc "K" "K" Sample.world1 Sample.conv1).1.2 = 1
  /\ STS.SideEffectsState
       (final (processNonConstantBuildArgFunc "K" "K" Sample.world1 Sample.conv1).1.2)
     <> STS.SideEffectsState (final Sample.conv1).
Proof.
  assert (Hrange : int_min <= nextArgIndex Sample.conv1 < int_max)
    by (change (nextArgIndex Sample.conv1) with 0; unfold int_min, int_max; lia).
  split; [exact Hrange | ].
  destruct (processNonConstantBuildArgFunc_effect "K" "K" Sample.world1 Sample.conv1 Hrange)
    as (opts & envVars & _ & _ & Hses & Hidx & _).
  split; [rewrite Hidx; reflexivity | ].
  rewrite Hses. discriminate.
Defined.


Lemma SaveLocal_index_in_range_witness :
  reachable (applyAll Sample.saveScenario Sample.world1 Sample.conv1).1.1
            (applyAll Sample.saveScenario Sample.world1 Sample.conv1).1.2
  /\ length (STS.SaveLocals (final (applyAll Sample.saveScenario Sample.world1 Sample.conv1).1.2))
     = 2%nat
  /\ forall sl,
       In sl (STS.SaveLocals (final (applyAll Sample.saveScenario Sample.world1 Sample.conv1).1.2)) ->
       0 <= SaveLocal.Index sl
         < Z.of_nat (length (STS.SeparateArtifactsState
                               (final (applyAll Sample.saveScenario Sample.world1 Sample.conv1).1.2))).
Proof.
  assert (Hreach : reachable (applyAll Sample.saveScenario Sample.world1 Sample.conv1).1.1
                             (applyAll Sample.saveScenario Sample.world1 Sample.conv1).1.2)
    by (apply reachable_applyAll; exact reachable_conv1).
  split; [exact Hreach | ]. split; [vm_compute; reflexivity | ].
  exact (proj1 (SaveLocal_index_in_range _ _ Hreach)).
Defined.

Lemma Run_entrypoint_without_args_witness :
  image.Entrypoint (image.Config (STS.SideEffectsImage (final Sample.conv2)))
  = ["/bin/app"%string]
  /\ image.Cmd (image.Config (STS.SideEffectsImage (final Sample.conv2))) = ["serve"%string]
  /\ (Run [] [] [] false true false true false false Sample.world1 Sample.conv2).2 = Ok tt
  /\ topRunArgs
       (STS.SideEffectsState
          (final (Run [] [] [] false true false true false false
                      Sample.world1 Sample.conv2).1.2))
     = [["/bin/app"%string]]
  /\ exists opts envVars,
       final (Run [] [] [] false true false true false false Sample.world1 Sample.conv2).1.2
       = applyRun false "RUN --entrypoint /bin/app"
           (opts ++ [llb.Args (withShellAndEnvVars ["/bin/app"%string] envVars false true)])
           (final Sample.conv2).
Proof.
  split; [reflexivity | ]. split; [reflexivity | ]. split; [vm_compute; reflexivity | ].
  split; [vm_compute; reflexivity | ].
  apply (Run_entrypoint_without_args [] [] false false true false false
           Sample.world1 Sample.conv2 Sample.world1).
  vm_compute. reflexivity.
Defined.

(** C6: what the code does when the dep has a local directory of its own.
    The target [+lib] needs the directory [../base]; after
    [COPY +lib/x /x] in [+app] the
    copy has succeeded, [+lib] is a direct dependency, and the caller's
    [LocalDirs] are what they were: [../base] is not among them. *)
Theorem CopyArtifact_misses_LocalDirs :
  (CopyArtifact "+lib/x" "/x" [] false "" Sample.world1 Sample.conv1).2 = Ok tt
  /\ map (fun dep => STS.LocalDirs dep !! "../base"%string)
         (directDeps (CopyArtifact "+lib/x" "/x" [] false "" Sample.world1 Sample.conv1).1.2)
     = [Some "../base"%string]
  /\ STS.LocalDirs (final (CopyArtifact "+lib/x" "/x" [] false ""
                                        Sample.world1 Sample.conv1).1.2) !! "../base"%string
     = None
  /\ STS.LocalDirs (final (CopyArtifact "+lib/x" "/x" [] false ""
                                        Sample.world1 Sample.conv1).1.2)
     = STS.LocalDirs (final Sample.conv1).
Proof.
  split; [vm_compute; reflexivity | ]. split; [vm_compute; reflexivity | ].
  split; [vm_compute; reflexivity | ].
  apply (CopyArtifact_LocalDirs "+lib/x" "/x" [] false "" Sample.world1 Sample.conv1).
Qed.





(** ** The further statements on the sample environment *)

Lemma Ongoing_until_finalize_witness :
  forallb (fun cmd => negb (finalizes cmd)) Sample.saveScenario = true
  /\ exists w1 c,
       NewConverter Sample.app Sample.appData Sample.appOpt Sample.world0 = (w1, Ok c)
       /\ STS.Ongoing (final (applyAll Sample.saveScenario w1 c).1.2) = true
       /\ STS.Ongoing
            (final (bind (applyAll Sample.saveScenario) (fun _ => FinalizeStates) w1 c).1.2)
          = false.
Proof.
  split; [reflexivity | ].
  destruct (Ongoing_until_finalize Sample.app Sample.appData Sample.appOpt Sample.world0
              Sample.saveScenario eq_refl) as (w1 & c & Hnew & _ & Hon & Hfin).
  exists w1, c. split; [exact Hnew | ]. split; [exact Hon | ].
  rewrite Hfin. inversion Hnew; subst w1 c. vm_compute. reflexivity.
Defined.

Lemma RunPush_only_by_push_witness :
  forallb (fun cmd => negb (isPush cmd)) Sample.saveScenario = true
  /\ STS.RunPush (final (applyAll Sample.saveScenario Sample.world1 Sample.conv1).1.2)
     = STS.RunPush (final Sample.conv1).
Proof.
  split; [reflexivity | ].
  apply (RunPush_only_by_push Sample.saveScenario Sample.world1 Sample.conv1). reflexivity.
Defined.

Lemma varCollection_only_by_from_env_arg_witness :
  forallb (fun cmd => negb (changesVars cmd)) Sample.buildScenario = true
  /\ (applyAll Sample.buildScenario Sample.world1 Sample.conv1).2 = Ok tt
  /\ varCollection (applyAll Sample.buildScenario Sample.world1 Sample.conv1).1.2
     = varCollection Sample.conv1.
Proof.
  split; [reflexivity | ]. split; [vm_compute; reflexivity | ].
  apply (varCollection_only_by_from_env_arg Sample.buildScenario Sample.world1 Sample.conv1).
  reflexivity.
Defined.

Lemma infallible_commands_witness :
  forallb infallible Sample.plainScenario = true
  /\ exists c', applyAll Sample.plainScenario Sample.world1 Sample.conv1
                = (Sample.world1, c', Ok tt).
Proof.
  split; [reflexivity | ].
  apply (infallible_commands Sample.plainScenario Sample.world1 Sample.conv1). reflexivity.
Defined.

Lemma imageOnly_commands_witness :
  forallb imageOnly Sample.describeScenario = true
  /\ exists f,
       applyAll Sample.describeScenario Sample.world1 Sample.conv1
       = (Sample.world1, setConfig f Sample.conv1, Ok tt)
       /\ STS.SideEffectsState (final (setConfig f Sample.conv1))
          = STS.SideEffectsState (final Sample.conv1).
Proof.
  split; [reflexivity | ].
  apply (imageOnly_commands Sample.describeScenario Sample.world1 Sample.conv1). reflexivity.
Defined.

Lemma Build_passes_no_artifact_builder_witness :
  @Build Sample.collaborators Sample.strictEntries "+img" ["VER=2"%string]
         Sample.world1 Sample.conv1
  = @Build Sample.collaborators Sample.entries "+img" ["VER=2"%string]
           Sample.world1 Sample.conv1.
Proof.
  apply (@Build_passes_no_artifact_builder Sample.collaborators Sample.entries
           Sample.strictEntries "+img" ["VER=2"%string] Sample.world1 Sample.conv1).
  intros target opt w0 Hnil. simpl. rewrite Hnil. reflexivity.
Defined.

Lemma built_targets_are_bonded_witness :
  exists w1 c1 dep,
    Build "+img" [] Sample.world1 Sample.conv1 = (w1, c1, Ok dep)
    /\ In (llb.Foreign "state of .+img")
          (dependencyParents
             (STS.SideEffectsState
                (final (FinalizeStates w1 (applyAll Sample.saveScenario w1 c1).1.2).1.2))).
Proof.
  assert (Hbuild : Build "+img" [] Sample.world1 Sample.conv1
                   = ((Build "+img" [] Sample.world1 Sample.conv1).1.1,
                      (Build "+img" [] Sample.world1 Sample.conv1).1.2,
                      Ok (Sample.value (MTS.mk zeroSTS ∅)
                                       (Build "+img" [] Sample.world1 Sample.conv1).2)))
    by (vm_compute; reflexivity).
  do 3 eexists. split; [exact Hbuild | ].
  exact (built_targets_are_bonded "+img" [] Sample.saveScenario Sample.world1 Sample.conv1
           _ _ _ Hbuild _).
Defined.

Lemma solveAndLoadOld_registers_witness :
  exists w' c',
    DockerPullOld "alpine:3.13" Sample.world1 Sample.conv3 = (w', c', Ok tt)
    /\ STS.LocalDirs (final c') !! "alpine:3.13"%string
       = Some "/tmp/earthly-docker-load1"%string.
Proof.
  assert (Hload :
    let dep :=
      MTS.mk (STS.setSaveImages
                [SaveImage.mk (llb.Image "alpine:3.13"
                                 [llb.ImageCustomName
                                    (vertexPrefix Sample.conv3 +:+ "DOCKER PULL alpine:3.13");
                                  llb.ImagePlatform llb.TargetPlatform;
                                  llb.ImageResolveMode llb.ResolveModeDefault])
                              image.NewImage "alpine:3.13" false]
                (STS.setSideEffectsImage image.NewImage
                   (STS.setSideEffectsState
                      (llb.Image "alpine:3.13"
                         [llb.ImageCustomName
                            (vertexPrefix Sample.conv3 +:+ "DOCKER PULL alpine:3.13");
                          llb.ImagePlatform llb.TargetPlatform;
                          llb.ImageResolveMode llb.ResolveModeDefault]) zeroSTS))) ∅ in
    let opts :=
      [llb.RunCustomName (vertexPrefix Sample.conv3 +:+ "DOCKER LOAD (PULL alpine:3.13)")] in
    solveAndLoadOld dep "alpine:3.13" "alpine:3.13" opts Sample.world1 Sample.conv3
    = ((DockerPullOld "alpine:3.13" Sample.world1 Sample.conv3).1.1,
       (DockerPullOld "alpine:3.13" Sample.world1 Sample.conv3).1.2, Ok tt))
    by (vm_compute; reflexivity).
  cbv zeta in Hload.
  destruct (solveAndLoadOld_registers _ _ _ _ _ _ _ _ Hload)
    as (w1 & outDir & loadOpts & Htmp & _ & Hdirs & _).
  exists (DockerPullOld "alpine:3.13" Sample.world1 Sample.conv3).1.1,
         (DockerPullOld "alpine:3.13" Sample.world1 Sample.conv3).1.2.
  split; [vm_compute; reflexivity | ].
  rewrite Hdirs, lookup_insert_eq.
  vm_compute in Htmp. inversion Htmp. reflexivity.
Defined.

Lemma nil_builder_never_succeeds_witness :
  artifactBuilderFun Sample.conv1 = None
  /\ dockerBuilderFun Sample.conv1 = None
  /\ (FromDockerfile "+img/ctx" "" "" [] Sample.world1 Sample.conv1).2
     = Panic "call of a nil function"
  /\ notOk (FromDockerfile "+img/ctx" "" "" [] Sample.world1 Sample.conv1).2
  /\ notOk (DockerPullOld "alpine:3.13" Sample.world1 Sample.conv1).2.
Proof.
  destruct (nil_builder_never_succeeds Sample.world1 Sample.conv1) as (_ & Hart & Hdock).
  split; [reflexivity | ]. split; [reflexivity | ]. split; [vm_compute; reflexivity | ].
  split.
  - apply (Hart eq_refl). reflexivity.
  - apply (Hdock eq_refl "+img" "alpine:3.13" []).
Defined.

Lemma ArtifactsState_only_by_SaveArtifact_witness :
  (apply (CSaveArtifact "/out/x" "" "./x") Sample.world1 Sample.conv1).2 = Ok tt
  /\ STS.SideEffectsState
       (final (apply (CSaveArtifact "/out/x" "" "./x") Sample.world1 Sample.conv1).1.2)
     = STS.SideEffectsState (final Sample.conv1)
  /\ STS.ArtifactsState
       (final (apply (CRun ["make"%string] [] [] false false false true false false)
                     Sample.world1 Sample.conv1).1.2)
     = STS.ArtifactsState (final Sample.conv1).
Proof.
  split; [vm_compute; reflexivity | ]. split.
  - destruct (ArtifactsState_only_by_SaveArtifact (CSaveArtifact "/out/x" "" "./x")
                Sample.world1 Sample.conv1) as [_ Hsave].
    destruct (Hsave "/out/x"%string ""%string "./x"%string eq_refl) as (Hses & _).
    exact Hses.
  - destruct (ArtifactsState_only_by_SaveArtifact
                (CRun ["make"%string] [] [] false false false true false false)
                Sample.world1 Sample.conv1) as [Hother _].
    exact (Hother eq_refl).
Defined.

Lemma TargetInput_only_by_Arg_witness :
  forallb (fun cmd => negb (isArg cmd)) Sample.buildScenario = true
  /\ STS.TargetInput (final (applyAll Sample.buildScenario Sample.world1 Sample.conv1).1.2)
     = STS.TargetInput (final Sample.conv1)
  /\ map BuildArgInput_Name
         (BuildArgs (STS.TargetInput (final (Arg "VER" "1" Sample.world1 Sample.conv1).1.2)))
     = ["GLOBAL"; "VER"]%string.
Proof.
  destruct (TargetInput_only_by_Arg Sample.buildScenario "VER" "1" Sample.world1 Sample.conv1)
    as (Hkeep & _ & _ & _).
  split; [reflexivity | ]. split; [exact (Hkeep eq_refl) | ].
  vm_compute. reflexivity.
Defined.

Lemma LocalDirs_only_grow_witness :
  "."%string ∈ dom (STS.LocalDirs (final Sample.conv3))
  /\ "."%string
       ∈ dom (STS.LocalDirs
                (final (applyAll [CDockerPullOld "alpine:3.13"] Sample.world1 Sample.conv3).1.2))
  /\ STS.LocalDirs
       (final (applyAll [CDockerPullOld "alpine:3.13"] Sample.world1 Sample.conv3).1.2)
     <> STS.LocalDirs (final Sample.conv3).
Proof.
  assert (Hin : "."%string ∈ dom (STS.LocalDirs (final Sample.conv3))).
  { apply elem_of_dom. exists "."%string. vm_compute. reflexivity. }
  pose proof (LocalDirs_only_grow [CDockerPullOld "alpine:3.13"] Sample.world1 Sample.conv3)
    as Hgrow.
  split; [exact Hin | ]. split; [exact (Hgrow _ Hin) | ].
  intros Heq.
  assert (Hnew : STS.LocalDirs
                   (final (applyAll [CDockerPullOld "alpine:3.13"] Sample.world1
                                    Sample.conv3).1.2) !! "alpine:3.13"%string
                 = STS.LocalDirs (final Sample.conv3) !! "alpine:3.13"%string)
    by (rewrite Heq; reflexivity).
  vm_compute in Hnew. discriminate Hnew.
Defined.

Lemma directDeps_only_grow_witness :
  directDeps Sample.conv1 `prefix_of`
    directDeps (applyAll Sample.buildScenario Sample.world1 Sample.conv1).1.2
  /\ length (directDeps (applyAll Sample.buildScenario Sample.world1 Sample.conv1).1.2) = 1%nat
  /\ forallb (fun cmd => negb (callsBuild cmd)) Sample.plainScenario = true
  /\ directDeps (applyAll Sample.plainScenario Sample.world1 Sample.conv1).1.2
     = directDeps Sample.conv1.
Proof.
  split; [ | split; [vm_compute; reflexivity | split; [reflexivity | ]]].
  - apply (directDeps_only_grow Sample.buildScenario Sample.world1 Sample.conv1).
  - apply (directDeps_only_grow Sample.plainScenario Sample.world1 Sample.conv1). reflexivity.
Defined.

Lemma unparsable_reference_changes_nothing_witness :
  ParseTarget "img" = Err (NewError "invalid target img")
  /\ Build "img" [] Sample.world1 Sample.conv1
     = (Sample.world1, Sample.conv1,
        Err (Wrap (NewError "invalid target img") "earth target parse img"))
  /\ FromDockerfile "." "Dockerfile.dev" "" [] Sample.world1 Sample.conv1
     = (Sample.world1, Sample.conv1, Err (NewError "FROM DOCKERFILE -f not yet supported")).
Proof.
  destruct (unparsable_reference_changes_nothing Sample.world1 Sample.conv1)
    as (Htarget & _ & Hfile).
  split; [reflexivity | ]. split.
  - destruct (Htarget "img"%string [] (NewError "invalid target img") eq_refl) as [Hbuild _].
    exact Hbuild.
  - apply Hfile. discriminate.
Defined.

Lemma User_then_Workdir_witness :
  GoPath.IsAbs "/srv/app" = true
  /\ STS.SideEffectsState
       (final (bind (User "app") (fun _ => Workdir "/srv/app") Sample.world1 Sample.conv1).1.2)
     = llb.File (llb.Dir (llb.User llb.scratch "app") "/srv/app")
                (llb.Mkdir "/srv/app" 493 [llb.WithParents true; llb.WithUser "app"])
                (vertexPrefix Sample.conv1 +:+ "WORKDIR /srv/app").
Proof.
  split; [reflexivity | ].
  assert (Huser : "app"%string <> ""%string) by discriminate.
  assert (Hroot : "/srv/app"%string <> "/"%string) by discriminate.
  destruct (User_then_Workdir "app" "/srv/app" Sample.world1 Sample.conv1 Huser eq_refl Hroot)
    as (_ & _ & _ & Hstate).
  exact Hstate.
Defined.

End OnSample.
